(** * pisco: a Telnet session with a Cisco IOS device

    A shallow embedding of [src/pisco.py], class [TelnetDevice]: the login
    handshake performed by [__init__], [send_command], [read_output],
    [enable] and [get_int_status], together with the part of Python's
    [str] API these methods rely on.

    Text is decoded with Latin-1, which maps the byte [n] to the code
    point [n]; a decoded response is therefore a [string] of 8-bit
    [ascii] characters. *)

From stdpp Require Import gmap strings list fin_maps.
From Stdlib Require Import Ascii String ZArith Lia.

Local Open Scope string_scope.
Local Open Scope list_scope.

(** ** Python's [str] methods used by the program *)

Module PyStr.

Definition code (c : ascii) : nat := nat_of_ascii c.

(** [str.isspace] restricted to code points below 256. *)
Definition isspace (c : ascii) : bool :=
  let n := code c in
  (((9 <=? n) && (n <=? 13)) || ((28 <=? n) && (n <=? 32))
   || (n =? 133) || (n =? 160))%nat.

(** The line boundaries of [str.splitlines] below code point 256. *)
Definition islinebreak (c : ascii) : bool :=
  let n := code c in
  (((10 <=? n) && (n <=? 13)) || ((28 <=? n) && (n <=? 30)) || (n =? 133))%nat.

Definition is_empty (s : string) : bool :=
  match s with EmptyString => true | String _ _ => false end.

(** Truthiness of an optional string: [None] and [""] are falsy. *)
Definition truthy (o : option string) : bool :=
  match o with Some s => negb (is_empty s) | None => false end.

Fixpoint string_drop (n : nat) (s : string) : string :=
  match n, s with
  | O, _ => s
  | S _, EmptyString => EmptyString
  | S n', String _ s' => string_drop n' s'
  end.

Fixpoint string_take (n : nat) (s : string) : string :=
  match n, s with
  | O, _ => EmptyString
  | S _, EmptyString => EmptyString
  | S n', String c s' => String c (string_take n' s')
  end.

(** [s[i:j]] for non-negative constants [i], [j]; out-of-range bounds
    are clamped, as Python does. *)
Definition slice (i j : nat) (s : string) : string := string_take (j - i) (string_drop i s).

(** [s[i:]] *)
Definition slice_from (i : nat) (s : string) : string := string_drop i s.

Fixpoint startswith (pre s : string) : bool :=
  match pre, s with
  | EmptyString, _ => true
  | String _ _, EmptyString => false
  | String a pre', String b s' => Ascii.eqb a b && startswith pre' s'
  end.

Definition endswith (suf s : string) : bool :=
  (String.length suf <=? String.length s)%nat
  && String.eqb (string_drop (String.length s - String.length suf) s) suf.

(** [sub in s] *)
Fixpoint contains (sub s : string) : bool :=
  startswith sub s
  || match s with
     | EmptyString => false
     | String _ s' => contains sub s'
     end.

Fixpoint lstrip_by (p : ascii -> bool) (s : string) : string :=
  match s with
  | EmptyString => EmptyString
  | String c s' => if p c then lstrip_by p s' else s
  end.

Fixpoint rstrip_by (p : ascii -> bool) (s : string) : string :=
  match s with
  | EmptyString => EmptyString
  | String c s' =>
      let r := rstrip_by p s' in
      if is_empty r && p c then EmptyString else String c r
  end.

(** [s.strip()] *)
Definition strip (s : string) : string := rstrip_by isspace (lstrip_by isspace s).

(** [s.rstrip(chars)] *)
Definition rstrip (chars s : string) : string :=
  rstrip_by (fun c => contains (String c EmptyString) chars) s.

(** [s.split(sep)] for a one-character separator. *)
Fixpoint split (sep : ascii) (s : string) : list string :=
  match s with
  | EmptyString => [EmptyString]
  | String c s' =>
      if Ascii.eqb c sep then EmptyString :: split sep s'
      else match split sep s' with
           | h :: t => String c h :: t
           | [] => [String c EmptyString]
           end
  end.

(** [s.splitlines()]: a carriage return followed by a line feed is one
    boundary, and a final boundary opens no further line. *)
Fixpoint splitlines (s : string) : list string :=
  match s with
  | EmptyString => []
  | String c s' =>
      if islinebreak c then
        match s' with
        | String c' s'' =>
            if Ascii.eqb c "013" && Ascii.eqb c' "010"
            then EmptyString :: splitlines s''
            else EmptyString :: splitlines s'
        | EmptyString => [EmptyString]
        end
      else match splitlines s' with
           | h :: t => String c h :: t
           | [] => [String c EmptyString]
           end
  end.

(** [s.replace(old, new)] for a non-empty [old]: occurrences are
    replaced from left to right without overlap.  [skip] counts the
    characters of a matched occurrence still to be passed over. *)
Fixpoint replace_from (skip : nat) (old new s : string) : string :=
  match s with
  | EmptyString => EmptyString
  | String c s' =>
      match skip with
      | S k => replace_from k old new s'
      | O =>
          if startswith old s
          then new +:+ replace_from (String.length old - 1) old new s'
          else String c (replace_from 0 old new s')
      end
  end.

Definition replace (old new s : string) : string := replace_from 0 old new s.

(** [l[-1]] *)
Definition last_item {A} (l : list A) : option A := last l.

End PyStr.

Import PyStr.

(** ** The session object and its environment *)

(** The exceptions the modelled methods can raise. *)
Inductive exn : Type :=
| ConnectionError
| AttributeError
| IndexError
| KeyError (key : string)
| EOFError.

(** The result of running a method: a value, a raised exception, or a
    loop that used up the iteration budget given to it. *)
Inductive outcome (A : Type) : Type :=
| Ok (a : A)
| Raise (e : exn)
| OutOfFuel.

Arguments Ok {A} a.
Arguments Raise {A} e.
Arguments OutOfFuel {A}.

(** One value of the dictionary [self.int_status]: the inner dictionary
    with its five fixed keys. *)
Record int_entry : Type := IntEntry {
  description : string;
  status : string;
  vlan : string;
  speed : string;
  power : string
}.

(** The attributes of a [TelnetDevice] that the modelled methods touch,
    followed by its environment:
    - [inbox]: the texts that the successive calls of the inherited
      [expect] will return (field 2 of its result); when it is used up
      the peer has closed the connection and [expect] raises [EOFError];
    - [outbox]: the byte strings passed to the inherited [write], oldest
      first;
    - [stdin]: the lines the operator will type at [input] and [getpass];
    - [stdout]: the lines printed by [print], oldest first.
    The attributes [infos], [when] and [debug] play no part in these
    methods and are left out. *)
Record TelnetDevice : Type := Device {
  host : string;
  hostname : string;
  username : option string;
  password : option string;
  enable_password : option string;
  enable_mode : bool;
  int_status : gmap string int_entry;
  inbox : list string;
  outbox : list string;
  stdin : list string;
  stdout : list string
}.

Definition set_hostname (v : string) (d : TelnetDevice) : TelnetDevice :=
  Device (host d) v (username d) (password d) (enable_password d)
         (enable_mode d) (int_status d) (inbox d) (outbox d) (stdin d) (stdout d).
Definition set_username (v : option string) (d : TelnetDevice) : TelnetDevice :=
  Device (host d) (hostname d) v (password d) (enable_password d)
         (enable_mode d) (int_status d) (inbox d) (outbox d) (stdin d) (stdout d).
Definition set_password (v : option string) (d : TelnetDevice) : TelnetDevice :=
  Device (host d) (hostname d) (username d) v (enable_password d)
         (enable_mode d) (int_status d) (inbox d) (outbox d) (stdin d) (stdout d).
Definition set_enable_password (v : option string) (d : TelnetDevice) : TelnetDevice :=
  Device (host d) (hostname d) (username d) (password d) v
         (enable_mode d) (int_status d) (inbox d) (outbox d) (stdin d) (stdout d).
Definition set_enable_mode (v : bool) (d : TelnetDevice) : TelnetDevice :=
  Device (host d) (hostname d) (username d) (password d) (enable_password d)
         v (int_status d) (inbox d) (outbox d) (stdin d) (stdout d).
Definition set_int_status (v : gmap string int_entry) (d : TelnetDevice) : TelnetDevice :=
  Device (host d) (hostname d) (username d) (password d) (enable_password d)
         (enable_mode d) v (inbox d) (outbox d) (stdin d) (stdout d).
Definition set_inbox (v : list string) (d : TelnetDevice) : TelnetDevice :=
  Device (host d) (hostname d) (username d) (password d) (enable_password d)
         (enable_mode d) (int_status d) v (outbox d) (stdin d) (stdout d).
Definition set_outbox (v : list string) (d : TelnetDevice) : TelnetDevice :=
  Device (host d) (hostname d) (username d) (password d) (enable_password d)
         (enable_mode d) (int_status d) (inbox d) v (stdin d) (stdout d).
Definition set_stdin (v : list string) (d : TelnetDevice) : TelnetDevice :=
  Device (host d) (hostname d) (username d) (password d) (enable_password d)
         (enable_mode d) (int_status d) (inbox d) (outbox d) v (stdout d).
Definition set_stdout (v : list string) (d : TelnetDevice) : TelnetDevice :=
  Device (host d) (hostname d) (username d) (password d) (enable_password d)
         (enable_mode d) (int_status d) (inbox d) (outbox d) (stdin d) v.

(** A method body: it runs on the object and leaves it, mutated, next to
    its outcome.  An exception keeps the mutations made before it. *)
Definition M (A : Type) : Type := TelnetDevice -> outcome A * TelnetDevice.

Definition ret {A} (a : A) : M A := fun d => (Ok a, d).

Definition bind {A B} (m : M A) (k : A -> M B) : M B :=
  fun d =>
    match m d with
    | (Ok a, d') => k a d'
    | (Raise e, d') => (Raise e, d')
    | (OutOfFuel, d') => (OutOfFuel, d')
    end.

Definition raise {A} (e : exn) : M A := fun d => (Raise e, d).
Definition out_of_fuel {A} : M A := fun d => (OutOfFuel, d).
Definition gets {A} (f : TelnetDevice -> A) : M A := fun d => (Ok (f d), d).
Definition modify (f : TelnetDevice -> TelnetDevice) : M unit := fun d => (Ok tt, f d).

Notation "x <- c1 ;; c2" := (bind c1 (fun x => c2))
  (at level 100, c1 at next level, right associativity).
Notation "c1 ;; c2" := (bind c1 (fun _ => c2))
  (at level 100, right associativity).

(** [for x in l: body x] *)
Fixpoint for_each {A} (l : list A) (body : A -> M unit) : M unit :=
  match l with
  | [] => ret tt
  | x :: l' => body x ;; for_each l' body
  end.

(** [print(line)] *)
Definition print (line : string) : M unit :=
  modify (fun d => set_stdout (stdout d ++ [line]) d).

(** [input(...)] and [getpass.getpass(...)]: the next line typed by the
    operator; [EOFError] when there is none. *)
Definition input : M string :=
  fun d =>
    match stdin d with
    | [] => (Raise EOFError, d)
    | l :: rest => (Ok l, set_stdin rest d)
    end.

(** The inherited [write]. *)
Definition write (bytes : string) : M unit :=
  modify (fun d => set_outbox (outbox d ++ [bytes]) d).

(** The inherited [expect], seen from the session: the text it returns
    is the next one of [inbox].  [Telnet.expect] below describes how one
    such text comes out of the byte stream. *)
Definition expect (patterns : list string) : M string :=
  fun d =>
    match inbox d with
    | [] => (Raise EOFError, d)
    | text :: rest => (Ok text, set_inbox rest d)
    end.

(** [l[i]] for a non-negative [i] *)
Definition item {A} (l : list A) (i : nat) : M A :=
  match l !! i with
  | Some x => ret x
  | None => raise IndexError
  end.

(** [l[-1]] *)
Definition item_last {A} (l : list A) : M A :=
  match last_item l with
  | Some x => ret x
  | None => raise IndexError
  end.

(** Used to split the username and password lists. *)
Definition DELIMITER : ascii := ",".

(** [o.split(DELIMITER)] on an attribute that may be [None]. *)
Definition attr_split (o : option string) : M (list string) :=
  match o with
  | Some s => ret (split DELIMITER s)
  | None => raise AttributeError
  end.

Definition newline : string := String "010" EmptyString.

(** ** [send_command] and [read_output] *)

Definition send_command (command : string) : M unit :=
  write (command +:+ newline).

(** The patterns handed to [expect].  The backslashes of the source
    escape characters that have no special meaning in a regular
    expression, so each pattern matches its literal text. *)
Definition expected (password_prompt : bool) : list string :=
  if password_prompt then [">"; "#"; "sername:"; "assword:"] else [">"; "#"].

Definition read_output (password_prompt : bool) : M string :=
  response <- expect (expected password_prompt) ;;
  ret response.

(** ** [__init__]: the login handshake *)

(** What one pass through the body of a [while] loop decides. *)
Inductive login_ctl : Type :=
| LoginAgain (retries : nat) (response : string)
| LoginDone.

Definition msg_lists_differ : string :=
  "[!] Username and password lists must be the same length (use comma as delimiter)".
Definition msg_try_next : string :=
  "[!] Wrong login/password, trying next one in list".
Definition msg_wrong_login : string := "[!] Wrong login/password".

(** Lines 70-74: the answer to a username cue. *)
Definition login_user (retries : nat) (response : string) : M string :=
  if contains "User" response then
    u <- gets username ;;
    (if negb (truthy u)
     then (typed <- input ;; modify (set_username (Some typed)))
     else ret tt) ;;
    u <- gets username ;;
    candidates <- attr_split u ;;
    candidate <- item candidates retries ;;
    send_command candidate ;;
    read_output true
  else ret response.

(** Lines 76-83: the answer to a password cue, after the check that both
    lists have the same length. *)
Definition login_pass (retries : nat) (response : string) : M string :=
  if contains "Pass" response then
    p <- gets password ;;
    (if negb (truthy p)
     then (typed <- input ;; modify (set_password (Some typed)))
     else ret tt) ;;
    u <- gets username ;;
    users <- attr_split u ;;
    p <- gets password ;;
    passwords <- attr_split p ;;
    if negb (List.length users =? List.length passwords)%nat then
      print msg_lists_differ ;;
      raise ConnectionError
    else
      candidate <- item passwords retries ;;
      send_command candidate ;;
      read_output true
  else ret response.

(** Lines 85-98: success on a trailing prompt, otherwise the next index
    or the end of the list. *)
Definition login_check (retries : nat) (response : string) : M login_ctl :=
  if endswith ">" response then
    line <- item_last (splitlines response) ;;
    modify (set_hostname (rstrip ">" line)) ;;
    ret LoginDone
  else if endswith "#" response then
    modify (set_enable_mode true) ;;
    line <- item_last (splitlines response) ;;
    modify (set_hostname (rstrip "#" line)) ;;
    ret LoginDone
  else
    u <- gets username ;;
    users <- attr_split u ;;
    if (Z.of_nat (List.length users) - Z.of_nat retries >? 1)%Z then
      print msg_try_next ;;
      ret (LoginAgain (S retries) response)
    else
      print msg_wrong_login ;;
      raise ConnectionError.

(** The body of [while not login_successful]. *)
Definition login_body (retries : nat) (response : string) : M login_ctl :=
  response <- login_user retries response ;;
  response <- login_pass retries response ;;
  login_check retries response.

Fixpoint login_loop (fuel : nat) (retries : nat) (response : string) : M unit :=
  match fuel with
  | O => out_of_fuel
  | S fuel' =>
      ctl <- login_body retries response ;;
      match ctl with
      | LoginDone => ret tt
      | LoginAgain retries' response' => login_loop fuel' retries' response'
      end
  end.

(** The object as the first lines of [__init__] set it up, in front of a
    device that will answer with [answers] and an operator who will type
    [typed]. *)
Definition new_device (host : string) (username password enable_password : option string)
    (answers typed : list string) : TelnetDevice :=
  {| host := host; hostname := ""; username := username; password := password;
     enable_password := enable_password; enable_mode := false; int_status := ∅;
     inbox := answers; outbox := []; stdin := typed; stdout := [] |}.

(** The rest of [__init__], once the connection is open.  [fuel] bounds
    the passes through the loop. *)
Definition init (fuel : nat) (quiet : bool) : M unit :=
  h <- gets host ;;
  (if negb quiet then print ("[+] Connecting to " +:+ h +:+ "... ") else ret tt) ;;
  banner <- read_output true ;;
  response <- item_last (splitlines banner) ;;
  login_loop fuel 0 response ;;
  (if negb quiet then print "[+] Login successful" else ret tt).

(** ** [enable]: privilege escalation *)

Inductive enable_ctl : Type :=
| EnableAgain (retries : nat)
| EnableBreak.

Definition msg_no_enable : string := "[!] Wrong password, can't go into enable mode".

(** The body of [while self.enable_mode == False]. *)
Definition enable_body (retries : nat) : M enable_ctl :=
  response <- read_output true ;;
  if contains "Password:" response then
    e <- gets enable_password ;;
    retries <- (if negb (truthy e)
                then (typed <- input ;;
                      modify (set_enable_password (Some typed)) ;;
                      ret 0)
                else ret retries) ;;
    e <- gets enable_password ;;
    candidates <- attr_split e ;;
    (if (Z.of_nat (List.length candidates) - Z.of_nat retries >=? 1)%Z then
       candidate <- item candidates retries ;;
       send_command candidate
     else
       send_command "" ;;
       modify (set_enable_password None)) ;;
    ret (EnableAgain (S retries))
  else if contains "#" response then
    modify (set_enable_mode true) ;;
    ret (EnableAgain retries)
  else
    e <- gets enable_password ;;
    candidates <- attr_split e ;;
    if (Z.of_nat (List.length candidates) - Z.of_nat retries >=? 1)%Z then
      send_command "enable" ;;
      ret (EnableAgain retries)
    else
      print msg_no_enable ;;
      ret EnableBreak.

Fixpoint enable_loop (fuel : nat) (retries : nat) : M unit :=
  match fuel with
  | O => out_of_fuel
  | S fuel' =>
      privileged <- gets enable_mode ;;
      if privileged then ret tt
      else
        ctl <- enable_body retries ;;
        match ctl with
        | EnableBreak => ret tt
        | EnableAgain retries' => enable_loop fuel' retries'
        end
  end.

Definition enable (fuel : nat) : M unit :=
  privileged <- gets enable_mode ;;
  if privileged then ret tt
  else
    send_command "enable" ;;
    enable_loop fuel 0.

(** ** [get_int_status]: the interface status table *)

(** [l[i:-k]] for constants [i] and [k > 0] *)
Definition slice_list {A} (i k : nat) (l : list A) : list A :=
  drop i (take (List.length l - k) l).

Definition nonblank (line : string) : bool := negb (is_empty (strip line)).

(** Line 206: the rows of [show int status]. *)
Definition status_rows (text : string) : list string :=
  filter (fun line => negb (startswith "----" line) && nonblank line)
         (slice_list 3 1 (splitlines text)).

(** Line 223: the rows of [show int desc]. *)
Definition description_rows (text : string) : list string :=
  filter (fun line => nonblank line) (slice_list 3 1 (splitlines text)).

Definition status_interface (line : string) : string := strip (slice 0 8 line).

Definition status_entry (line : string) : int_entry :=
  {| description := strip (slice 10 29 line);
     status := strip (slice 29 39 line);
     vlan := strip (slice 42 47 line);
     speed := replace "auto" "-" (replace "a-" "" (strip (slice 60 66 line)));
     power := "-" |}.

Definition with_description (v : string) (e : int_entry) : int_entry :=
  {| description := v; status := status e; vlan := vlan e;
     speed := speed e; power := power e |}.

Definition with_power (v : string) (e : int_entry) : int_entry :=
  {| description := description e; status := status e; vlan := vlan e;
     speed := speed e; power := v |}.

Definition power_interface (line : string) : string := strip (slice 0 10 line).

Definition power_value (line : string) : string :=
  replace ".0" "" (strip (slice 26 32 line)) +:+ "W".

(** Lines 215-219: [self.int_status[interface] = {...}] *)
Definition put_status (line : string) (m : gmap string int_entry)
  : gmap string int_entry :=
  <[status_interface line := status_entry line]> m.

(** Lines 225-228: the description is replaced only under a key that the
    dictionary already holds. *)
Definition put_description (line : string) (m : gmap string int_entry)
  : gmap string int_entry :=
  let interface := status_interface line in
  match m !! interface with
  | Some e => <[interface := with_description (strip (slice_from 55 line)) e]> m
  | None => m
  end.

(** Lines 236-238: [self.int_status[interface]] is looked up without a
    guard; [None] stands for the [KeyError] of an unknown interface. *)
Definition put_power (line : string) (m : gmap string int_entry)
  : option (gmap string int_entry) :=
  let interface := power_interface line in
  match m !! interface with
  | Some e => Some (<[interface := with_power (power_value line) e]> m)
  | None => None
  end.

Definition store_status (line : string) : M unit :=
  modify (fun d => set_int_status (put_status line (int_status d)) d).

Definition store_description (line : string) : M unit :=
  modify (fun d => set_int_status (put_description line (int_status d)) d).

Definition store_power (line : string) : M unit :=
  m <- gets int_status ;;
  match put_power line m with
  | Some m' => modify (set_int_status m')
  | None => raise (KeyError (power_interface line))
  end.

(** Lines 205-219 *)
Definition load_status : M unit :=
  send_command "show int status" ;;
  text <- read_output false ;;
  for_each (status_rows text) store_status.

(** Lines 221-228 *)
Definition load_descriptions : M unit :=
  send_command "show int desc" ;;
  text <- read_output false ;;
  for_each (description_rows text) store_description.

(** Line 234: the rows of [show power inline | i /], read only from a
    response of more than five lines. *)
Definition power_rows (text : string) : list string :=
  let response := splitlines text in
  if (5 <? List.length response)%nat then slice_list 1 1 response else [].

(** Lines 230-238 *)
Definition load_power : M unit :=
  send_command "show power inline | i /" ;;
  text <- read_output false ;;
  for_each (power_rows text) store_power.

Definition get_int_status (get_full_description get_power : bool)
  : M (gmap string int_entry) :=
  load_status ;;
  (if get_full_description then load_descriptions else ret tt) ;;
  (if get_power then load_power else ret tt) ;;
  gets int_status.

(** ** The inherited [expect] on a byte stream

    [telnetlib.Telnet.expect] keeps the bytes received so far in
    [cookedq].  It looks for the patterns in the buffer; while none is
    found it waits for more bytes until the deadline.  The stream is
    given as the chunks that arrive, [Quiet] marking a deadline that
    passes with nothing arriving, and its end the close of the
    connection.  Option negotiation is not modelled: the chunks are the
    bytes as [process_rawq] leaves them. *)

Module Telnet.

Inductive event : Type :=
| Data (chunk : string)
| Quiet.

Record conn : Type := Conn {
  cookedq : string;
  socket : list event
}.

(** [re.search] for a literal pattern: the end of its leftmost
    occurrence in [buffer]. *)
Fixpoint search (pattern buffer : string) : option nat :=
  if startswith pattern buffer then Some (String.length pattern)
  else match buffer with
       | EmptyString => None
       | String _ buffer' => option_map S (search pattern buffer')
       end.

(** [for i in indices: m = list[i].search(self.cookedq)]: the first
    pattern of the list that occurs, with its index and the end of the
    match. *)
Fixpoint first_match (i : nat) (patterns : list string) (buffer : string)
  : option (nat * nat) :=
  match patterns with
  | [] => None
  | pattern :: patterns' =>
      match search pattern buffer with
      | Some e => Some (i, e)
      | None => first_match (S i) patterns' buffer
      end
  end.

(** The result is the index of the matched pattern ([None] for
    Python's [-1]) and the text read up to and including the match. *)
Fixpoint expect_from (patterns : list string) (buffer : string) (stream : list event)
  : outcome (option nat * string) * conn :=
  match first_match 0 patterns buffer with
  | Some (i, e) =>
      (Ok (Some i, string_take e buffer), Conn (string_drop e buffer) stream)
  | None =>
      match stream with
      | Data chunk :: stream' => expect_from patterns (buffer +:+ chunk) stream'
      | Quiet :: stream' => (Ok (None, buffer), Conn EmptyString stream')
      | [] =>
          if is_empty buffer then (Raise EOFError, Conn EmptyString [])
          else (Ok (None, buffer), Conn EmptyString [])
      end
  end.

Definition expect (patterns : list string) (c : conn)
  : outcome (option nat * string) * conn :=
  expect_from patterns (cookedq c) (socket c).

(** [read_output] on the byte stream: [response[2].decode("Latin_1")] *)
Definition read_output (password_prompt : bool) (c : conn) : outcome string * conn :=
  match expect (expected password_prompt) c with
  | (Ok (_, text), c') => (Ok text, c')
  | (Raise e, c') => (Raise e, c')
  | (OutOfFuel, c') => (OutOfFuel, c')
  end.

(** [n] calls of [read_output] in a row. *)
Fixpoint read_outputs (password_prompt : bool) (n : nat) (c : conn)
  : list (outcome string) :=
  match n with
  | O => []
  | S n' =>
      let (o, c') := read_output password_prompt c in
      o :: read_outputs password_prompt n' c'
  end.

(** The bytes carried by a stretch of the stream. *)
Fixpoint data (stream : list event) : string :=
  match stream with
  | [] => EmptyString
  | Data chunk :: stream' => chunk +:+ data stream'
  | Quiet :: stream' => data stream'
  end.

End Telnet.

(** ** Reference behaviour of the login loop

    The description of the loop as a walk along the username and
    password candidates taken in pairs: each pair is submitted where the
    device asks for it, and the walk stops at the first pair answered by
    a prompt. *)

Definition submit_pair (user pass response : string) : M string :=
  response <- (if contains "User" response
               then send_command user ;; read_output true
               else ret response) ;;
  if contains "Pass" response
  then send_command pass ;; read_output true
  else ret response.

Definition accept_prompt (response : string) : M unit :=
  (if endswith "#" response then modify (set_enable_mode true) else ret tt) ;;
  line <- item_last (splitlines response) ;;
  modify (set_hostname (rstrip (if endswith ">" response then ">" else "#") line)).

(** A split list always has an entry; the walk over no pair at all is
    given the outcome of indexing an empty list. *)
Fixpoint try_pairs (pairs : list (string * string)) (response : string) : M unit :=
  match pairs with
  | [] => raise IndexError
  | (user, pass) :: rest =>
      response <- submit_pair user pass response ;;
      if endswith ">" response || endswith "#" response then accept_prompt response
      else match rest with
           | [] => print msg_wrong_login ;; raise ConnectionError
           | _ :: _ => print msg_try_next ;; try_pairs rest response
           end
  end.

(** ** The updates one call of [get_int_status] makes *)

Inductive update : Type :=
| PutStatus (line : string)
| PutDescription (line : string)
| PutPower (line : string).

(** The interface name an update is filed under. *)
Definition update_key (u : update) : string :=
  match u with
  | PutStatus line => status_interface line
  | PutDescription line => status_interface line
  | PutPower line => power_interface line
  end.

(** The updates of a call that reads [texts], in the order they are
    made. *)
Definition call_updates (get_full_description get_power : bool) (texts : list string)
  : list update :=
  match texts with
  | [] => []
  | t1 :: texts1 =>
      map PutStatus (status_rows t1)
      ++ (if get_full_description then
            match texts1 with
            | t2 :: texts2 =>
                map PutDescription (description_rows t2)
                ++ (if get_power then
                      match texts2 with
                      | t3 :: _ => map PutPower (power_rows t3)
                      | [] => []
                      end
                    else [])
            | [] => []
            end
          else if get_power then
            match texts1 with
            | t3 :: _ => map PutPower (power_rows t3)
            | [] => []
            end
          else [])
  end.

(** How many responses a call reads. *)
Definition call_reads (get_full_description get_power : bool) : nat :=
  1 + (if get_full_description then 1 else 0) + (if get_power then 1 else 0).

(** The interface names of the rows a call parses. *)
Definition call_names (get_full_description get_power : bool) (texts : list string)
  : list string :=
  map update_key (call_updates get_full_description get_power texts).

(** An exchange with the device: one line out, one text in. *)
Definition exchange (line : string) : M string :=
  send_command line ;; read_output true.

(** The three ways lines 85-98 end, for a username list of [total]
    candidates. *)
Definition login_verdict (retries total : nat) (response : string) : M login_ctl :=
  if endswith ">" response || endswith "#" response
  then accept_prompt response ;; ret LoginDone
  else if (S retries <? total)%nat
       then print msg_try_next ;; ret (LoginAgain (S retries) response)
       else print msg_wrong_login ;; raise ConnectionError.

(** The bytes [send_command] writes for a candidate. *)
Definition with_newline (c : string) : string := c +:+ newline.

(** A response that asks for the password again: it carries the password
    cue, no username cue and no trailing prompt. *)
Definition password_cue (response : string) : Prop :=
  contains "Pass" response = true /\ contains "User" response = false
  /\ endswith ">" response = false /\ endswith "#" response = false.

(** The object after the connection message of [__init__]. *)
Definition greeted (quiet : bool) (d : TelnetDevice) : TelnetDevice :=
  if quiet then d
  else set_stdout (stdout d ++ ["[+] Connecting to " +:+ host d +:+ "... "]) d.

(** Methods that leave [self.int_status] alone. *)
Definition keeps_status {A} (m : M A) : Prop :=
  forall d, int_status (m d).2 = int_status d.

(** [resends cands ws]: the lines [ws] are the candidates [cands], each
    once and in order, with the [enable] command sent again in between. *)
Inductive resends : list string -> list string -> Prop :=
| resends_nil : resends [] []
| resends_candidate c cands ws :
    resends cands ws -> resends (c :: cands) (with_newline c :: ws)
| resends_enable cands ws :
    resends cands ws -> resends cands (with_newline "enable" :: ws).

(** One pass of the [enable] loop, told by cases. *)
Definition enable_pass (e : string) (retries : nat) (d : TelnetDevice)
  : outcome enable_ctl * TelnetDevice :=
  match inbox d with
  | [] => (Raise EOFError, d)
  | response :: rest =>
      let d1 := set_inbox rest d in
      if contains "Password:" response then
        match split DELIMITER e !! retries with
        | Some c =>
            (Ok (EnableAgain (S retries)),
             set_outbox (outbox d1 ++ [with_newline c]) d1)
        | None =>
            (Ok (EnableAgain (S retries)),
             set_enable_password None (set_outbox (outbox d1 ++ [with_newline ""]) d1))
        end
      else if contains "#" response then
        (Ok (EnableAgain retries), set_enable_mode true d1)
      else if (retries <? List.length (split DELIMITER e))%nat then
        (Ok (EnableAgain retries), set_outbox (outbox d1 ++ [with_newline "enable"]) d1)
      else (Ok EnableBreak, set_stdout (stdout d1 ++ [msg_no_enable]) d1)
  end.

(** What an update does to the dictionary; [None] is the [KeyError]. *)
Definition apply_update (u : update) (m : gmap string int_entry)
  : option (gmap string int_entry) :=
  match u with
  | PutStatus line => Some (put_status line m)
  | PutDescription line => Some (put_description line m)
  | PutPower line => put_power line m
  end.

(** The updates are made in turn until one fails: the dictionary reached
    and the key that was missing, if any. *)
Fixpoint run_updates (us : list update) (m : gmap string int_entry)
  : gmap string int_entry * option string :=
  match us with
  | [] => (m, None)
  | u :: us' =>
      match apply_update u m with
      | Some m' => run_updates us' m'
      | None => (m, Some (update_key u))
      end
  end.

Definition outcome_of (err : option string) : outcome unit :=
  match err with
  | None => Ok tt
  | Some k => Raise (KeyError k)
  end.

Definition result_of (r : gmap string int_entry * option string)
  : outcome (gmap string int_entry) :=
  match r.2 with
  | None => Ok r.1
  | Some k => Raise (KeyError k)
  end.

(** What an update does to the entry filed under [k]. *)
Definition update_effect (k : string) (x : option int_entry) (u : update)
  : option int_entry :=
  if decide (update_key u = k) then
    match u with
    | PutStatus line => Some (status_entry line)
    | PutDescription line => with_description (strip (slice_from 55 line)) <$> x
    | PutPower line => with_power (power_value line) <$> x
    end
  else x.

(** An entry replaced by [b] if given, then its power and description
    overwritten by [pv] and [dv] if given. *)
Definition overwrite (b : option int_entry) (dv pv : option string)
    (x : option int_entry) : option int_entry :=
  let x := match b with Some e => Some e | None => x end in
  let x := match pv with Some v => with_power v <$> x | None => x end in
  match dv with Some v => with_description v <$> x | None => x end.

(** The interface names of the rows of a [show int status] response. *)
Definition status_names (text : string) : list string :=
  map status_interface (status_rows text).


(** ** Sample device output *)

Definition crlf : string := String "013" (String "010" EmptyString).

Definition lines (l : list string) : string :=
  foldr (fun line text => line +:+ crlf +:+ text) EmptyString l.


Definition sample_status_header : string :=
  "Port      Name               Status       Vlan       Duplex  Speed Type".

Definition sample_row_1 : string :=
  "Gi1/0/1   uplink-sw          connected    10         a-full a-1000 10/100/1000BaseTX".
Definition sample_row_2 : string :=
  "Gi1/0/2                      notconnect   1            auto   auto 10/100/1000BaseTX".
Definition sample_row_3 : string :=
  "Gi1/0/3   printer            connected    20         a-full  a-100 10/100/1000BaseTX".
Definition sample_row_4 : string :=
  "Gi1/0/4   ap-lobby           connected    30         a-full a-1000 10/100/1000BaseTX".

(** [show int status] on a switch with four ports, and with two. *)
Definition sample_status : string :=
  lines ["show int status"; ""; sample_status_header;
         sample_row_1; sample_row_2; sample_row_3; sample_row_4] +:+ "Switch#".

Definition sample_status_short : string :=
  lines ["show int status"; ""; sample_status_header;
         sample_row_1; sample_row_2] +:+ "Switch#".


(** [show int desc] *)
Definition sample_descriptions : string :=
  lines ["show int desc"; "";
         "Interface                      Status         Protocol Description";
         "Gi1/0/1                        up             up       uplink to core switch, rack 12";
         "Gi1/0/3                        up             up       printer on the second floor"]
  +:+ "Switch#".

(** [show power inline | i /], for the four ports and with a port of a
    second stack member. *)
Definition sample_power : string :=
  lines ["show power inline | i /";
         "Gi1/0/1   auto   off        0.0     n/a                 n/a   30.0";
         "Gi1/0/2   auto   off        0.0     n/a                 n/a   30.0";
         "Gi1/0/3   auto   off        0.0     n/a                 n/a   30.0";
         "Gi1/0/4   auto   on         15.4    AIR-AP2802I-E-K9    4     30.0"]
  +:+ "Switch#".

Definition sample_power_stack : string :=
  lines ["show power inline | i /";
         "Gi1/0/1   auto   off        0.0     n/a                 n/a   30.0";
         "Gi1/0/4   auto   on         15.4    AIR-AP2802I-E-K9    4     30.0";
         "Gi2/0/1   auto   on         7.0     IP Phone 8845       2     30.0";
         "Gi2/0/2   auto   off        0.0     n/a                 n/a   30.0"]
  +:+ "Switch#".

(** The answers of a device that asks for a username and a password. *)
Definition sample_banner : string :=
  crlf +:+ "User Access Verification" +:+ crlf +:+ crlf +:+ "Username:".
Definition sample_password_prompt : string := " admin" +:+ crlf +:+ "Password:".
Definition sample_user_prompt : string := " " +:+ crlf +:+ "Switch>".

(** The answers of a device that asks for a password only, and asks
    again after a wrong one. *)
Definition sample_password_banner : string :=
  crlf +:+ "User Access Verification" +:+ crlf +:+ crlf +:+ "Password:".
Definition sample_password_again : string := " " +:+ crlf +:+ "Password:".

(** The answers to [enable] of a device that asks three times for the
    enable password and then gives up. *)
Definition sample_enable_prompt : string := "enable" +:+ crlf +:+ "Password:".
Definition sample_bad_secrets : string :=
  " " +:+ crlf +:+ "% Bad secrets" +:+ crlf +:+ crlf +:+ "Switch>".

(** A session logged in as an unprivileged user on a device that still
    has [answers] to give. *)
Definition logged_in (enable_password : option string) (answers : list string)
  : TelnetDevice :=
  (init 1 true
     (new_device "192.0.2.1" (Some "admin") (Some "secret") enable_password
        (sample_banner :: sample_password_prompt :: sample_user_prompt :: answers) [])).2.

(** ** More of Python's [str], for the other methods *)

(** [s.split()]: the maximal runs of characters that are not
    whitespace. *)
Fixpoint split_ws (s : string) : list string :=
  match s with
  | EmptyString => []
  | String c s' =>
      if isspace c then split_ws s'
      else match s' with
           | EmptyString => [String c EmptyString]
           | String c' _ =>
               if isspace c' then String c EmptyString :: split_ws s'
               else match split_ws s' with
                    | h :: t => String c h :: t
                    | [] => [String c EmptyString]
                    end
           end
  end.

(** [sep.join(l)] *)
Fixpoint join (sep : string) (l : list string) : string :=
  match l with
  | [] => EmptyString
  | x :: l' =>
      match l' with
      | [] => x
      | _ :: _ => x +:+ sep +:+ join sep l'
      end
  end.

(** [s.rstrip()] *)
Definition rstrip_ws (s : string) : string := rstrip_by isspace s.

(** [all(p(c) for c in s)] *)
Fixpoint all_chars (p : ascii -> bool) (s : string) : bool :=
  match s with
  | EmptyString => true
  | String c s' => p c && all_chars p s'
  end.

(** A line of whitespace only. *)
Definition blank (s : string) : bool := all_chars isspace s.

(** A token: at least one character, none of them whitespace. *)
Definition token (s : string) : Prop :=
  s <> EmptyString /\ all_chars (fun c => negb (isspace c)) s = true.

(** A string without the character [c]. *)
Definition free_of (c : ascii) (s : string) : Prop :=
  all_chars (fun x => negb (Ascii.eqb x c)) s = true.

(** A string that holds none of the line boundaries. *)
Definition one_line (s : string) : Prop :=
  all_chars (fun c => negb (islinebreak c)) s = true.

(** ** [get_facts] *)

(** The dictionary [self.facts], with its five fixed keys. *)
Record facts : Type := Facts {
  facts_ip_address : string;
  facts_hostname : string;
  facts_model : string;
  facts_uptime : string;
  facts_when : string
}.

(** [l.pop(0)], for the list that is left. *)
Definition pop_first {A} (l : list A) : M (list A) :=
  match l with
  | [] => raise IndexError
  | _ :: l' => ret l'
  end.

Definition version_query : string := "show version | include Model .umber|uptime".

(** Lines 173-188.  [when] is the attribute [self.when], the time of the
    connection as [__init__] has formatted it. *)
Definition get_facts (when : string) : M facts :=
  send_command version_query ;;
  text <- read_output false ;;
  let response := splitlines text in
  let response_split := map split_ws response in
  response_split <- pop_first response_split ;;
  first <- item response_split 0 ;;
  hostname <- item first 0 ;;
  let uptime := join " " (drop 3 first) in
  second <- item response_split 1 ;;
  model <- item_last second ;;
  h <- gets host ;;
  ret {| facts_ip_address := h; facts_hostname := hostname; facts_model := model;
         facts_uptime := uptime; facts_when := when |}.

(** ** [get_int_list] *)

(** [[f x for x in l]], where an element may raise. *)
Fixpoint collect {A B} (l : list A) (f : A -> M B) : M (list B) :=
  match l with
  | [] => ret []
  | x :: l' =>
      y <- f x ;;
      ys <- collect l' f ;;
      ret (y :: ys)
  end.

(** Lines 195-198 *)
Definition get_int_list : M (list string) :=
  send_command "show int status" ;;
  text <- read_output false ;;
  collect (status_rows text) (fun line => item (split_ws line) 0).

(** ** [main]: what it does with its inputs and with a response *)

Section Device_list.

(** [re.findall(r"(?:\d{1,3}\.){3}\d{1,3}", line)], left to the regular
    expression library. *)
Variable findall : string -> list string.

(** Line 307: the lines of the device file that are read. *)
Definition device_line (line : string) : bool :=
  negb (startswith "!" line) && negb (startswith "#" line) && nonblank line.

(** Lines 309-310 *)
Definition add_address (list_ip_addresses : list string) (ip_address : string)
  : list string :=
  if negb (bool_decide (ip_address ∈ list_ip_addresses))
     && negb (startswith "255." ip_address)
  then list_ip_addresses ++ [ip_address]
  else list_ip_addresses.

(** Lines 305-310, on the lines of the device file. *)
Definition device_list (content : list string) : list string :=
  foldl (fun list_ip_addresses line =>
           if device_line line
           then foldl add_address list_ip_addresses (findall line)
           else list_ip_addresses)
        [] content.

End Device_list.

(** Line 317 and line 372: the commands of a command file. *)
Definition commands_of_file (content : list string) : list string :=
  map rstrip_ws (filter (fun line => nonblank line) content).

(** Line 324: the commands given as arguments. *)
Definition commands_of_args (words : list string) : list string :=
  split "," (join " " words).

(** [response.pop(0); response.pop(-1)] on a list of more than one
    line. *)
Definition pop_both {A} (l : list A) : list A :=
  match l with
  | [] => []
  | _ :: l' => removelast l'
  end.

(** Lines 393-397: a response of several lines loses its first and its
    last line. *)
Definition tidy (response : string) : string :=
  if (1 <? List.length (splitlines response))%nat
  then join newline (pop_both (splitlines response))
  else response.

Definition carriage_return : string := String "013" EmptyString.

(** Line 399: the response as the last cell of a table row. *)
Definition table_cell (response : string) : string :=
  replace carriage_return "" (replace newline "" response).




(** The last character of a string. *)
Fixpoint last_char (s : string) : option ascii :=
  match s with
  | EmptyString => None
  | String c s' =>
      match s' with
      | EmptyString => Some c
      | String _ _ => last_char s'
      end
  end.

(** The attributes that the exchange of credentials reads and writes
    are [username], [password] and the two streams.  A [SessionField] is
    an observation of the object that none of them changes. *)
Class SessionField {B} (f : TelnetDevice -> B) : Prop := {
  field_username v d : f (set_username v d) = f d;
  field_password v d : f (set_password v d) = f d;
  field_inbox v d : f (set_inbox v d) = f d;
  field_outbox v d : f (set_outbox v d) = f d;
  field_stdin v d : f (set_stdin v d) = f d;
  field_stdout v d : f (set_stdout v d) = f d
}.

(** Methods that leave the observation [f] as it was. *)
Definition frame {A B} (f : TelnetDevice -> B) (m : M A) : Prop :=
  forall d, f (m d).2 = f d.

(** The credentials and what the operator has still to type are the
    same in [d'] as in [d]. *)
Definition same_credentials (d d' : TelnetDevice) : Prop :=
  username d' = username d /\ password d' = password d /\ stdin d' = stdin d.

(** What a successful login has stored: the last line of the response
    that ended in a prompt, less its trailing prompt characters. *)
Definition logged_on (d d' : TelnetDevice) : Prop :=
  exists line,
    one_line line
    /\ ((endswith ">" line = true /\ hostname d' = rstrip ">" line
         /\ enable_mode d' = enable_mode d)
        \/ (endswith "#" line = true /\ hostname d' = rstrip "#" line
            /\ enable_mode d' = true)).

(** A response that carries neither the enable cue nor [#]. *)
Definition plain_response (response : string) : Prop :=
  contains "Password:" response = false /\ contains "#" response = false.

(** The last row of a table filed under the name [k]. *)
Definition last_row (k : string) (rows : list string) : option string :=
  last (filter (fun row => status_interface row = k) rows).

(** A device that opens with a decorated banner, and one that asks for
    nothing. *)
Definition sample_decorated_banner : string :=
  "### Authorized access only ###" +:+ crlf +:+ "Username: ".
Definition sample_open_banner : string := "Welcome" +:+ crlf +:+ "Switch>".

(** A device without inline power, and one that does not know the
    [enable] command. *)
Definition sample_no_power : string := "show power inline | i /" +:+ crlf +:+ "Switch#".
Definition sample_unknown_command : string :=
  "enable" +:+ crlf +:+ "% Unknown command" +:+ crlf +:+ "Switch>".

(** A table in which two interface names agree on their first eight
    characters. *)
Definition sample_status_long_names : string :=
  lines ["show int status"; ""; sample_status_header;
         "Twe1/0/1  uplink-sw          connected    10         a-full a-1000 10/100/1000BaseTX";
         "Twe1/0/10 printer            notconnect   20           auto   auto 10/100/1000BaseTX"]
  +:+ "Switch#".

(** Sample output of [show version | include Model .umber|uptime]. *)
Definition sample_version : string :=
  lines ["show version | include Model .umber|uptime";
         "Switch1 uptime is 3 days, 2 hours";
         "Model number                    : C9200L"] +:+ "Switch1#".

(** * Properties *)

(** ** Strings *)

Lemma string_app_cons x (a b : string) : String x a +:+ b = String x (a +:+ b).
Proof. reflexivity. Qed.

Lemma string_app_assoc (a b c : string) : (a +:+ b) +:+ c = a +:+ (b +:+ c).
Proof.
  induction a as [|x a IH]; [reflexivity|].
  by rewrite !string_app_cons, IH.
Qed.

Lemma string_app_nil_r (a : string) : a +:+ "" = a.
Proof.
  induction a as [|x a IH]; [reflexivity|]. by rewrite string_app_cons, IH.
Qed.

Lemma string_length_app (a b : string) :
  String.length (a +:+ b) = String.length a + String.length b.
Proof.
  induction a as [|x a IH]; [reflexivity|].
  rewrite string_app_cons. simpl. by rewrite IH.
Qed.

Lemma string_drop_app (a b : string) : string_drop (String.length a) (a +:+ b) = b.
Proof.
  induction a as [|x a IH]; [by destruct b|].
  rewrite string_app_cons. exact IH.
Qed.


Lemma string_take_drop n (s : string) : string_take n s +:+ string_drop n s = s.
Proof.
  revert s. induction n as [|n IH]; intros s; [reflexivity|].
  destruct s as [|c s]; [reflexivity|].
  simpl. by rewrite string_app_cons, IH.
Qed.

Lemma startswith_take pat s :
  startswith pat s = true -> string_take (String.length pat) s = pat.
Proof.
  revert s. induction pat as [|a pat IH]; intros s H; [reflexivity|].
  destruct s as [|b s]; [discriminate|]. simpl in *.
  apply andb_prop in H as [Hab Hrest]. apply Ascii.eqb_eq in Hab as ->.
  by rewrite IH.
Qed.

Lemma endswith_app x pat : endswith pat (x +:+ pat) = true.
Proof.
  unfold endswith. rewrite string_length_app.
  replace (String.length x + String.length pat - String.length pat)
    with (String.length x) by lia.
  rewrite string_drop_app, String.eqb_refl.
  rewrite andb_true_r. apply Nat.leb_le. lia.
Qed.

(** A response cannot end with both prompts. *)
Lemma endswith_prompts_exclusive r :
  endswith ">" r = true -> endswith "#" r = false.
Proof.
  unfold endswith. simpl String.length.
  destruct (1 <=? String.length r)%nat; simpl; [|discriminate].
  intros H. apply String.eqb_eq in H. rewrite H. reflexivity.
Qed.


(** ** The byte stream: where [expect] stops *)

Lemma search_Some pat buf e :
  Telnet.search pat buf = Some e -> endswith pat (string_take e buf) = true.
Proof.
  revert e. induction buf as [|c buf IH]; intros e; simpl.
  - destruct (startswith pat "") eqn:Hs; [|discriminate].
    intros [= <-]. destruct pat; [reflexivity | discriminate].
  - destruct (startswith pat (String c buf)) eqn:Hs.
    + intros [= <-]. rewrite (startswith_take _ _ Hs). apply (endswith_app "").
    + destruct (Telnet.search pat buf) as [e'|]; [|discriminate].
      intros [= <-]. specialize (IH e' eq_refl).
      change (string_take (S e') (String c buf)) with (String c (string_take e' buf)).
      unfold endswith in *. apply andb_prop in IH as [Hlen Heq].
      apply Nat.leb_le in Hlen. apply String.eqb_eq in Heq.
      apply andb_true_intro. split.
      * apply Nat.leb_le. simpl. lia.
      * apply String.eqb_eq. simpl String.length.
        replace (S (String.length (string_take e' buf)) - String.length pat)
          with (S (String.length (string_take e' buf) - String.length pat)) by lia.
        exact Heq.
Qed.

Lemma search_None pat buf :
  Telnet.search pat buf = None -> contains pat buf = false.
Proof.
  induction buf as [|c buf IH]; simpl.
  - destruct (startswith pat ""); [discriminate | reflexivity].
  - destruct (startswith pat (String c buf)); [discriminate|].
    destruct (Telnet.search pat buf); [discriminate|]. intros _. by apply IH.
Qed.


Lemma first_match_Some patterns buf : forall i j e,
  Telnet.first_match i patterns buf = Some (j, e) ->
  exists pat, patterns !! (j - i) = Some pat /\ i <= j /\ Telnet.search pat buf = Some e.
Proof.
  induction patterns as [|pat patterns IH]; intros i j e; simpl; [discriminate|].
  destruct (Telnet.search pat buf) as [e'|] eqn:Hs.
  - intros [= <- <-]. exists pat. rewrite Nat.sub_diag. auto.
  - intros H. apply IH in H as (pat' & Hl & Hle & Hs').
    exists pat'. replace (j - i) with (S (j - S i)) by lia.
    split; [exact Hl|]. split; [lia | auto].
Qed.

Lemma first_match_None patterns buf : forall i,
  Telnet.first_match i patterns buf = None ->
  forall pat, pat ∈ patterns -> Telnet.search pat buf = None.
Proof.
  induction patterns as [|p patterns IH]; intros i H pat Hin.
  - by apply elem_of_nil in Hin.
  - simpl in H. destruct (Telnet.search p buf) eqn:Hs; [discriminate|].
    apply elem_of_cons in Hin as [-> | Hin]; [exact Hs | eauto].
Qed.

(** What [expect] returns, in terms of the part of the stream it has
    taken. *)
Lemma expect_from_spec patterns stream : forall buffer o c',
  Telnet.expect_from patterns buffer stream = (o, c') ->
  exists consumed,
    stream = consumed ++ Telnet.socket c' /\
    match o with
    | Ok (Some i, text) =>
        text +:+ Telnet.cookedq c' = buffer +:+ Telnet.data consumed
        /\ exists pat, patterns !! i = Some pat /\ endswith pat text = true
    | Ok (None, text) =>
        text = buffer +:+ Telnet.data consumed /\ Telnet.cookedq c' = ""
        /\ (forall pat, pat ∈ patterns -> contains pat text = false)
        /\ (last consumed = Some Telnet.Quiet \/ Telnet.socket c' = [])
    | Raise e => e = EOFError /\ Telnet.socket c' = []
    | OutOfFuel => False
    end.
Proof.
  induction stream as [|ev stream IH]; intros buffer o c'; simpl.
  - destruct (Telnet.first_match 0 patterns buffer) as [[i e]|] eqn:Hm.
    + intros [= <- <-]. exists []. split; [reflexivity|]. simpl.
      rewrite string_take_drop, string_app_nil_r. split; [reflexivity|].
      apply first_match_Some in Hm as (pat & Hl & _ & Hs).
      rewrite Nat.sub_0_r in Hl. exists pat. split; [exact Hl|]. by apply search_Some.
    + destruct (is_empty buffer) eqn:He; intros [= <- <-]; exists []; simpl.
      * auto.
      * rewrite string_app_nil_r. repeat split; auto.
        intros pat Hin. apply search_None. by apply (first_match_None patterns buffer 0).
  - destruct (Telnet.first_match 0 patterns buffer) as [[i e]|] eqn:Hm.
    + intros [= <- <-]. exists []. split; [reflexivity|]. simpl.
      rewrite string_take_drop, string_app_nil_r. split; [reflexivity|].
      apply first_match_Some in Hm as (pat & Hl & _ & Hs).
      rewrite Nat.sub_0_r in Hl. exists pat. split; [exact Hl|]. by apply search_Some.
    + destruct ev as [chunk|].
      * intros H. apply IH in H as (consumed & -> & H).
        exists (Telnet.Data chunk :: consumed). split; [reflexivity|].
        destruct o as [[[i|] text] | e |]; simpl; rewrite <- ?string_app_assoc; try exact H.
        destruct H as (H1 & H2 & H3 & [H4 | H4]); repeat split; auto.
        left. destruct consumed; [discriminate | exact H4].
      * intros [= <- <-]. exists [Telnet.Quiet]. split; [reflexivity|]. simpl.
        rewrite string_app_nil_r. repeat split; auto.
        intros pat Hin. apply search_None. by apply (first_match_None patterns buffer 0).
Qed.




(** The sample answers are what [read_output] makes of the bytes of a
    device: the cue or prompt ends each text, and the blank that follows
    a cue opens the next one. *)
Example sample_login_reads :
  Telnet.read_outputs true 3
    (Telnet.Conn "" [Telnet.Data (sample_banner +:+ " ");
                     Telnet.Data ("admin" +:+ crlf +:+ "Password: ");
                     Telnet.Data (crlf +:+ "Switch>")])
  = [Ok sample_banner; Ok sample_password_prompt; Ok sample_user_prompt].
Proof. reflexivity. Qed.

Example sample_enable_reads :
  Telnet.read_outputs true 4
    (Telnet.Conn "" [Telnet.Data ("enable" +:+ crlf +:+ "Password: ");
                     Telnet.Data (crlf +:+ "Password: ");
                     Telnet.Data (crlf +:+ "Password: ");
                     Telnet.Data (crlf +:+ "% Bad secrets" +:+ crlf +:+ crlf +:+ "Switch>")])
  = [Ok sample_enable_prompt; Ok sample_password_again; Ok sample_password_again;
     Ok sample_bad_secrets].
Proof. reflexivity. Qed.

Example sample_table_reads :
  Telnet.read_outputs false 3
    (Telnet.Conn "" [Telnet.Data sample_status; Telnet.Data sample_descriptions;
                     Telnet.Data sample_power_stack])
  = [Ok sample_status; Ok sample_descriptions; Ok sample_power_stack].
Proof. reflexivity. Qed.

(** ** Running method bodies *)

Lemma bind_assoc {A B C} (m : M A) (f : A -> M B) (g : B -> M C) d :
  bind (bind m f) g d = bind m (fun x => bind (f x) g) d.
Proof. unfold bind. destruct (m d) as [[a | e |] d']; reflexivity. Qed.

Lemma bind_ret_l {A B} (a : A) (f : A -> M B) d : bind (ret a) f d = f a d.
Proof. reflexivity. Qed.

(** Two bodies that agree on the object at hand, followed by
    continuations that agree wherever the first one leads. *)
Lemma bind_cong {A B} (m m' : M A) (f g : A -> M B) d :
  m d = m' d ->
  (forall a d', m' d = (Ok a, d') -> f a d' = g a d') ->
  bind m f d = bind m' g d.
Proof.
  intros Hm Hfg. unfold bind. rewrite Hm.
  destruct (m' d) as [[a | e |] d'] eqn:E; auto.
Qed.

Lemma bind_ok_inv {A B} (m : M A) (f : A -> M B) d b d2 :
  bind m f d = (Ok b, d2) ->
  exists a d1, m d = (Ok a, d1) /\ f a d1 = (Ok b, d2).
Proof.
  unfold bind. destruct (m d) as [[a | e |] d1]; try discriminate. eauto.
Qed.

Lemma exchange_run line d :
  exchange line d =
  match inbox d with
  | [] => (Raise EOFError, set_outbox (outbox d ++ [with_newline line]) d)
  | text :: rest =>
      (Ok text, set_inbox rest (set_outbox (outbox d ++ [with_newline line]) d))
  end.
Proof.
  unfold exchange, send_command, write, read_output, expect, bind, modify, ret.
  simpl. destruct (inbox d); reflexivity.
Qed.

Lemma exchange_creds c d o d' :
  exchange c d = (o, d') ->
  username d' = username d /\ password d' = password d.
Proof.
  rewrite exchange_run. destruct (inbox d); intros [= <- <-]; auto.
Qed.

Lemma cued_exchange_creds (b : bool) c r d o d' :
  (if b then exchange c else ret r) d = (o, d') ->
  username d' = username d /\ password d' = password d.
Proof.
  destruct b; [apply exchange_creds | intros [= <- <-]; auto].
Qed.

Lemma submit_pair_creds cu cp response d r d' :
  submit_pair cu cp response d = (Ok r, d') ->
  username d' = username d /\ password d' = password d.
Proof.
  unfold submit_pair. intros H.
  apply bind_ok_inv in H as (r1 & d1 & H1 & H2).
  apply cued_exchange_creds in H1 as [Hu1 Hp1].
  apply cued_exchange_creds in H2 as [Hu2 Hp2]. split; congruence.
Qed.

Lemma accept_prompt_outbox response d :
  outbox (accept_prompt response d).2 = outbox d.
Proof.
  unfold accept_prompt, item_last.
  destruct (endswith "#" response); unfold bind, modify, ret, raise;
    destruct (last_item _); reflexivity.
Qed.

Lemma truthy_Some u : u <> "" -> truthy (Some u) = true.
Proof. destruct u; [congruence | reflexivity]. Qed.

Lemma sublist_drop_S {A} (l : list A) k : drop (S k) l `sublist_of` drop k l.
Proof.
  destruct (l !! k) as [x|] eqn:E.
  - rewrite (drop_S _ _ _ E). by apply sublist_cons.
  - apply lookup_ge_None in E. rewrite !drop_ge by lia. constructor.
Qed.

(** The start of [__init__], up to the loop. *)
Lemma init_run fuel quiet d :
  init fuel quiet d =
  match inbox d with
  | [] => (Raise EOFError, greeted quiet d)
  | banner :: rest =>
      match last_item (splitlines banner) with
      | None => (Raise IndexError, set_inbox rest (greeted quiet d))
      | Some line =>
          bind (login_loop fuel 0 line)
               (fun _ => if negb quiet then print "[+] Login successful" else ret tt)
               (set_inbox rest (greeted quiet d))
      end
  end.
Proof.
  unfold init, greeted, read_output, expect, item_last.
  unfold bind at 1. unfold gets at 1. cbv beta iota.
  destruct quiet; cbn [negb].
  - rewrite bind_ret_l. unfold bind at 1. unfold bind at 1.
    destruct (inbox d) as [|banner rest]; [reflexivity|].
    unfold ret at 1. cbv beta iota.
    destruct (last_item (splitlines banner)); reflexivity.
  - unfold bind at 1. unfold print at 1, modify at 1. cbv beta iota.
    unfold bind at 1. unfold bind at 1. cbn [inbox set_stdout].
    destruct (inbox d) as [|banner rest]; [reflexivity|].
    unfold ret at 1. cbv beta iota.
    destruct (last_item (splitlines banner)); reflexivity.
Qed.

(** ** The login loop with both lists supplied *)

Section Supplied.

Variables u p : string.
Hypothesis u_supplied : u <> "".
Hypothesis p_supplied : p <> "".

Local Abbreviation users := (split DELIMITER u).
Local Abbreviation passwords := (split DELIMITER p).

Lemma login_user_run retries response d c :
  username d = Some u -> users !! retries = Some c ->
  login_user retries response d =
  if contains "User" response then exchange c d else (Ok response, d).
Proof.
  intros Hu Hc. unfold login_user.
  destruct (contains "User" response); [|reflexivity].
  unfold bind at 1. unfold gets at 1.
  rewrite Hu, (truthy_Some u u_supplied). cbn [negb]. cbv beta iota.
  rewrite bind_ret_l. unfold bind at 1. unfold gets at 1. rewrite Hu.
  unfold attr_split. rewrite bind_ret_l. unfold item. rewrite Hc.
  reflexivity.
Qed.

Lemma login_user_no_candidate retries response d :
  username d = Some u -> users !! retries = None ->
  login_user retries response d =
  if contains "User" response then (Raise IndexError, d) else (Ok response, d).
Proof.
  intros Hu Hc. unfold login_user.
  destruct (contains "User" response); [|reflexivity].
  unfold bind at 1. unfold gets at 1.
  rewrite Hu, (truthy_Some u u_supplied). cbn [negb]. cbv beta iota.
  rewrite bind_ret_l. unfold bind at 1. unfold gets at 1. rewrite Hu.
  unfold attr_split. rewrite bind_ret_l. unfold item. rewrite Hc.
  reflexivity.
Qed.

Lemma login_pass_run retries response d c :
  username d = Some u -> password d = Some p ->
  List.length users = List.length passwords ->
  passwords !! retries = Some c ->
  login_pass retries response d =
  if contains "Pass" response then exchange c d else (Ok response, d).
Proof.
  intros Hu Hp Hlen Hc. unfold login_pass.
  destruct (contains "Pass" response); [|reflexivity].
  unfold bind at 1. unfold gets at 1.
  rewrite Hp, (truthy_Some p p_supplied). cbn [negb]. cbv beta iota.
  rewrite bind_ret_l. unfold bind at 1. unfold gets at 1. rewrite Hu.
  unfold attr_split at 1. rewrite bind_ret_l.
  unfold bind at 1. unfold gets at 1. rewrite Hp.
  unfold attr_split at 1. rewrite bind_ret_l.
  rewrite Hlen, Nat.eqb_refl. unfold item. rewrite Hc.
  cbn [negb]. cbv beta iota. rewrite bind_ret_l. reflexivity.
Qed.

Lemma login_pass_mismatch retries response d :
  username d = Some u -> password d = Some p ->
  List.length users <> List.length passwords ->
  login_pass retries response d =
  if contains "Pass" response
  then (Raise ConnectionError, set_stdout (stdout d ++ [msg_lists_differ]) d)
  else (Ok response, d).
Proof.
  intros Hu Hp Hlen. unfold login_pass.
  destruct (contains "Pass" response); [|reflexivity].
  unfold bind at 1. unfold gets at 1.
  rewrite Hp, (truthy_Some p p_supplied). cbn [negb]. cbv beta iota.
  rewrite bind_ret_l. unfold bind at 1. unfold gets at 1. rewrite Hu.
  unfold attr_split at 1. rewrite bind_ret_l.
  unfold bind at 1. unfold gets at 1. rewrite Hp.
  unfold attr_split at 1. rewrite bind_ret_l.
  apply Nat.eqb_neq in Hlen. rewrite Hlen. reflexivity.
Qed.

Lemma login_check_run retries response d :
  username d = Some u ->
  login_check retries response d =
  login_verdict retries (List.length users) response d.
Proof.
  intros Hu. unfold login_check, login_verdict, accept_prompt.
  destruct (endswith ">" response) eqn:Hgt.
  - rewrite (endswith_prompts_exclusive _ Hgt). cbn [orb]. cbv beta iota.
    unfold bind, ret, modify.
    destruct (item_last (splitlines response) d) as [[a | e |] d']; reflexivity.
  - cbn [orb]. destruct (endswith "#" response) eqn:Hh.
    + unfold bind, ret, modify.
      destruct (item_last (splitlines response) _) as [[a | e |] d']; reflexivity.
    + unfold bind at 1. unfold gets at 1. rewrite Hu.
      unfold attr_split. rewrite bind_ret_l. 
      destruct (S retries <? _)%nat eqn:Hlt.
      * apply Nat.ltb_lt in Hlt.
        replace (_ >? 1)%Z with true; [reflexivity|].
        symmetry. apply Z.gtb_lt. lia.
      * apply Nat.ltb_ge in Hlt.
        replace (_ >? 1)%Z with false; [reflexivity|].
        symmetry. rewrite Z.gtb_ltb. apply Z.ltb_ge. lia.
Qed.

(** One pass of the loop at index [retries], the lists being of equal
    length. *)
Lemma login_body_run retries response d cu cp :
  username d = Some u -> password d = Some p ->
  List.length users = List.length passwords ->
  users !! retries = Some cu -> passwords !! retries = Some cp ->
  login_body retries response d =
  bind (submit_pair cu cp response) (login_verdict retries (List.length users)) d.
Proof.
  intros Hu Hp Hlen Hcu Hcp.
  unfold login_body, submit_pair. rewrite bind_assoc.
  apply bind_cong.
  - rewrite (login_user_run _ _ _ _ Hu Hcu).
    destruct (contains "User" response); reflexivity.
  - intros r1 d1 H1. apply cued_exchange_creds in H1 as [Hu1 Hp1].
    rewrite Hu in Hu1. rewrite Hp in Hp1.
    apply bind_cong.
    + rewrite (login_pass_run _ _ _ _ Hu1 Hp1 Hlen Hcp).
      destruct (contains "Pass" r1); reflexivity.
    + intros r2 d2 H2. apply cued_exchange_creds in H2 as [Hu2 _].
      rewrite Hu1 in Hu2. apply (login_check_run _ _ _ Hu2).
Qed.

Lemma login_loop_try_pairs fuel :
  List.length users = List.length passwords ->
  forall retries response d,
    username d = Some u -> password d = Some p ->
    retries < List.length users ->
    List.length users - retries <= fuel ->
    login_loop fuel retries response d =
    try_pairs (drop retries (zip users passwords)) response d.
Proof.
  intros Hlen.
  induction fuel as [|fuel IH]; intros retries response d Hu Hp Hlt Hfuel; [lia|].
  destruct (lookup_lt_is_Some_2 users retries Hlt) as [cu Hcu].
  assert (Hlt' : retries < List.length passwords) by lia.
  destruct (lookup_lt_is_Some_2 passwords retries Hlt') as [cp Hcp].
  assert (Hz : zip users passwords !! retries = Some (cu, cp)).
  { rewrite lookup_zip_with, Hcu, Hcp. reflexivity. }
  rewrite (drop_S _ _ _ Hz).
  cbn [login_loop try_pairs].
  etransitivity;
    [apply bind_cong;
     [apply (login_body_run _ _ _ _ _ Hu Hp Hlen Hcu Hcp) | reflexivity]|].
  rewrite bind_assoc. apply bind_cong; [reflexivity|].
  intros r2 d2 H2.
  apply submit_pair_creds in H2 as [Hu2 Hp2]. rewrite Hu in Hu2. rewrite Hp in Hp2.
  unfold login_verdict.
  destruct (endswith ">" r2 || endswith "#" r2).
  - unfold bind, ret. destruct (accept_prompt r2 d2) as [[[] | e |] d']; reflexivity.
  - destruct (S retries <? List.length users)%nat eqn:Hnext.
    + apply Nat.ltb_lt in Hnext.
      destruct (drop (S retries) _) as [|pr rest] eqn:Hdrop.
      { apply (f_equal (@List.length _)) in Hdrop.
        rewrite length_drop, length_zip_with in Hdrop. simpl in Hdrop. lia. }
      rewrite <- Hdrop.
      unfold bind, ret, print, modify. cbv beta iota.
      apply IH; auto. lia.
    + apply Nat.ltb_ge in Hnext.
      rewrite drop_ge by (rewrite length_zip_with; lia).
      reflexivity.
Qed.

(** With lists of different lengths: the rest of a pass, after the
    username step, writes only what the later passes write. *)
Lemma login_mismatch_tail fuel retries :
  List.length users <> List.length passwords ->
  (forall response d,
      username d = Some u -> password d = Some p ->
      exists ws,
        outbox (login_loop fuel (S retries) response d).2 = outbox d ++ ws
        /\ ws `sublist_of` map with_newline (drop (S retries) users)) ->
  forall r1 d1,
    username d1 = Some u -> password d1 = Some p ->
    exists ws,
      outbox (bind (bind (login_pass retries r1) (login_check retries))
                   (fun ctl => match ctl with
                               | LoginDone => ret tt
                               | LoginAgain retries' response' =>
                                   login_loop fuel retries' response'
                               end) d1).2 = outbox d1 ++ ws
      /\ ws `sublist_of` map with_newline (drop (S retries) users).
Proof.
  intros Hlen IH r1 d1 Hu Hp.
  rewrite bind_assoc. unfold bind at 1.
  rewrite (login_pass_mismatch _ _ _ Hu Hp Hlen).
  destruct (contains "Pass" r1).
  - exists []. split; [simpl; by rewrite app_nil_r | apply sublist_nil_l].
  - unfold bind at 1. rewrite (login_check_run _ _ _ Hu). unfold login_verdict.
    destruct (endswith ">" r1 || endswith "#" r1).
    + exists []. split; [|apply sublist_nil_l].
      rewrite app_nil_r. rewrite <- (accept_prompt_outbox r1 d1).
      unfold bind, ret. destruct (accept_prompt r1 d1) as [[[] | e |] d']; reflexivity.
    + destruct (S retries <? _)%nat.
      * unfold bind, ret, print, modify. cbv beta iota.
        destruct (IH r1 (set_stdout (stdout d1 ++ [msg_try_next]) d1) Hu Hp)
          as (ws & Hws & Hsub).
        exists ws. split; [exact Hws | exact Hsub].
      * exists []. split; [unfold bind; simpl; by rewrite app_nil_r | apply sublist_nil_l].
Qed.

Lemma login_loop_mismatch_outbox :
  List.length users <> List.length passwords ->
  forall fuel retries response d,
    username d = Some u -> password d = Some p ->
    exists ws,
      outbox (login_loop fuel retries response d).2 = outbox d ++ ws
      /\ ws `sublist_of` map with_newline (drop retries users).
Proof.
  intros Hlen. induction fuel as [|fuel IH]; intros retries response d Hu Hp.
  { exists []. split; [simpl; by rewrite app_nil_r | apply sublist_nil_l]. }
  pose proof (login_mismatch_tail fuel retries Hlen
                (fun r d => IH (S retries) r d)) as Htail.
  cbn [login_loop]. unfold login_body. rewrite bind_assoc. unfold bind at 1.
  destruct (users !! retries) as [cu|] eqn:Hcu.
  - rewrite (login_user_run _ _ _ _ Hu Hcu). rewrite (drop_S _ _ _ Hcu).
    destruct (contains "User" response).
    + rewrite exchange_run. destruct (inbox d) as [|text rest].
      * exists [with_newline cu]. split; [reflexivity|].
        cbn [map]. apply sublist_skip, sublist_nil_l.
      * set (d1 := set_inbox rest _).
        destruct (Htail text d1 Hu Hp) as (ws & Hws & Hsub).
        exists (with_newline cu :: ws). split.
        -- etransitivity; [exact Hws|]. subst d1. simpl. by rewrite <- app_assoc.
        -- cbn [map]. by apply sublist_skip.
    + destruct (Htail response d Hu Hp) as (ws & Hws & Hsub).
      exists ws. split; [exact Hws|].
      cbn [map]. by apply sublist_cons.
  - rewrite (login_user_no_candidate _ _ _ Hu Hcu).
    destruct (contains "User" response).
    + exists []. split; [simpl; by rewrite app_nil_r | apply sublist_nil_l].
    + destruct (Htail response d Hu Hp) as (ws & Hws & Hsub).
      exists ws. split; [exact Hws|].
      etransitivity; [exact Hsub|]. apply fmap_sublist, sublist_drop_S.
Qed.

End Supplied.

(** ** Login: the claims *)

(** A split list has at least one entry. *)
Lemma split_length_pos sep s : 0 < List.length (split sep s).
Proof.
  destruct s as [|c s]; simpl; [lia|].
  destruct (Ascii.eqb c sep); [simpl; lia|].
  destruct (split sep s); simpl; lia.
Qed.

(** C4.  With username and password lists of equal length, the login
    loop is the walk [try_pairs] along the two lists zipped: candidates
    are submitted in pairs sharing their index, from index 0 upwards,
    and the walk ends at the first pair answered by a response that ends
    in [>] or [#]; no later pair is looked at.  The loop needs no more
    passes than the lists have entries. *)
Theorem login_pairwise_in_order
    (u p : string) (fuel : nat) (response : string) (d : TelnetDevice) :
  u <> "" -> p <> "" ->
  List.length (split DELIMITER u) = List.length (split DELIMITER p) ->
  username d = Some u -> password d = Some p ->
  List.length (split DELIMITER u) <= fuel ->
  login_loop fuel 0 response d =
  try_pairs (zip (split DELIMITER u) (split DELIMITER p)) response d.
Proof.
  intros Hu Hp Hlen Hdu Hdp Hfuel.
  rewrite (login_loop_try_pairs u p Hu Hp fuel Hlen 0 response d Hdu Hdp).
  - reflexivity.
  - apply split_length_pos.
  - lia.
Qed.

Lemma login_pairwise_in_order_witness :
  let d := new_device "192.0.2.1" (Some "admin,oper") (Some "secret,hunter2") None
             [sample_password_prompt; sample_banner; sample_password_prompt;
              sample_user_prompt] [] in
  login_loop 2 0 "Username:" d =
  try_pairs [("admin", "secret"); ("oper", "hunter2")] "Username:" d
  /\ outbox (login_loop 2 0 "Username:" d).2
     = ["admin" +:+ newline; "secret" +:+ newline;
        "oper" +:+ newline; "hunter2" +:+ newline].
Proof.
  intros d. split; [|reflexivity].
  apply (login_pairwise_in_order "admin,oper" "secret,hunter2" 2 "Username:" d);
    [discriminate | discriminate | reflexivity | reflexivity | reflexivity | simpl; lia].
Defined.

(** C1, as the code has it.  With username and password lists of
    different lengths, whatever the device answers:
    - every line written during [__init__] is a username candidate, the
      candidates being written in list order: no password is written;
    - the step that handles a password cue fails on the spot with
      [ConnectionError], after printing that the lists must have the
      same length and without writing or reading anything. *)
Theorem login_mismatch_sends_no_password
    (h u p : string) (e : option string) (answers typed : list string)
    (quiet : bool) (fuel : nat) :
  u <> "" -> p <> "" ->
  List.length (split DELIMITER u) <> List.length (split DELIMITER p) ->
  outbox (init fuel quiet (new_device h (Some u) (Some p) e answers typed)).2
    `sublist_of` map with_newline (split DELIMITER u)
  /\ forall retries response d,
      username d = Some u -> password d = Some p ->
      contains "Pass" response = true ->
      login_pass retries response d
      = (Raise ConnectionError, set_stdout (stdout d ++ [msg_lists_differ]) d).
Proof.
  intros Hu Hp Hlen. split.
  - rewrite init_run. cbn [inbox new_device].
    destruct answers as [|banner rest]; [destruct quiet; apply sublist_nil_l|].
    destruct (last_item (splitlines banner)) as [line|];
      [|destruct quiet; apply sublist_nil_l].
    set (d1 := set_inbox rest _).
    destruct (login_loop_mismatch_outbox u p Hu Hp Hlen fuel 0 line d1)
      as (ws & Hws & Hsub); [by destruct quiet | by destruct quiet |].
    assert (Hout : outbox d1 = []) by (by destruct quiet).
    rewrite Hout in Hws. simpl in Hws, Hsub.
    unfold bind. destruct (login_loop fuel 0 line d1) as [[[] | err |] d2]; simpl in *.
    + destruct quiet; simpl; by rewrite Hws.
    + by rewrite Hws.
    + by rewrite Hws.
  - intros retries response d Hdu Hdp Hcue.
    rewrite (login_pass_mismatch u p Hp retries response d Hdu Hdp Hlen).
    by rewrite Hcue.
Qed.

Lemma login_mismatch_sends_no_password_witness :
  let d := new_device "192.0.2.1" (Some "admin,oper") (Some "secret") None
             [sample_banner; sample_password_prompt] [] in
  (init 2 false d).1 = Raise ConnectionError
  /\ outbox (init 2 false d).2 `sublist_of` map with_newline (split DELIMITER "admin,oper")
  /\ forall retries response d,
      username d = Some "admin,oper" -> password d = Some "secret" ->
      contains "Pass" response = true ->
      login_pass retries response d
      = (Raise ConnectionError, set_stdout (stdout d ++ [msg_lists_differ]) d).
Proof.
  intros d. split; [reflexivity|].
  apply (login_mismatch_sends_no_password "192.0.2.1" "admin,oper" "secret" None
           [sample_banner; sample_password_prompt] [] false 2);
    [discriminate | discriminate | simpl; lia].
Defined.

(** C1 as stated fails: in front of a device that asks for the username
    first, the first username candidate has been written by the time
    the different lengths are noticed. *)
Lemma login_mismatch_after_username_sent :
  ~ (forall (h u p : string) (answers : list string) (fuel : nat),
        List.length (split DELIMITER u) <> List.length (split DELIMITER p) ->
        exists d',
          init fuel false (new_device h (Some u) (Some p) None answers [])
          = (Raise ConnectionError, d')
          /\ outbox d' = []).
Proof.
  intros H.
  destruct (H "192.0.2.1" "admin,oper" "secret"
              [sample_banner; sample_password_prompt] 2) as (d' & Hrun & Hout).
  - simpl. lia.
  - vm_compute in Hrun. injection Hrun as <-. discriminate Hout.
Qed.

Lemma submit_pair_password_cue cu cp response d a rest :
  password_cue response -> inbox d = a :: rest ->
  submit_pair cu cp response d =
  (Ok a, set_inbox rest (set_outbox (outbox d ++ [with_newline cp]) d)).
Proof.
  intros (Hc & Hc' & _) Hin. unfold submit_pair. rewrite Hc'.
  rewrite bind_ret_l, Hc. fold (exchange cp). rewrite exchange_run, Hin. reflexivity.
Qed.

Lemma split_two_nonempty s a b : split DELIMITER s = [a; b] -> s <> "".
Proof. intros H ->. discriminate. Qed.

(** C5.  With two username and two password candidates, in front of a
    device that opens with a password cue and answers each password with
    a new password cue and no prompt, [__init__] writes the two
    passwords, one after the other, and nothing else; it then raises
    [ConnectionError], its last message being the wrong-login one.  Two
    passes of the loop are enough. *)
Theorem login_two_passwords_exhausted
    (h u p u0 u1 p0 p1 : string) (e : option string)
    (banner cue a1 a2 : string) (rest typed : list string) (quiet : bool) (fuel : nat) :
  split DELIMITER u = [u0; u1] ->
  split DELIMITER p = [p0; p1] ->
  last_item (splitlines banner) = Some cue ->
  password_cue cue -> password_cue a1 -> password_cue a2 ->
  2 <= fuel ->
  exists d',
    init fuel quiet (new_device h (Some u) (Some p) e (banner :: a1 :: a2 :: rest) typed)
    = (Raise ConnectionError, d')
    /\ outbox d' = [with_newline p0; with_newline p1]
    /\ inbox d' = rest
    /\ last (stdout d') = Some msg_wrong_login
    /\ enable_mode d' = false.
Proof.
  intros Hu Hp Hlast Hc0 (H1 & H1' & H1g & H1h) (H2 & H2' & H2g & H2h) Hfuel.
  pose proof (split_two_nonempty _ _ _ Hu) as Hune.
  pose proof (split_two_nonempty _ _ _ Hp) as Hpne.
  assert (Hlen : List.length (split DELIMITER u) = List.length (split DELIMITER p))
    by (rewrite Hu, Hp; reflexivity).
  rewrite init_run. cbn [inbox new_device]. rewrite Hlast.
  set (d2 := set_inbox _ _).
  assert (Hd2 : username d2 = Some u /\ password d2 = Some p
                /\ inbox d2 = a1 :: a2 :: rest /\ outbox d2 = []
                /\ enable_mode d2 = false).
  { subst d2. unfold greeted. destruct quiet; repeat split; reflexivity. }
  destruct Hd2 as (Hu1 & Hp1 & Hin1 & Hout1 & Hen1). clearbody d2.
  unfold bind at 1.
  rewrite (login_loop_try_pairs u p Hune Hpne fuel Hlen 0 cue d2 Hu1 Hp1)
    by (rewrite Hu; simpl; lia).
  rewrite Hu, Hp. cbn [zip_with drop try_pairs].
  unfold bind at 1.
  rewrite (submit_pair_password_cue u0 p0 cue d2 a1 (a2 :: rest) Hc0 Hin1).
  rewrite H1g, H1h. cbn [orb]. cbv beta iota.
  unfold bind at 1. unfold print at 1, modify at 1. cbv beta iota.
  unfold bind at 1.
  rewrite (submit_pair_password_cue u1 p1 a1 _ a2 rest); [|by repeat split|reflexivity].
  rewrite H2g, H2h. cbn [orb]. cbv beta iota.
  unfold bind, print, modify, raise. cbv beta iota.
  eexists. split; [reflexivity|]. cbn. rewrite Hout1, Hen1.
  repeat split. apply last_snoc.
Qed.

Lemma login_two_passwords_exhausted_witness :
  exists d',
    init 2 false
      (new_device "192.0.2.1" (Some "admin,oper") (Some "secret,hunter2") None
         [sample_password_banner; sample_password_again; sample_password_again] [])
    = (Raise ConnectionError, d')
    /\ outbox d' = [with_newline "secret"; with_newline "hunter2"]
    /\ inbox d' = []
    /\ last (stdout d') = Some msg_wrong_login
    /\ enable_mode d' = false.
Proof.
  apply (login_two_passwords_exhausted "192.0.2.1" "admin,oper" "secret,hunter2"
           "admin" "oper" "secret" "hunter2" None
           sample_password_banner "Password:" sample_password_again sample_password_again
           [] [] false 2);
    [reflexivity | reflexivity | reflexivity
     | repeat split | repeat split | repeat split | lia].
Defined.

(** ** Privilege escalation *)

Lemma enable_body_run e retries d :
  enable_password d = Some e -> e <> "" ->
  enable_body retries d = enable_pass e retries d.
Proof.
  intros He Hne. unfold enable_body, enable_pass, read_output, expect.
  unfold bind at 1. unfold bind at 1.
  destruct (inbox d) as [|response rest]; [reflexivity|].
  unfold ret at 1. cbv beta iota.
  destruct (contains "Password:" response).
  - unfold bind at 1. unfold gets at 1. cbn [enable_password set_inbox].
    rewrite He, (truthy_Some e Hne). cbn [negb]. cbv beta iota.
    rewrite bind_ret_l. unfold bind at 1. unfold gets at 1. cbn [enable_password set_inbox].
    rewrite He. unfold attr_split. rewrite bind_ret_l.
    destruct (split DELIMITER e !! retries) as [c|] eqn:Hc.
    + pose proof (lookup_lt_Some _ _ _ Hc) as Hlt.
      replace (_ >=? 1)%Z with true by (symmetry; apply Z.geb_le; lia).
      unfold item. rewrite Hc. reflexivity.
    + apply lookup_ge_None in Hc.
      replace (_ >=? 1)%Z with false; [reflexivity|].
      symmetry. rewrite Z.geb_leb. apply Z.leb_gt. lia.
  - destruct (contains "#" response); [reflexivity|].
    unfold bind at 1. unfold gets at 1. cbn [enable_password set_inbox].
    rewrite He. unfold attr_split. rewrite bind_ret_l.
    destruct (retries <? _)%nat eqn:Hlt.
    + apply Nat.ltb_lt in Hlt.
      replace (_ >=? 1)%Z with true by (symmetry; apply Z.geb_le; lia). reflexivity.
    + apply Nat.ltb_ge in Hlt.
      replace (_ >=? 1)%Z with false; [reflexivity|].
      symmetry. rewrite Z.geb_leb. apply Z.leb_gt. lia.
Qed.

(** Once the list is forgotten and nobody types, the loop ends well only
    on a [#]. *)
Lemma enable_loop_forgotten fuel : forall retries d d',
  enable_password d = None -> stdin d = [] ->
  enable_loop fuel retries d = (Ok tt, d') -> enable_mode d' = true.
Proof.
  induction fuel as [|fuel IH]; intros retries d d' He Hin; [discriminate|].
  cbn [enable_loop]. unfold bind at 1. unfold gets at 1. cbv beta iota.
  destruct (enable_mode d) eqn:Hmode; [by intros [= <-]|].
  unfold bind at 1. unfold enable_body, read_output, expect.
  unfold bind at 1. unfold bind at 1.
  destruct (inbox d) as [|response rest]; [discriminate|].
  unfold ret at 1. cbv beta iota.
  destruct (contains "Password:" response).
  - unfold bind at 1. unfold gets at 1. cbn [enable_password set_inbox]. rewrite He.
    cbn [truthy negb]. cbv beta iota.
    unfold bind at 1. unfold bind at 1. unfold input. cbn [stdin set_inbox]. rewrite Hin.
    discriminate.
  - destruct (contains "#" response).
    + unfold bind at 1. unfold modify at 1, ret at 1. cbv beta iota.
      destruct fuel as [|fuel]; [discriminate|]. cbn [enable_loop].
      unfold bind at 1. unfold gets at 1. cbn [enable_mode set_enable_mode].
      cbv beta iota. by intros [= <-].
    + unfold bind at 1. unfold gets at 1. cbn [enable_password set_inbox]. rewrite He.
      discriminate.
Qed.

Lemma enable_loop_gives_up e fuel :
  e <> "" ->
  forall retries d d',
    enable_password d = Some e -> stdin d = [] ->
    enable_loop fuel retries d = (Ok tt, d') -> enable_mode d' = false ->
    exists ws, outbox d' = outbox d ++ ws
               /\ resends (drop retries (split DELIMITER e)) ws.
Proof.
  intros Hne. induction fuel as [|fuel IH]; intros retries d d' He Hin; [discriminate|].
  cbn [enable_loop]. unfold bind at 1. unfold gets at 1. cbv beta iota.
  destruct (enable_mode d) eqn:Hmode; [intros [= <-]; congruence|].
  unfold bind at 1. rewrite (enable_body_run e retries d He Hne). unfold enable_pass.
  destruct (inbox d) as [|response rest]; [discriminate|]. cbv zeta.
  destruct (contains "Password:" response).
  - destruct (split DELIMITER e !! retries) as [c|] eqn:Hc.
    + intros Hrun Hfinal. apply IH in Hrun as (ws & Hout & Hres); auto.
      exists (with_newline c :: ws). split.
      * rewrite Hout. simpl. by rewrite <- app_assoc.
      * rewrite (drop_S _ _ _ Hc). by constructor.
    + intros Hrun Hfinal. apply enable_loop_forgotten in Hrun; [congruence | done | done].
  - destruct (contains "#" response).
    + intros Hrun Hfinal. exfalso.
      destruct fuel as [|fuel]; [discriminate|]. cbn [enable_loop] in Hrun.
      unfold bind at 1 in Hrun. unfold gets at 1 in Hrun.
      cbn [enable_mode set_enable_mode] in Hrun. cbv beta iota in Hrun.
      injection Hrun as <-. discriminate Hfinal.
    + destruct (retries <? _)%nat eqn:Hlt.
      * intros Hrun Hfinal. apply IH in Hrun as (ws & Hout & Hres); auto.
        exists (with_newline "enable" :: ws). split.
        -- rewrite Hout. simpl. by rewrite <- app_assoc.
        -- by constructor.
      * intros [= <-] _. exists []. split; [simpl; by rewrite app_nil_r|].
        apply Nat.ltb_ge in Hlt. rewrite drop_ge by lia. constructor.
Qed.

(** An escalation that ends without an exception and without the
    privileged mode, nobody typing, has submitted each candidate once,
    in list order. *)
Lemma enable_gives_up_after_all_candidates e fuel d d' :
  e <> "" -> enable_password d = Some e -> stdin d = [] ->
  enable fuel d = (Ok tt, d') -> enable_mode d' = false ->
  exists ws, outbox d' = outbox d ++ with_newline "enable" :: ws
             /\ resends (split DELIMITER e) ws.
Proof.
  intros Hne He Hin. unfold enable.
  unfold bind at 1. unfold gets at 1. cbv beta iota.
  destruct (enable_mode d) eqn:Hmode; [intros [= <-]; congruence|].
  unfold bind at 1. unfold send_command, write, modify. cbv beta iota.
  intros Hrun Hfinal.
  apply (enable_loop_gives_up e fuel Hne 0) in Hrun as (ws & Hout & Hres); auto.
  exists ws. split; [|exact Hres].
  rewrite Hout. simpl. by rewrite <- app_assoc.
Qed.

(** C3, at an input where the code departs from it.  A device asks for
    the enable password three times and then returns to the user prompt.
    With two candidates, [enable] submits both, answers the third cue
    with an empty line and forgets the list; the response that follows
    carries neither cue nor [#], and the length test on the forgotten
    list raises [AttributeError].  With three candidates the same device
    is left through the failure message, without an exception. *)
Theorem enable_two_candidates_three_cues :
  let answers := [sample_enable_prompt; sample_password_again; sample_password_again;
                  sample_bad_secrets] in
  let d := logged_in (Some "e1,e2") answers in
  enable_mode d = false
  /\ (enable 5 d).1 = Raise AttributeError
  /\ outbox (enable 5 d).2
     = outbox d ++ [with_newline "enable"; with_newline "e1"; with_newline "e2";
                    with_newline ""]
  /\ enable_password (enable 5 d).2 = None
  /\ (enable 5 (logged_in (Some "e1,e2,e3") answers)).1 = Ok tt
  /\ last (stdout (enable 5 (logged_in (Some "e1,e2,e3") answers)).2) = Some msg_no_enable.
Proof. repeat split. Qed.

(** ** The status dictionary: one call as a run of updates *)

Lemma set_int_status_same d : set_int_status (int_status d) d = d.
Proof. by destruct d. Qed.

Lemma for_each_status rows d :
  for_each rows store_status d =
  (Ok tt, set_int_status (run_updates (map PutStatus rows) (int_status d)).1 d).
Proof.
  revert d. induction rows as [|row rows IH]; intros d.
  - simpl. by rewrite set_int_status_same.
  - cbn [for_each map run_updates apply_update]. unfold bind at 1.
    unfold store_status at 1, modify. rewrite IH. reflexivity.
Qed.

Lemma for_each_description rows d :
  for_each rows store_description d =
  (Ok tt, set_int_status (run_updates (map PutDescription rows) (int_status d)).1 d).
Proof.
  revert d. induction rows as [|row rows IH]; intros d.
  - simpl. by rewrite set_int_status_same.
  - cbn [for_each map run_updates apply_update]. unfold bind at 1.
    unfold store_description at 1, modify. rewrite IH. reflexivity.
Qed.

Lemma for_each_power rows d :
  for_each rows store_power d =
  (outcome_of (run_updates (map PutPower rows) (int_status d)).2,
   set_int_status (run_updates (map PutPower rows) (int_status d)).1 d).
Proof.
  revert d. induction rows as [|row rows IH]; intros d.
  - simpl. by rewrite set_int_status_same.
  - cbn [for_each map run_updates apply_update]. unfold bind at 1.
    unfold store_power at 1. unfold bind at 1, gets at 1.
    destruct (put_power row (int_status d)) as [m'|] eqn:E.
    + unfold modify. rewrite IH. reflexivity.
    + simpl. by rewrite set_int_status_same.
Qed.

Lemma run_updates_app us vs m :
  run_updates (us ++ vs) m =
  match run_updates us m with
  | (m', None) => run_updates vs m'
  | (m', Some k) => (m', Some k)
  end.
Proof.
  revert m. induction us as [|u us IH]; intros m; [reflexivity|].
  simpl. destruct (apply_update u m); [apply IH | reflexivity].
Qed.

Lemma run_status_ok rows m : (run_updates (map PutStatus rows) m).2 = None.
Proof. revert m. induction rows; intros m; simpl; auto. Qed.

Lemma run_description_ok rows m : (run_updates (map PutDescription rows) m).2 = None.
Proof. revert m. induction rows; intros m; simpl; auto. Qed.

Lemma load_status_run d t rest :
  inbox d = t :: rest ->
  exists d1, load_status d = (Ok tt, d1)
    /\ int_status d1 = (run_updates (map PutStatus (status_rows t)) (int_status d)).1
    /\ inbox d1 = rest.
Proof.
  intros Hin. unfold load_status, send_command, write, read_output, expect.
  unfold bind, modify, ret. cbn [inbox set_outbox]. rewrite Hin.
  rewrite for_each_status. eexists. split; [reflexivity|]. split; reflexivity.
Qed.

Lemma load_descriptions_run d t rest :
  inbox d = t :: rest ->
  exists d1, load_descriptions d = (Ok tt, d1)
    /\ int_status d1 = (run_updates (map PutDescription (description_rows t)) (int_status d)).1
    /\ inbox d1 = rest.
Proof.
  intros Hin. unfold load_descriptions, send_command, write, read_output, expect.
  unfold bind, modify, ret. cbn [inbox set_outbox]. rewrite Hin.
  rewrite for_each_description. eexists. split; [reflexivity|]. split; reflexivity.
Qed.

Lemma load_power_run d t rest :
  inbox d = t :: rest ->
  exists d1,
    load_power d = (outcome_of (run_updates (map PutPower (power_rows t)) (int_status d)).2, d1)
    /\ int_status d1 = (run_updates (map PutPower (power_rows t)) (int_status d)).1
    /\ inbox d1 = rest.
Proof.
  intros Hin. unfold load_power, send_command, write, read_output, expect.
  unfold bind, modify, ret. cbn [inbox set_outbox]. rewrite Hin.
  rewrite for_each_power. eexists. split; [reflexivity|]. split; reflexivity.
Qed.

Lemma get_int_status_run fd gp d o d' :
  call_reads fd gp <= List.length (inbox d) ->
  get_int_status fd gp d = (o, d') ->
  o = result_of (run_updates (call_updates fd gp (inbox d)) (int_status d))
  /\ int_status d' = (run_updates (call_updates fd gp (inbox d)) (int_status d)).1
  /\ inbox d' = drop (call_reads fd gp) (inbox d).
Proof.
  intros Hlen. unfold call_reads in Hlen. unfold get_int_status.
  destruct (inbox d) as [|t1 rest1] eqn:Hin; [simpl in Hlen; lia|].
  destruct (load_status_run d t1 rest1 Hin) as (d1 & Hrun1 & Hm1 & Hin1).
  unfold bind at 1. rewrite Hrun1. unfold call_updates. rewrite run_updates_app.
  pose proof (run_status_ok (status_rows t1) (int_status d)) as Hok1.
  destruct (run_updates (map PutStatus _) _) as [m1 e1] eqn:E1. simpl in Hok1, Hm1. subst e1.
  destruct fd.
  - destruct rest1 as [|t2 rest2]; [destruct gp; simpl in Hlen; lia|].
    destruct (load_descriptions_run d1 t2 rest2 Hin1) as (d2 & Hrun2 & Hm2 & Hin2).
    unfold bind at 1. rewrite Hrun2. rewrite run_updates_app.
    pose proof (run_description_ok (description_rows t2) (int_status d1)) as Hok2.
    rewrite Hm1 in *.
    destruct (run_updates (map PutDescription _) _) as [m2 e2] eqn:E2.
    simpl in Hok2, Hm2. subst e2.
    destruct gp.
    + destruct rest2 as [|t3 rest3]; [simpl in Hlen; lia|].
      destruct (load_power_run d2 t3 rest3 Hin2) as (d3 & Hrun3 & Hm3 & Hin3).
      unfold bind at 1. rewrite Hrun3. rewrite Hm2 in *.
      destruct (run_updates (map PutPower _) _) as [m3 e3] eqn:E3. simpl in Hm3.
      destruct e3 as [k|]; simpl; intros [= <- <-]; unfold result_of; simpl; subst; auto.
    + rewrite bind_ret_l. unfold gets. intros [= <- <-].
      unfold result_of. simpl. subst. auto.
  - rewrite bind_ret_l. destruct gp.
    + destruct rest1 as [|t3 rest3]; [simpl in Hlen; lia|].
      destruct (load_power_run d1 t3 rest3 Hin1) as (d3 & Hrun3 & Hm3 & Hin3).
      unfold bind at 1. rewrite Hrun3. rewrite Hm1 in *.
      destruct (run_updates (map PutPower _) _) as [m3 e3] eqn:E3. simpl in Hm3.
      destruct e3 as [k|]; simpl; intros [= <- <-]; unfold result_of; simpl; subst; auto.
    + rewrite bind_ret_l. unfold gets. intros [= <- <-].
      unfold result_of. simpl. subst. auto.
Qed.

Lemma get_int_status_reads fd gp d m d' :
  get_int_status fd gp d = (Ok m, d') -> call_reads fd gp <= List.length (inbox d).
Proof.
  unfold get_int_status, load_status, load_descriptions, load_power,
    send_command, write, read_output, expect.
  unfold bind, modify, ret, gets. cbn [inbox set_outbox].
  destruct (inbox d) as [|t1 rest1]; [discriminate|].
  rewrite for_each_status. cbn [inbox set_int_status set_inbox set_outbox].
  unfold call_reads. destruct fd, gp; simpl; try lia.
  - destruct rest1 as [|t2 rest2]; [discriminate|].
    rewrite for_each_description. cbn [inbox set_int_status set_inbox set_outbox].
    destruct rest2 as [|t3 rest3]; [discriminate|]. simpl. lia.
  - destruct rest1 as [|t2 rest2]; [discriminate|]. simpl. lia.
  - destruct rest1 as [|t2 rest2]; [discriminate|]. simpl. lia.
Qed.

Lemma apply_update_lookup u m m' k :
  apply_update u m = Some m' -> m' !! k = update_effect k (m !! k) u.
Proof.
  unfold update_effect. destruct u as [line | line | line]; simpl.
  - intros [= <-]. unfold put_status. rewrite lookup_insert.
    destruct (decide (status_interface line = k)); reflexivity.
  - intros [= <-]. unfold put_description.
    destruct (decide (status_interface line = k)) as [<- | Hne].
    + destruct (m !! status_interface line) as [e|] eqn:E.
      * by rewrite lookup_insert_eq.
      * by rewrite E.
    + destruct (m !! status_interface line); [by rewrite lookup_insert_ne | reflexivity].
  - unfold put_power.
    destruct (decide (power_interface line = k)) as [<- | Hne].
    + destruct (m !! power_interface line) as [e|] eqn:E; [|discriminate].
      intros [= <-]. by rewrite lookup_insert_eq.
    + destruct (m !! power_interface line); [|discriminate].
      intros [= <-]. by rewrite lookup_insert_ne.
Qed.

Lemma run_updates_lookup us : forall m m' k,
  run_updates us m = (m', None) ->
  m' !! k = foldl (update_effect k) (m !! k) us.
Proof.
  induction us as [|u us IH]; intros m m' k; simpl.
  - by intros [= <-].
  - destruct (apply_update u m) as [m1|] eqn:E; [|discriminate].
    intros H. rewrite (IH _ _ k H). by rewrite (apply_update_lookup _ _ _ k E).
Qed.

Lemma update_effect_is_Some k x u : is_Some x -> is_Some (update_effect k x u).
Proof.
  intros [e ->]. unfold update_effect.
  destruct (decide _); [destruct u|]; simpl; eauto.
Qed.

Lemma foldl_effect_is_Some k us : forall x,
  is_Some x -> is_Some (foldl (update_effect k) x us).
Proof.
  induction us as [|u us IH]; intros x Hx; simpl; [exact Hx|].
  by apply IH, update_effect_is_Some.
Qed.

Lemma foldl_effect_frame k us : forall x,
  k ∉ map update_key us -> foldl (update_effect k) x us = x.
Proof.
  induction us as [|u us IH]; intros x Hk; simpl; [reflexivity|].
  simpl in Hk. apply not_elem_of_cons in Hk as [Hne Hk].
  rewrite IH by exact Hk. unfold update_effect.
  destruct (decide (update_key u = k)); [congruence | reflexivity].
Qed.

(** A run succeeds when every power row names a known interface. *)
Lemma run_updates_total us : forall m,
  (forall line, PutPower line ∈ us -> is_Some (m !! power_interface line)) ->
  exists m', run_updates us m = (m', None).
Proof.
  induction us as [|u us IH]; intros m Hp; simpl; [eauto|].
  destruct (apply_update u m) as [m1|] eqn:E.
  - apply IH. intros line Hin.
    rewrite (apply_update_lookup _ _ _ (power_interface line) E).
    apply update_effect_is_Some, Hp. by right.
  - destruct u as [line | line | line]; try discriminate.
    simpl in E. unfold put_power in E.
    destruct (Hp line) as [e He]; [by left|]. by rewrite He in E.
Qed.

Lemma run_updates_power_known us : forall m m' line,
  run_updates us m = (m', None) -> PutPower line ∈ us ->
  is_Some (m' !! power_interface line).
Proof.
  induction us as [|u us IH]; intros m m' line H Hin; [by apply elem_of_nil in Hin|].
  simpl in H. destruct (apply_update u m) as [m1|] eqn:E; [|discriminate].
  apply elem_of_cons in Hin as [<- | Hin]; [|eauto].
  rewrite (run_updates_lookup _ _ _ (power_interface line) H).
  apply foldl_effect_is_Some.
  simpl in E. unfold put_power in E.
  destruct (m !! power_interface line) as [e|]; [|discriminate].
  injection E as <-. rewrite lookup_insert_eq. eauto.
Qed.

Lemma overwrite_idempotent b dv pv x :
  overwrite b dv pv (overwrite b dv pv x) = overwrite b dv pv x.
Proof.
  unfold overwrite. destruct b, dv, pv, x; reflexivity.
Qed.

Lemma foldl_effect_overwrite k us :
  exists b dv pv, forall x, foldl (update_effect k) x us = overwrite b dv pv x.
Proof.
  induction us as [|u us IH] using rev_ind.
  - exists None, None, None. reflexivity.
  - destruct IH as (b & dv & pv & IH).
    unfold update_effect at 1.
    destruct (decide (update_key u = k)) as [Hk | Hk].
    + destruct u as [line | line | line].
      * exists (Some (status_entry line)), None, None. intros x.
        rewrite foldl_app. simpl. unfold update_effect. by rewrite decide_True.
      * exists b, (Some (strip (slice_from 55 line))), pv. intros x.
        rewrite foldl_app. simpl. unfold update_effect. rewrite decide_True by done.
        rewrite IH. unfold overwrite. destruct b, dv, pv, x; reflexivity.
      * exists b, dv, (Some (power_value line)). intros x.
        rewrite foldl_app. simpl. unfold update_effect. rewrite decide_True by done.
        rewrite IH. unfold overwrite. destruct b, dv, pv, x; reflexivity.
    + exists b, dv, pv. intros x.
      rewrite foldl_app. simpl. unfold update_effect. rewrite decide_False by done.
      apply IH.
Qed.

(** Making the same updates a second time changes nothing. *)
Lemma run_updates_idempotent us m m' :
  run_updates us m = (m', None) -> run_updates us m' = (m', None).
Proof.
  intros H.
  destruct (run_updates_total us m') as [m'' H2].
  { intros line Hin. by apply (run_updates_power_known us m). }
  rewrite H2. f_equal. apply map_eq. intros k.
  rewrite (run_updates_lookup _ _ _ k H2), (run_updates_lookup _ _ _ k H).
  destruct (foldl_effect_overwrite k us) as (b & dv & pv & Hov).
  rewrite !Hov. apply overwrite_idempotent.
Qed.

Lemma call_updates_prefix fd gp texts later :
  call_reads fd gp <= List.length texts ->
  call_updates fd gp (take (call_reads fd gp) texts ++ later) = call_updates fd gp texts.
Proof.
  unfold call_reads.
  destruct fd, gp; destruct texts as [|t1 [|t2 [|t3 rest]]]; simpl; intros; try lia; reflexivity.
Qed.

(** ** The status dictionary: entry by entry *)

Lemma status_not_description row rows : PutStatus row ∉ map PutDescription rows.
Proof. intros H. apply list_elem_of_fmap in H as (r & Hr & _). discriminate. Qed.

Lemma status_not_power row rows : PutStatus row ∉ map PutPower rows.
Proof. intros H. apply list_elem_of_fmap in H as (r & Hr & _). discriminate. Qed.

Lemma call_updates_status fd gp t1 rest row :
  PutStatus row ∈ call_updates fd gp (t1 :: rest) -> row ∈ status_rows t1.
Proof.
  unfold call_updates. intros H. apply elem_of_app in H as [H | H].
  { apply list_elem_of_fmap in H as (r & [= ->] & Hr). exact Hr. }
  exfalso.
  destruct fd, gp, rest as [|t2 [|t3 rest]]; simpl in H;
    repeat match goal with
      | H : _ ∈ [] |- _ => by apply elem_of_nil in H
      | H : _ ∈ _ ++ _ |- _ => apply elem_of_app in H as [H | H]
      | H : PutStatus _ ∈ map PutDescription _ |- _ => by apply status_not_description in H
      | H : PutStatus _ ∈ map PutPower _ |- _ => by apply status_not_power in H
      end.
Qed.

Lemma call_updates_status_in fd gp t1 rest row :
  row ∈ status_rows t1 -> PutStatus row ∈ call_updates fd gp (t1 :: rest).
Proof.
  intros H. unfold call_updates. apply elem_of_app. left.
  apply list_elem_of_fmap. eauto.
Qed.

Lemma foldl_effect_put k row us : forall x,
  PutStatus row ∈ us -> status_interface row = k ->
  is_Some (foldl (update_effect k) x us).
Proof.
  induction us as [|u us IH]; intros x Hin Hk; [by apply elem_of_nil in Hin|].
  simpl. apply elem_of_cons in Hin as [<- | Hin]; [|eauto].
  apply foldl_effect_is_Some. unfold update_effect. simpl.
  rewrite decide_True by done. eauto.
Qed.

Lemma foldl_effect_descriptions k rows : forall x,
  match x with
  | None => foldl (update_effect k) x (map PutDescription rows) = None
  | Some e =>
      exists v, foldl (update_effect k) x (map PutDescription rows)
                = Some (with_description v e)
  end.
Proof.
  induction rows as [|row rows IH]; intros x.
  - destruct x as [e|]; [|reflexivity]. exists (description e). by destruct e.
  - cbn [map foldl]. unfold update_effect at 2 4. cbn [update_key].
    destruct (decide (status_interface row = k)) as [Hk|Hk]; destruct x as [e|].
    + destruct (IH (Some (with_description (strip (slice_from 55 row)) e))) as [v Hv].
      exists v. exact Hv.
    + apply (IH None).
    + apply (IH (Some e)).
    + apply (IH None).
Qed.

Lemma foldl_effect_statuses k rows : forall x,
  foldl (update_effect k) x (map PutStatus rows) = None <->
  x = None /\ k ∉ map status_interface rows.
Proof.
  induction rows as [|row rows IH]; intros x.
  - simpl. split; [intros ->; split; [reflexivity | apply not_elem_of_nil] | tauto].
  - cbn [map foldl]. rewrite IH. unfold update_effect. cbn [update_key].
    rewrite not_elem_of_cons.
    destruct (decide (status_interface row = k)) as [-> | Hne].
    + split; [intros [[=] _] | intros [_ [[] _]]; reflexivity].
    + split; [intros [? ?] | intros [? [? ?]]]; repeat split; auto.
Qed.

Lemma foldl_effect_None k us :
  (forall row, PutStatus row ∈ us -> status_interface row <> k) ->
  foldl (update_effect k) None us = None.
Proof.
  induction us as [|u us IH]; intros Hs; [reflexivity|].
  cbn [foldl]. replace (update_effect k None u) with (@None int_entry).
  - apply IH. intros row Hin. apply Hs. by right.
  - unfold update_effect. destruct (decide (update_key u = k)) as [Hk|]; [|reflexivity].
    destruct u as [row | row | row]; try reflexivity.
    exfalso. apply (Hs row); [by left | exact Hk].
Qed.

Lemma run_power_fail rows : forall m m' k,
  run_updates (map PutPower rows) m = (m', Some k) ->
  exists before row after,
    rows = before ++ row :: after /\ k = power_interface row /\ m' !! k = None
    /\ run_updates (map PutPower before) m = (m', None).
Proof.
  induction rows as [|r rows IH]; intros m m' k; [discriminate|].
  cbn [map run_updates apply_update].
  destruct (put_power r m) as [m1|] eqn:E.
  - intros H. apply IH in H as (before & row & after & -> & -> & Hnone & Hrun).
    exists (r :: before), row, after. repeat split; auto.
    cbn [map run_updates apply_update]. by rewrite E.
  - intros [= <- <-]. exists [], r, rows. repeat split; auto.
    unfold put_power in E. by destruct (m !! power_interface r).
Qed.

Lemma call_updates_power fd texts tp :
  texts !! (call_reads fd true - 1) = Some tp ->
  call_updates fd true texts = call_updates fd false texts ++ map PutPower (power_rows tp).
Proof.
  unfold call_reads, call_updates.
  destruct fd; destruct texts as [|t1 [|t2 [|t3 rest]]]; simpl; try discriminate;
    intros [= ->]; rewrite ?app_nil_r, <- ?app_assoc; reflexivity.
Qed.

Lemma run_without_power_ok fd texts m :
  (run_updates (call_updates fd false texts) m).2 = None.
Proof.
  unfold call_updates.
  destruct fd; destruct texts as [|t1 [|t2 rest]]; simpl; try reflexivity;
    rewrite ?app_nil_r, ?run_updates_app;
    repeat match goal with
      | |- context [run_updates (map PutStatus ?r) ?m] =>
          let H := fresh in
          pose proof (run_status_ok r m) as H;
          destruct (run_updates (map PutStatus r) m) as [? ?]; simpl in H; subst
      | |- context [run_updates (map PutDescription ?r) ?m] =>
          let H := fresh in
          pose proof (run_description_ok r m) as H;
          destruct (run_updates (map PutDescription r) m) as [? ?]; simpl in H; subst
      end; reflexivity.
Qed.

(** ** Methods that leave the status dictionary alone *)

Create HintDb keeps.

Lemma keeps_ret {A} (a : A) : keeps_status (ret a).
Proof. intros d. reflexivity. Qed.

Lemma keeps_raise {A} e : keeps_status (@raise A e).
Proof. intros d. reflexivity. Qed.

Lemma keeps_out_of_fuel {A} : keeps_status (@out_of_fuel A).
Proof. intros d. reflexivity. Qed.

Lemma keeps_gets {A} (f : TelnetDevice -> A) : keeps_status (gets f).
Proof. intros d. reflexivity. Qed.

Lemma keeps_bind {A B} (m : M A) (f : A -> M B) :
  keeps_status m -> (forall a, keeps_status (f a)) -> keeps_status (bind m f).
Proof.
  intros Hm Hf d. unfold bind. specialize (Hm d).
  destruct (m d) as [[a | e |] d1]; simpl in *; [|exact Hm..].
  rewrite Hf. exact Hm.
Qed.

Lemma keeps_if {A} (b : bool) (m1 m2 : M A) :
  keeps_status m1 -> keeps_status m2 -> keeps_status (if b then m1 else m2).
Proof. by destruct b. Qed.

Lemma keeps_print line : keeps_status (print line).
Proof. intros d. reflexivity. Qed.

Lemma keeps_input : keeps_status input.
Proof. intros d. unfold input. by destruct (stdin d). Qed.

Lemma keeps_send_command c : keeps_status (send_command c).
Proof. intros d. reflexivity. Qed.

Lemma keeps_expect patterns : keeps_status (expect patterns).
Proof. intros d. unfold expect. by destruct (inbox d). Qed.

Lemma keeps_read_output b : keeps_status (read_output b).
Proof.
  intros d. unfold read_output, expect, bind. by destruct (inbox d).
Qed.

Lemma keeps_item {A} (l : list A) i : keeps_status (item l i).
Proof. intros d. unfold item. by destruct (l !! i). Qed.

Lemma keeps_item_last {A} (l : list A) : keeps_status (item_last l).
Proof. intros d. unfold item_last. by destruct (last_item l). Qed.

Lemma keeps_attr_split o : keeps_status (attr_split o).
Proof. intros d. by destruct o. Qed.

Lemma keeps_set_username v : keeps_status (modify (set_username v)).
Proof. intros d. reflexivity. Qed.

Lemma keeps_set_password v : keeps_status (modify (set_password v)).
Proof. intros d. reflexivity. Qed.

Lemma keeps_set_hostname v : keeps_status (modify (set_hostname v)).
Proof. intros d. reflexivity. Qed.

Lemma keeps_set_enable_mode v : keeps_status (modify (set_enable_mode v)).
Proof. intros d. reflexivity. Qed.

#[local] Hint Resolve keeps_ret keeps_raise keeps_out_of_fuel keeps_gets keeps_bind
  keeps_if keeps_print keeps_input keeps_send_command keeps_expect keeps_read_output keeps_item
  keeps_item_last keeps_attr_split keeps_set_username keeps_set_password
  keeps_set_hostname keeps_set_enable_mode : keeps.

Ltac keeps_step :=
  first [ apply keeps_bind; [|intro] | apply keeps_if | solve [auto with keeps] ].
Ltac keeps_steps := repeat keeps_step.

Lemma keeps_login_body retries response : keeps_status (login_body retries response).
Proof.
  unfold login_body, login_user, login_pass, login_check.
  keeps_steps.
Qed.

Lemma keeps_login_loop fuel : forall retries response,
  keeps_status (login_loop fuel retries response).
Proof.
  induction fuel as [|fuel IH]; intros retries response; simpl; [auto with keeps|].
  apply keeps_bind; [apply keeps_login_body|].
  intros [r s|]; auto with keeps.
Qed.

Lemma keeps_init fuel quiet : keeps_status (init fuel quiet).
Proof.
  unfold init.
  repeat first [apply keeps_login_loop | keeps_step].
Qed.

(** ** The status dictionary: the claims *)



(** C7, as the code has it.  A call with the description query reads the
    status table and then the descriptions.  Compared with [base], the
    dictionary the same call returns without the description query:
    - a name is missing from [base] exactly when the session did not
      hold it before the call and the status table does not list it;
    - a name missing from [base] is missing from the result, also when
      the description output lists it;
    - an entry of [base] is in the result with at most its description
      replaced;
    - on a session that held no entry, the result holds exactly the
      names of the status table. *)
Theorem description_merge_touches_known_entries
    (d : TelnetDevice) (t1 t2 : string) (rest : list string) :
  inbox d = t1 :: t2 :: rest ->
  exists base m' d0 d',
    get_int_status false false d = (Ok base, d0)
    /\ get_int_status true false d = (Ok m', d')
    /\ forall k,
        (base !! k = None <-> int_status d !! k = None /\ k ∉ status_names t1)
        /\ match base !! k with
           | None => m' !! k = None
           | Some e => exists v, m' !! k = Some (with_description v e)
           end
        /\ (int_status d = ∅ -> (is_Some (m' !! k) <-> k ∈ status_names t1)).
Proof.
  intros Hin.
  destruct (get_int_status false false d) as [o0 d0] eqn:H0.
  destruct (get_int_status true false d) as [o1 d'] eqn:H1.
  assert (Hl0 : call_reads false false <= List.length (inbox d)) by (rewrite Hin; unfold call_reads; simpl; lia).
  assert (Hl1 : call_reads true false <= List.length (inbox d)) by (rewrite Hin; unfold call_reads; simpl; lia).
  destruct (get_int_status_run _ _ _ _ _ Hl0 H0) as (Hr0 & _).
  destruct (get_int_status_run _ _ _ _ _ Hl1 H1) as (Hr1 & _).
  rewrite Hin in Hr0, Hr1. unfold call_updates in Hr0, Hr1.
  rewrite app_nil_r in Hr0, Hr1. rewrite run_updates_app in Hr1.
  unfold result_of in Hr0, Hr1.
  pose proof (run_status_ok (status_rows t1) (int_status d)) as Hok0.
  destruct (run_updates (map PutStatus _) _) as [base e0] eqn:E0. simpl in Hok0, Hr0. subst e0.
  pose proof (run_description_ok (description_rows t2) base) as Hok1.
  destruct (run_updates (map PutDescription _) _) as [m' e1] eqn:E1. simpl in Hok1, Hr1. subst e1.
  subst o0 o1. exists base, m', d0, d'. split; [reflexivity|]. split; [reflexivity|].
  intros k.
  pose proof (run_updates_lookup _ _ _ k E0) as Hb.
  pose proof (run_updates_lookup _ _ _ k E1) as Hm.
  assert (Hbase : base !! k = None <-> int_status d !! k = None /\ k ∉ status_names t1).
  { rewrite Hb. apply foldl_effect_statuses. }
  split; [exact Hbase|]. split.
  - rewrite Hm. apply (foldl_effect_descriptions k _ (base !! k)).
  - intros Hempty. rewrite Hempty, lookup_empty in Hbase.
    rewrite Hm. pose proof (foldl_effect_descriptions k (description_rows t2) (base !! k)) as Hd.
    destruct (base !! k) as [e|] eqn:Hbk.
    + destruct Hd as [v ->]. split; [intros _ | eauto].
      destruct (decide (k ∈ status_names t1)) as [|Hn]; [done|].
      destruct Hbase as [_ Hbase]. by discriminate Hbase.
    + rewrite Hd. split; [intros [? [=]]|]. intros Hk. destruct Hbase as [Hbase _].
      by destruct (Hbase eq_refl).
Qed.

Lemma description_merge_touches_known_entries_witness :
  exists base m' d0 d',
    get_int_status false false (logged_in None [sample_status_short; sample_descriptions])
    = (Ok base, d0)
    /\ get_int_status true false (logged_in None [sample_status_short; sample_descriptions])
       = (Ok m', d')
    /\ base !! "Gi1/0/3" = None /\ m' !! "Gi1/0/3" = None
    /\ description <$> base !! "Gi1/0/1" = Some "uplink-sw"
    /\ description <$> m' !! "Gi1/0/1" = Some "uplink to core switch, rack 12".
Proof.
  destruct (description_merge_touches_known_entries
              (logged_in None [sample_status_short; sample_descriptions])
              sample_status_short sample_descriptions [] eq_refl)
    as (base & m' & d0 & d' & H0 & H1 & _).
  exists base, m', d0, d'. split; [exact H0|]. split; [exact H1|].
  vm_compute in H0. injection H0 as <- <-.
  vm_compute in H1. injection H1 as <- <-.
  repeat split.
Defined.

(** C7 as stated fails on a session that has been queried before: an
    interface that the earlier status table listed, that the present one
    does not list, and that the description output lists, is in the
    result, its description replaced. *)
Lemma description_merge_reaches_kept_entry :
  ~ (forall (d d' : TelnetDevice) (t1 t2 : string) (rest : list string)
            (m' : gmap string int_entry) (k : string),
        inbox d = t1 :: t2 :: rest ->
        get_int_status true false d = (Ok m', d') ->
        k ∉ status_names t1 -> m' !! k = None).
Proof.
  intros H.
  pose (d := (get_int_status false false
                (logged_in None [sample_status; sample_status_short; sample_descriptions])).2).
  pose (r := get_int_status true false d).
  assert (Hrun : get_int_status true false d = (Ok (int_status r.2), r.2))
    by (vm_compute; reflexivity).
  specialize (H d r.2 sample_status_short sample_descriptions [] (int_status r.2)
                "Gi1/0/3" eq_refl Hrun).
  assert (Hk : "Gi1/0/3" ∉ status_names sample_status_short).
  { apply (bool_decide_unpack _). by vm_compute. }
  specialize (H Hk). vm_compute in H. discriminate H.
Qed.

(** C8.  A call of [get_int_status] that returns the dictionary [m1],
    made again on the same session in front of the same responses,
    returns [m1] again, whatever the session held before the first call
    and whichever of the two further queries are asked for. *)
Theorem get_int_status_idempotent (fd gp : bool) (d d1 : TelnetDevice)
    (m1 : gmap string int_entry) (later : list string) :
  get_int_status fd gp d = (Ok m1, d1) ->
  (get_int_status fd gp
     (set_inbox (take (call_reads fd gp) (inbox d) ++ later) d1)).1 = Ok m1.
Proof.
  intros H1.
  pose proof (get_int_status_reads _ _ _ _ _ H1) as Hlen.
  destruct (get_int_status_run _ _ _ _ _ Hlen H1) as (Hres & Hm & _).
  unfold result_of in Hres.
  destruct (run_updates _ _) as [m' err] eqn:Hrun. simpl in Hres, Hm.
  destruct err; [discriminate|]. injection Hres as ->.
  set (d1' := set_inbox _ d1).
  destruct (get_int_status fd gp d1') as [o2 d2] eqn:H2.
  assert (Hlen' : call_reads fd gp <= List.length (inbox d1')).
  { subst d1'. cbn [inbox set_inbox]. rewrite length_app, length_take. lia. }
  destruct (get_int_status_run _ _ _ _ _ Hlen' H2) as (Hres2 & _).
  subst d1'. cbn [inbox int_status set_inbox] in Hres2.
  rewrite (call_updates_prefix _ _ _ _ Hlen), Hm in Hres2.
  rewrite (run_updates_idempotent _ _ _ Hrun) in Hres2.
  exact Hres2.
Qed.

Lemma get_int_status_idempotent_witness :
  let d := logged_in None [sample_status; sample_descriptions; sample_power] in
  exists m1,
    (get_int_status true true d).1 = Ok m1
    /\ (get_int_status true true
          (set_inbox [sample_status; sample_descriptions; sample_power]
                     (get_int_status true true d).2)).1 = Ok m1
    /\ power <$> m1 !! "Gi1/0/4" = Some "15.4W".
Proof.
  intros d.
  pose (r := get_int_status true true d).
  assert (Hrun : get_int_status true true d = (Ok (int_status r.2), r.2))
    by (vm_compute; reflexivity).
  exists (int_status r.2). split; [exact (f_equal fst Hrun)|]. split.
  - exact (get_int_status_idempotent true true d r.2 (int_status r.2) [] Hrun).
  - by vm_compute.
Defined.

(** C9.  The status dictionary is empty when [__init__] is done, and
    [get_int_status] only adds to it: of two calls made one after the
    other on a session, the first returning [m1] and the second [m2],
    - every interface of the first call's status table is in [m1];
    - an interface that none of the rows read by the second call names
      has in [m2] the entry it has in [m1]. *)
Theorem int_status_kept_across_calls
    (fd1 gp1 fd2 gp2 : bool) (d d1 d2 : TelnetDevice)
    (m1 m2 : gmap string int_entry) (k : string) :
  get_int_status fd1 gp1 d = (Ok m1, d1) ->
  get_int_status fd2 gp2 d1 = (Ok m2, d2) ->
  (forall h u p e answers typed fuel quiet,
      int_status (init fuel quiet (new_device h u p e answers typed)).2 = ∅)
  /\ (forall t1, head (inbox d) = Some t1 -> k ∈ status_names t1 -> is_Some (m1 !! k))
  /\ (k ∉ call_names fd2 gp2 (inbox d1) -> m2 !! k = m1 !! k).
Proof.
  intros H1 H2. split; [|split].
  - intros. apply keeps_init.
  - intros t1 Hhead Hk.
    pose proof (get_int_status_reads _ _ _ _ _ H1) as Hlen.
    destruct (get_int_status_run _ _ _ _ _ Hlen H1) as (Hres & _).
    unfold result_of in Hres.
    destruct (run_updates _ _) as [m' err] eqn:Hrun. simpl in Hres.
    destruct err; [discriminate|]. injection Hres as ->.
    rewrite (run_updates_lookup _ _ _ k Hrun).
    destruct (inbox d) as [|t rest]; [discriminate|]. injection Hhead as ->.
    apply list_elem_of_fmap in Hk as (row & -> & Hrow).
    apply (foldl_effect_put _ row); [by apply call_updates_status_in | reflexivity].
  - intros Hk.
    pose proof (get_int_status_reads _ _ _ _ _ H1) as Hlen1.
    destruct (get_int_status_run _ _ _ _ _ Hlen1 H1) as (Hres1 & Hm1 & _).
    unfold result_of in Hres1.
    destruct (run_updates _ (int_status d)) as [m' err] eqn:Hrun1. simpl in Hres1, Hm1.
    destruct err; [discriminate|]. injection Hres1 as <-.
    pose proof (get_int_status_reads _ _ _ _ _ H2) as Hlen2.
    destruct (get_int_status_run _ _ _ _ _ Hlen2 H2) as (Hres2 & _).
    unfold result_of in Hres2. rewrite Hm1 in Hres2.
    destruct (run_updates _ m1) as [m'' err] eqn:Hrun2. simpl in Hres2.
    destruct err; [discriminate|]. injection Hres2 as <-.
    rewrite (run_updates_lookup _ _ _ k Hrun2).
    by apply foldl_effect_frame.
Qed.

Lemma int_status_kept_across_calls_witness :
  let d := logged_in None [sample_status; sample_status_short] in
  exists m1 m2,
    (get_int_status false false d).1 = Ok m1
    /\ (get_int_status false false (get_int_status false false d).2).1 = Ok m2
    /\ is_Some (m1 !! "Gi1/0/3")
    /\ m2 !! "Gi1/0/3" = m1 !! "Gi1/0/3".
Proof.
  intros d.
  pose (r1 := get_int_status false false d).
  pose (r2 := get_int_status false false r1.2).
  assert (H1 : get_int_status false false d = (Ok (int_status r1.2), r1.2))
    by (vm_compute; reflexivity).
  assert (H2 : get_int_status false false r1.2 = (Ok (int_status r2.2), r2.2))
    by (vm_compute; reflexivity).
  exists (int_status r1.2), (int_status r2.2).
  split; [exact (f_equal fst H1)|]. split; [exact (f_equal fst H2)|].
  destruct (int_status_kept_across_calls false false false false d r1.2 r2.2
              (int_status r1.2) (int_status r2.2) "Gi1/0/3" H1 H2) as (_ & Hin & Hkept).
  split.
  - apply (Hin sample_status); [reflexivity|].
    apply (bool_decide_unpack _). by vm_compute.
  - apply Hkept. apply (bool_decide_unpack _). by vm_compute.
Defined.

(** C10.  A call that asks for the power query, whose power response has
    more than five lines, one of its rows naming an interface that the
    session does not hold and the status table does not list, raises
    [KeyError]: at the first row [row] whose interface is unknown.  The
    session keeps the entries as the rows before [row] have updated
    them, on top of [m0], the dictionary the same call returns without
    the power query. *)
Theorem power_merge_raises_key_error
    (fd : bool) (d : TelnetDevice) (t1 tp line : string) :
  head (inbox d) = Some t1 ->
  inbox d !! (call_reads fd true - 1) = Some tp ->
  5 < List.length (splitlines tp) ->
  line ∈ slice_list 1 1 (splitlines tp) ->
  int_status d !! power_interface line = None ->
  power_interface line ∉ status_names t1 ->
  exists k d' m0 before row after,
    get_int_status fd true d = (Raise (KeyError k), d')
    /\ slice_list 1 1 (splitlines tp) = before ++ row :: after
    /\ k = power_interface row
    /\ (get_int_status fd false d).1 = Ok m0
    /\ m0 !! k = None
    /\ run_updates (map PutPower before) m0 = (int_status d', None).
Proof.
  intros Hhead Htp Hfive Hline Hnew Hbase.
  assert (Hrows : power_rows tp = slice_list 1 1 (splitlines tp)).
  { unfold power_rows. apply Nat.ltb_lt in Hfive. by rewrite Hfive. }
  assert (Hlen : call_reads fd true <= List.length (inbox d)).
  { apply lookup_lt_Some in Htp. unfold call_reads in *. destruct fd; simpl in *; lia. }
  assert (Hlen0 : call_reads fd false <= List.length (inbox d)).
  { unfold call_reads in *. destruct fd; simpl in *; lia. }
  destruct (get_int_status fd true d) as [o d'] eqn:H1.
  destruct (get_int_status fd false d) as [o0 d0] eqn:H0.
  destruct (get_int_status_run _ _ _ _ _ Hlen H1) as (Hr1 & Hm1 & _).
  destruct (get_int_status_run _ _ _ _ _ Hlen0 H0) as (Hr0 & _).
  rewrite (call_updates_power _ _ _ Htp), run_updates_app in Hr1, Hm1.
  pose proof (run_without_power_ok fd (inbox d) (int_status d)) as Hok.
  unfold result_of in Hr0, Hr1.
  destruct (run_updates (call_updates fd false _) _) as [m0 e0] eqn:E0.
  simpl in Hok, Hr0. subst e0 o0.
  assert (Hm0 : m0 !! power_interface line = None).
  { rewrite (run_updates_lookup _ _ _ (power_interface line) E0), Hnew.
    apply foldl_effect_None. intros row Hin Hk. apply Hbase.
    destruct (inbox d) as [|t rest]; [discriminate|]. injection Hhead as ->.
    apply call_updates_status in Hin. apply list_elem_of_fmap. eauto. }
  destruct (run_updates (map PutPower _) m0) as [m' e1] eqn:E1. simpl in Hr1, Hm1.
  destruct e1 as [k|].
  - rewrite Hrows in E1. apply run_power_fail in E1 as (before & row & after & Hsplit & -> & Hnone & Hrun).
    subst o. exists (power_interface row), d', m0, before, row, after.
    rewrite Hm1. repeat split; auto.
    rewrite (run_updates_lookup _ _ _ (power_interface row) Hrun) in Hnone.
    destruct (m0 !! power_interface row) as [e|] eqn:He; [|reflexivity].
    exfalso. destruct (foldl_effect_is_Some (power_interface row) (map PutPower before) (Some e))
      as [x Hx]; [eauto|]. congruence.
  - exfalso.
    assert (Hin : PutPower line ∈ map PutPower (power_rows tp)).
    { rewrite Hrows. apply list_elem_of_fmap. eauto. }
    destruct (run_updates_power_known _ _ _ _ E1 Hin) as [e He].
    rewrite (run_updates_lookup _ _ _ (power_interface line) E1), Hm0 in He.
    rewrite foldl_effect_None in He; [discriminate|].
    intros row Hrow. by apply status_not_power in Hrow.
Qed.

Lemma power_merge_raises_key_error_witness :
  let d := logged_in None [sample_status; sample_power_stack] in
  (get_int_status false true d).1 = Raise (KeyError "Gi2/0/1")
  /\ power <$> int_status (get_int_status false true d).2 !! "Gi1/0/4" = Some "15.4W"
  /\ power <$> int_status (get_int_status false true d).2 !! "Gi1/0/2" = Some "-".
Proof.
  intros d.
  destruct (power_merge_raises_key_error false d sample_status sample_power_stack
              "Gi2/0/1   auto   on         7.0     IP Phone 8845       2     30.0")
    as (k & d' & m0 & before & row & after & Hrun & _).
  - reflexivity.
  - reflexivity.
  - vm_compute. lia.
  - apply (bool_decide_unpack _). by vm_compute.
  - by vm_compute.
  - apply (bool_decide_unpack _). by vm_compute.
  - rewrite Hrun. vm_compute in Hrun. injection Hrun as <- <-.
    repeat split.
Defined.

(** * The rest of the program

    The methods and the parts of [main] that the statements above do not
    reach, and further behaviour of the login, of [enable] and of
    [get_int_status]. *)

(** ** Whitespace, separators and lines *)

Lemma is_empty_rstrip_by p s : is_empty (rstrip_by p s) = all_chars p s.
Proof.
  induction s as [|c s IH]; [reflexivity|].
  cbn [rstrip_by all_chars]. cbv zeta. rewrite IH.
  destruct (all_chars p s), (p c); reflexivity.
Qed.

Lemma all_chars_lstrip_by p s : all_chars p (lstrip_by p s) = all_chars p s.
Proof.
  induction s as [|c s IH]; [reflexivity|].
  cbn [lstrip_by]. destruct (p c) eqn:E; [|reflexivity].
  rewrite IH. cbn [all_chars]. by rewrite E.
Qed.

Lemma nonblank_blank s : nonblank s = negb (blank s).
Proof.
  unfold nonblank, strip, blank.
  by rewrite is_empty_rstrip_by, all_chars_lstrip_by.
Qed.

Lemma split_ws_nil s : split_ws s = [] <-> blank s = true.
Proof.
  unfold blank. induction s as [|c s IH]; [done|].
  cbn [split_ws all_chars]. destruct (isspace c); [exact IH|].
  cbn [andb]. split; [|done].
  destruct s as [|c' s']; [done|].
  destruct (isspace c'); [done|]. by destruct (split_ws (String c' s')).
Qed.

Lemma split_ws_nonblank s : nonblank s = true -> split_ws s <> [].
Proof.
  rewrite nonblank_blank. intros H E. apply split_ws_nil in E. by rewrite E in H.
Qed.

Lemma split_ws_tokens s : Forall token (split_ws s).
Proof.
  induction s as [|c s IH]; [constructor|].
  cbn [split_ws]. destruct (isspace c) eqn:Ec; [exact IH|].
  assert (Hc : token (String c "")).
  { split; [done|]. cbn [all_chars]. by rewrite Ec. }
  destruct s as [|c' s']; [by constructor|].
  destruct (isspace c') eqn:Ec'; [by constructor|].
  destruct (split_ws (String c' s')) as [|h t]; [by constructor|].
  inversion IH as [|? ? [Hh1 Hh2] Ht]; subst. constructor; [|exact Ht].
  split; [done|]. cbn [all_chars]. by rewrite Ec.
Qed.

Lemma split_ws_token x : token x -> split_ws x = [x].
Proof.
  intros [Hne Hall]. induction x as [|c x IH]; [done|].
  cbn [all_chars] in Hall. apply andb_prop in Hall as [Hc Hx].
  apply negb_true_iff in Hc.
  cbn [split_ws]. rewrite Hc. destruct x as [|c' x']; [done|].
  pose proof Hx as Hx'. cbn [all_chars] in Hx'. apply andb_prop in Hx' as [Hc' _].
  apply negb_true_iff in Hc'. rewrite Hc'. by rewrite IH.
Qed.

Lemma split_ws_token_space x r :
  token x -> split_ws (x +:+ " " +:+ r) = x :: split_ws r.
Proof.
  intros [Hne Hall]. induction x as [|c x IH]; [done|].
  cbn [all_chars] in Hall. apply andb_prop in Hall as [Hc Hx].
  apply negb_true_iff in Hc.
  rewrite string_app_cons. cbn [split_ws]. rewrite Hc.
  destruct x as [|c' x'].
  - change ("" +:+ " " +:+ r) with (String " " r). 
    change (isspace " ") with true. cbv iota. reflexivity.
  - pose proof Hx as Hx'. cbn [all_chars] in Hx'. apply andb_prop in Hx' as [Hc' _].
    apply negb_true_iff in Hc'. 
    rewrite string_app_cons. rewrite Hc'. rewrite <- string_app_cons.
    by rewrite IH.
Qed.

Lemma split_ws_join l : Forall token l -> split_ws (join " " l) = l.
Proof.
  induction 1 as [|x l Hx Hl IH]; [reflexivity|].
  cbn [join]. destruct l as [|y l'].
  - by apply split_ws_token.
  - rewrite split_ws_token_space by done. by rewrite IH.
Qed.

Lemma join_cons_head sep c h t :
  join sep (String c h :: t) = String c (join sep (h :: t)).
Proof. cbn [join]. destruct t; [reflexivity|]. by rewrite string_app_cons. Qed.

Lemma join_split sep s : join (String sep "") (split sep s) = s.
Proof.
  induction s as [|c s IH]; [reflexivity|].
  cbn [split]. destruct (Ascii.eqb c sep) eqn:E.
  - apply Ascii.eqb_eq in E as ->.
    pose proof (split_length_pos sep s) as Hpos.
    cbn [join]. destruct (split sep s) as [|h t] eqn:Es; [simpl in Hpos; lia|].
    by rewrite IH.
  - destruct (split sep s) as [|h t] eqn:Es.
    + pose proof (split_length_pos sep s) as Hpos. rewrite Es in Hpos. simpl in Hpos; lia.
    + rewrite join_cons_head. by rewrite IH.
Qed.

Lemma split_free sep s : Forall (free_of sep) (split sep s).
Proof.
  unfold free_of. induction s as [|c s IH]; [by repeat constructor|].
  cbn [split]. destruct (Ascii.eqb c sep) eqn:E; [by constructor|].
  destruct (split sep s) as [|h t]; [constructor; [|done]|].
  - cbn [all_chars]. by rewrite E.
  - inversion IH; subst. constructor; [|done]. cbn [all_chars]. by rewrite E.
Qed.

Lemma rstrip_by_idem p s : rstrip_by p (rstrip_by p s) = rstrip_by p s.
Proof.
  induction s as [|c s IH]; [reflexivity|].
  cbn [rstrip_by]. cbv zeta.
  destruct (is_empty (rstrip_by p s) && p c) eqn:E; [reflexivity|].
  cbn [rstrip_by]. cbv zeta. by rewrite IH, E.
Qed.

Lemma all_chars_app p a b : all_chars p (a +:+ b) = all_chars p a && all_chars p b.
Proof.
  induction a as [|c a IH]; [reflexivity|].
  rewrite string_app_cons. cbn [all_chars]. rewrite IH. by rewrite andb_assoc.
Qed.

Lemma all_chars_impl (p q : ascii -> bool) s :
  (forall c, p c = true -> q c = true) -> all_chars p s = true -> all_chars q s = true.
Proof.
  intros Hpq. induction s as [|c s IH]; [done|].
  cbn [all_chars]. intros [Hc Hs]%andb_prop. rewrite (Hpq c Hc). by apply IH.
Qed.

Lemma splitlines_one_line s : Forall one_line (splitlines s).
Proof.
  remember (String.length s) as n eqn:Hn.
  assert (Hle : String.length s <= n) by lia. clear Hn.
  revert s Hle. induction n as [|n IH]; intros s Hle.
  - destruct s; [constructor|simpl in Hle; lia].
  - destruct s as [|c s]; [constructor|]. simpl in Hle.
    cbn [splitlines]. destruct (islinebreak c) eqn:Ec.
    + destruct s as [|c' s']; [by repeat constructor|].
      simpl in Hle.
      destruct (Ascii.eqb c "013" && Ascii.eqb c' "010").
      * constructor; [done|]. apply IH. lia.
      * constructor; [done|]. apply IH. simpl. lia.
    + pose proof (IH s ltac:(lia)) as Hs.
      destruct (splitlines s) as [|h t].
      * repeat constructor. unfold one_line. cbn [all_chars]. by rewrite Ec.
      * inversion Hs; subst. constructor; [|done].
        unfold one_line. cbn [all_chars]. by rewrite Ec.
Qed.

Lemma splitlines_nonempty s : s <> "" -> splitlines s <> [].
Proof.
  destruct s as [|c s]; [done|]. intros _. cbn [splitlines].
  destruct (islinebreak c).
  - destruct s as [|c' s']; [done|]. by destruct (_ && _).
  - by destruct (splitlines s).
Qed.

Lemma splitlines_single s : one_line s -> s <> "" -> splitlines s = [s].
Proof.
  unfold one_line. induction s as [|c s IH]; [done|].
  cbn [all_chars]. intros [Hc Hs]%andb_prop _. apply negb_true_iff in Hc.
  cbn [splitlines]. rewrite Hc. destruct s as [|c' s']; [reflexivity|].
  by rewrite IH.
Qed.

Lemma replace_char_cons a c s :
  replace (String a "") "" (String c s)
  = if Ascii.eqb a c then replace (String a "") "" s
    else String c (replace (String a "") "" s).
Proof.
  unfold replace. cbn [replace_from startswith]. 
  destruct (Ascii.eqb a c); reflexivity.
Qed.

Lemma replace_char_free a s : free_of a s -> replace (String a "") "" s = s.
Proof.
  unfold free_of. induction s as [|c s IH]; [done|].
  cbn [all_chars]. intros [Hc Hs]%andb_prop. apply negb_true_iff in Hc.
  rewrite replace_char_cons. rewrite Ascii.eqb_sym, Hc. by rewrite IH.
Qed.

Lemma replace_char_removes a s : free_of a (replace (String a "") "" s).
Proof.
  unfold free_of. induction s as [|c s IH]; [done|].
  rewrite replace_char_cons. destruct (Ascii.eqb a c) eqn:E; [done|].
  cbn [all_chars]. by rewrite Ascii.eqb_sym, E.
Qed.

Lemma replace_char_keeps a b s : free_of b s -> free_of b (replace (String a "") "" s).
Proof.
  unfold free_of. induction s as [|c s IH]; [done|].
  cbn [all_chars]. intros [Hc Hs]%andb_prop.
  rewrite replace_char_cons. destruct (Ascii.eqb a c); [by apply IH|].
  cbn [all_chars]. rewrite Hc. by apply IH.
Qed.

Lemma replace_char_app a x r :
  free_of a x ->
  replace (String a "") "" (x +:+ String a r) = x +:+ replace (String a "") "" r.
Proof.
  unfold free_of. induction x as [|c x IH].
  - intros _. change ("" +:+ String a r) with (String a r).
    rewrite replace_char_cons. by rewrite Ascii.eqb_refl.
  - cbn [all_chars]. intros [Hc Hs]%andb_prop. apply negb_true_iff in Hc.
    rewrite !string_app_cons. rewrite replace_char_cons, Ascii.eqb_sym, Hc.
    by rewrite IH.
Qed.

Lemma replace_char_join a ls :
  Forall (free_of a) ls ->
  replace (String a "") "" (join (String a "") ls) = join "" ls.
Proof.
  induction 1 as [|x l Hx Hl IH]; [reflexivity|].
  cbn [join]. destruct l as [|y l'].
  - by apply replace_char_free.
  - change (x +:+ String a "" +:+ join (String a "") (y :: l'))
      with (x +:+ String a (join (String a "") (y :: l'))).
    rewrite replace_char_app by done. by rewrite IH.
Qed.

Lemma join_free a sep ls :
  free_of a sep -> Forall (free_of a) ls -> free_of a (join sep ls).
Proof.
  intros Hsep. induction 1 as [|x l Hx Hl IH]; [done|].
  cbn [join]. destruct l as [|y l']; [done|].
  unfold free_of in *. rewrite !all_chars_app. by rewrite Hx, Hsep, IH.
Qed.

Lemma contains_char a s :
  contains (String a "") s = negb (all_chars (fun x => negb (Ascii.eqb x a)) s).
Proof.
  induction s as [|c s IH]; [reflexivity|].
  cbn [contains startswith all_chars]. rewrite IH.
  rewrite Ascii.eqb_sym. destruct (Ascii.eqb c a); reflexivity.
Qed.

Lemma free_of_contains a s : free_of a s <-> contains (String a "") s = false.
Proof.
  rewrite contains_char. unfold free_of. by rewrite negb_false_iff.
Qed.

Lemma one_line_free a s : islinebreak a = true -> one_line s -> free_of a s.
Proof.
  intros Ha. apply all_chars_impl. intros c Hc.
  apply negb_true_iff. apply negb_true_iff in Hc.
  destruct (Ascii.eqb c a) eqn:E; [|done]. apply Ascii.eqb_eq in E as ->. congruence.
Qed.

Lemma Forall_pop_both {A} (P : A -> Prop) l : Forall P l -> Forall P (pop_both l).
Proof.
  destruct 1 as [|x l Hx Hl]; [constructor|]. cbn [pop_both].
  induction Hl as [|y l Hy Hl IH]; [constructor|].
  cbn [removelast]. destruct l; [constructor|]. constructor; [done|]. exact IH.
Qed.

(** ** [get_facts] and [get_int_list] *)

Lemma get_facts_run when d :
  get_facts when d =
  match inbox d with
  | [] => (Raise EOFError, set_outbox (outbox d ++ [with_newline version_query]) d)
  | text :: rest =>
      let d' := set_inbox rest (set_outbox (outbox d ++ [with_newline version_query]) d) in
      match splitlines text with
      | _ :: l1 :: more =>
          match split_ws l1 with
          | hostname :: words =>
              match more with
              | l2 :: _ =>
                  match last (split_ws l2) with
                  | Some model =>
                      (Ok {| facts_ip_address := host d; facts_hostname := hostname;
                             facts_model := model;
                             facts_uptime := join " " (drop 3 (hostname :: words));
                             facts_when := when |}, d')
                  | None => (Raise IndexError, d')
                  end
              | [] => (Raise IndexError, d')
              end
          | [] => (Raise IndexError, d')
          end
      | _ => (Raise IndexError, d')
      end
  end.
Proof.
  unfold get_facts, send_command, write, modify, read_output, expect.
  unfold bind at 1. cbv beta iota. unfold bind at 1. unfold bind at 1.
  cbn [inbox set_outbox]. destruct (inbox d) as [|text rest]; [reflexivity|].
  unfold ret at 1. cbv beta iota zeta.
  destruct (splitlines text) as [|l0 ls]; [reflexivity|].
  cbn [map pop_first]. rewrite bind_ret_l.
  destruct ls as [|l1 more]; [reflexivity|].
  cbn [map]. unfold item at 1. cbn [lookup list_lookup]. rewrite bind_ret_l.
  destruct (split_ws l1) as [|hostname words]; [reflexivity|].
  unfold item at 1. cbn [lookup list_lookup]. rewrite bind_ret_l.
  destruct more as [|l2 more]; [reflexivity|].
  cbn [map]. unfold item at 1. cbn [lookup list_lookup]. rewrite bind_ret_l.
  unfold item_last, last_item.
  destruct (last (split_ws l2)) as [model|]; reflexivity.
Qed.

(** [get_facts] on a reply of at least three lines whose second and
    third line are not blank: the host name is the first word of the
    second line, the model the last word of the third, and the uptime the
    words of the second line from the fourth on, joined by single spaces.
    Host name and model are non-empty and hold no whitespace; splitting
    the uptime gives back the words it was joined from. *)
Theorem get_facts_fields when d text rest l0 l1 l2 more :
  inbox d = text :: rest ->
  splitlines text = l0 :: l1 :: l2 :: more ->
  nonblank l1 = true -> nonblank l2 = true ->
  exists f,
    (get_facts when d).1 = Ok f
    /\ facts_ip_address f = host d /\ facts_when f = when
    /\ head (split_ws l1) = Some (facts_hostname f)
    /\ last (split_ws l2) = Some (facts_model f)
    /\ token (facts_hostname f) /\ token (facts_model f)
    /\ split_ws (facts_uptime f) = drop 3 (split_ws l1).
Proof.
  intros Hin Hlines H1 H2. rewrite get_facts_run, Hin. cbv zeta. rewrite Hlines.
  pose proof (split_ws_tokens l1) as T1. pose proof (split_ws_tokens l2) as T2.
  apply split_ws_nonblank in H1, H2.
  destruct (split_ws l1) as [|hostname words] eqn:E1; [done|].
  destruct (last (split_ws l2)) as [model|] eqn:E2;
    [|apply last_None in E2; congruence].
  assert (Hm : token model).
  { rewrite Forall_forall in T2. apply T2.
    apply last_Some in E2 as [l' ->]. apply elem_of_app. right. by left. }
  eexists. split; [reflexivity|]. cbn [facts_ip_address facts_when facts_hostname
    facts_model facts_uptime fst].
  split; [done|]. split; [done|]. split; [done|]. split; [done|].
  split; [by inversion T1|]. split; [done|].
  apply split_ws_join. by apply Forall_drop.
Qed.

Lemma get_facts_fields_witness :
  exists f,
    (get_facts "2024-05-01 10:00:00" (logged_in None [sample_version])).1 = Ok f
    /\ facts_ip_address f = "192.0.2.1" /\ facts_hostname f = "Switch1"
    /\ facts_model f = "C9200L" /\ facts_uptime f = "3 days, 2 hours".
Proof.
  destruct (get_facts_fields "2024-05-01 10:00:00" (logged_in None [sample_version])
              sample_version [] "show version | include Model .umber|uptime"
              "Switch1 uptime is 3 days, 2 hours"
              "Model number                    : C9200L" ["Switch1#"]
              eq_refl eq_refl eq_refl eq_refl)
    as (f & Hrun & Hip & _ & Hname & Hmodel & _).
  exists f. split; [exact Hrun|]. split; [exact Hip|].
  assert (E : (get_facts "2024-05-01 10:00:00" (logged_in None [sample_version])).1
              = Ok {| facts_ip_address := "192.0.2.1"; facts_hostname := "Switch1";
                      facts_model := "C9200L"; facts_uptime := "3 days, 2 hours";
                      facts_when := "2024-05-01 10:00:00" |})
    by (vm_compute; reflexivity).
  rewrite E in Hrun. injection Hrun as <-. repeat split.
Defined.

(** [get_facts] on any other reply (fewer than three lines, or a blank
    second or third line) raises [IndexError], after the command has been
    written and the reply consumed. *)
Theorem get_facts_short_reply when d text rest :
  inbox d = text :: rest ->
  (forall l0 l1 l2 more, splitlines text = l0 :: l1 :: l2 :: more ->
                         nonblank l1 && nonblank l2 = false) ->
  (get_facts when d).1 = Raise IndexError
  /\ outbox (get_facts when d).2 = outbox d ++ [with_newline version_query]
  /\ inbox (get_facts when d).2 = rest.
Proof.
  intros Hin Hshort. rewrite get_facts_run, Hin. cbv zeta.
  destruct (splitlines text) as [|l0 [|l1 [|l2 more]]] eqn:E; try done.
  - by destruct (split_ws l1).
  - specialize (Hshort _ _ _ _ eq_refl).
    destruct (split_ws l1) as [|h w] eqn:E1; [done|].
    destruct (last (split_ws l2)) as [model|] eqn:E2; [|done].
    exfalso. rewrite !nonblank_blank in Hshort.
    apply andb_false_iff in Hshort as [H|H]; apply negb_false_iff in H;
      apply split_ws_nil in H.
    + congruence.
    + rewrite H in E2. done.
Qed.

Lemma get_facts_short_reply_witness :
  let d := logged_in None ["show version" +:+ crlf +:+ "Switch1#"] in
  (get_facts "2024-05-01 10:00:00" d).1 = Raise IndexError
  /\ outbox (get_facts "2024-05-01 10:00:00" d).2
     = outbox d ++ [with_newline version_query]
  /\ inbox (get_facts "2024-05-01 10:00:00" d).2 = [].
Proof.
  intros d.
  apply (get_facts_short_reply "2024-05-01 10:00:00" d
           ("show version" +:+ crlf +:+ "Switch1#") []).
  - reflexivity.
  - intros l0 l1 l2 more H. vm_compute in H. discriminate H.
Defined.

Lemma collect_first_words rows d :
  Forall (fun line => nonblank line = true) rows ->
  exists names,
    collect rows (fun line => item (split_ws line) 0) d = (Ok names, d)
    /\ Forall2 (fun line name => head (split_ws line) = Some name) rows names.
Proof.
  induction 1 as [|row rows Hrow Hrows (names & Hrun & Hnames)].
  - exists []. split; [reflexivity|constructor].
  - apply split_ws_nonblank in Hrow.
    destruct (split_ws row) as [|w ws] eqn:E; [done|].
    exists (w :: names). split.
    + cbn [collect]. unfold item at 1. rewrite E. cbn [lookup list_lookup].
      rewrite bind_ret_l. unfold bind at 1. rewrite Hrun. reflexivity.
    + constructor; [by rewrite E|done].
Qed.

Lemma status_rows_nonblank text :
  Forall (fun line => nonblank line = true) (status_rows text).
Proof.
  unfold status_rows. apply Forall_forall. intros line Hin.
  apply list_elem_of_filter in Hin as [Hp _].
  apply Is_true_true in Hp. by apply andb_prop in Hp as [_ ?].
Qed.

(** [get_int_list] cannot raise [IndexError]: the rows it keeps are not
    blank, so each has a first word.  It returns one name per row, in
    order, each non-empty and without whitespace. *)
Theorem get_int_list_never_index_error d text rest :
  inbox d = text :: rest ->
  exists names,
    get_int_list d
    = (Ok names, set_inbox rest (set_outbox (outbox d ++ [with_newline "show int status"]) d))
    /\ Forall2 (fun line name => head (split_ws line) = Some name)
               (status_rows text) names
    /\ Forall token names.
Proof.
  intros Hin. unfold get_int_list, send_command, write, modify, read_output, expect.
  unfold bind at 1. cbv beta iota. unfold bind at 1. unfold bind at 1.
  cbn [inbox set_outbox]. rewrite Hin. unfold ret at 1. cbv beta iota.
  destruct (collect_first_words (status_rows text)
              (set_inbox rest (set_outbox (outbox d ++ [with_newline "show int status"]) d))
              (status_rows_nonblank text)) as (names & Hrun & Hnames).
  exists names. split; [exact Hrun|]. split; [exact Hnames|].
  clear Hrun. induction Hnames as [|line name rows names Hhead _ IH]; [constructor|].
  constructor; [|exact IH].
  pose proof (split_ws_tokens line) as T. destruct (split_ws line); [done|].
  injection Hhead as <-. by inversion T.
Qed.

Lemma get_int_list_never_index_error_witness :
  let d := logged_in None [sample_status] in
  exists names,
    get_int_list d
    = (Ok names, set_inbox [] (set_outbox (outbox d ++ [with_newline "show int status"]) d))
    /\ Forall2 (fun line name => head (split_ws line) = Some name)
               (status_rows sample_status) names
    /\ Forall token names.
Proof.
  intros d. apply (get_int_list_never_index_error d sample_status []). reflexivity.
Defined.

(** ** [main]: the devices, the commands and the output *)

Lemma add_address_elem acc ip x :
  x ∈ add_address acc ip <-> x ∈ acc \/ (x = ip /\ startswith "255." ip = false).
Proof.
  unfold add_address. destruct (decide (ip ∈ acc)) as [Hin|Hin].
  - rewrite (bool_decide_eq_true_2 _ Hin). cbn [negb andb].
    split; [by left|]. intros [H|[-> _]]; done.
  - rewrite (bool_decide_eq_false_2 _ Hin). cbn [negb andb].
    destruct (startswith "255." ip) eqn:E; cbn [negb].
    + split; [by left|]. by intros [H|[_ ?]].
    + rewrite elem_of_app, list_elem_of_singleton. tauto.
Qed.

Lemma add_address_NoDup acc ip : NoDup acc -> NoDup (add_address acc ip).
Proof.
  intros Hnd. unfold add_address. destruct (decide (ip ∈ acc)) as [Hin|Hin].
  - by rewrite (bool_decide_eq_true_2 _ Hin).
  - rewrite (bool_decide_eq_false_2 _ Hin). cbn [negb andb].
    destruct (negb _); [|done]. apply NoDup_app. split; [done|]. split.
    + intros x Hx ->%list_elem_of_singleton. done.
    + apply NoDup_singleton.
Qed.

Lemma foldl_add_address_elem ips : forall acc x,
  x ∈ foldl add_address acc ips
  <-> x ∈ acc \/ (x ∈ ips /\ startswith "255." x = false).
Proof.
  induction ips as [|ip ips IH]; intros acc x; cbn [foldl].
  - split; [by left|]. intros [H|[H _]]; [done|]. by apply elem_of_nil in H.
  - rewrite IH, add_address_elem, elem_of_cons. intuition (subst; auto).
Qed.

Lemma foldl_add_address_NoDup ips : forall acc,
  NoDup acc -> NoDup (foldl add_address acc ips).
Proof.
  induction ips as [|ip ips IH]; intros acc Hnd; cbn [foldl]; [done|].
  by apply IH, add_address_NoDup.
Qed.

Section Device_list_facts.
Variable findall : string -> list string.

Local Abbreviation step :=
  (fun (acc : list string) (line : string) =>
     if device_line line then foldl add_address acc (findall line) else acc).

Lemma device_lines_elem content : forall acc x,
  x ∈ foldl step acc content
  <-> x ∈ acc
      \/ (startswith "255." x = false
          /\ exists line, line ∈ content /\ device_line line = true /\ x ∈ findall line).
Proof.
  induction content as [|line content IH]; intros acc x; cbn [foldl].
  - split; [by left|]. intros [H|(_ & l & H & _)]; [done|]. by apply elem_of_nil in H.
  - rewrite IH. destruct (device_line line) eqn:E.
    + rewrite foldl_add_address_elem. split.
      * intros [[H|[H1 H2]]|(H1 & l & H2 & H3 & H4)]; [by left| |].
        -- right. split; [done|]. exists line. split; [left|done].
        -- right. split; [done|]. exists l. split; [by right|done].
      * intros [H|(H1 & l & H2 & H3 & H4)]; [by left; left|].
        apply elem_of_cons in H2 as [->|H2].
        -- left. right. done.
        -- right. split; [done|]. by exists l.
    + split.
      * intros [H|(H1 & l & H2 & H3 & H4)]; [by left|].
        right. split; [done|]. exists l. split; [by right|done].
      * intros [H|(H1 & l & H2 & H3 & H4)]; [by left|].
        apply elem_of_cons in H2 as [->|H2]; [congruence|].
        right. split; [done|]. by exists l.
Qed.

Lemma device_lines_NoDup content : forall acc,
  NoDup acc -> NoDup (foldl step acc content).
Proof.
  induction content as [|line content IH]; intros acc Hnd; cbn [foldl]; [done|].
  apply IH. destruct (device_line line); [|done].
  by apply foldl_add_address_NoDup.
Qed.

(** The device list built from a file, whatever the matches of the
    regular expression are: it holds no address twice, and it holds
    exactly the matches, on lines that are neither comments nor blank,
    that do not start with [255.]. *)
Theorem device_list_unique content :
  NoDup (device_list findall content)
  /\ forall ip_address,
       ip_address ∈ device_list findall content
       <-> startswith "255." ip_address = false
           /\ exists line, line ∈ content /\ device_line line = true
                           /\ ip_address ∈ findall line.
Proof.
  split.
  - apply (device_lines_NoDup content []). constructor.
  - intros ip. unfold device_list. 
    rewrite (device_lines_elem content [] ip). split.
    + intros [H|H]; [by apply elem_of_nil in H|done].
    + by right.
Qed.
End Device_list_facts.

(** The commands given as arguments: the words are joined by spaces
    and cut at the commas, so that joining the commands by commas gives
    the joined words back; no command holds a comma, and there is always
    at least one command. *)
Theorem commands_of_args_lossless words :
  join "," (commands_of_args words) = join " " words
  /\ Forall (fun c => contains "," c = false) (commands_of_args words)
  /\ (0 < List.length (commands_of_args words))%nat.
Proof.
  unfold commands_of_args. split; [apply (join_split "," )|]. split.
  - eapply Forall_impl; [apply split_free|]. intros c Hc. by apply free_of_contains.
  - apply split_length_pos.
Qed.

Lemma all_chars_rstrip_by p s : all_chars p (rstrip_by p s) = all_chars p s.
Proof.
  induction s as [|c s IH]; [reflexivity|].
  cbn [rstrip_by]. cbv zeta. rewrite is_empty_rstrip_by.
  destruct (all_chars p s) eqn:Es, (p c) eqn:Ec; cbn [andb all_chars];
    rewrite ?Ec, ?IH, ?Es; reflexivity.
Qed.

(** A command read from a command file is a line of the file that is
    not blank, less its trailing whitespace: it is not blank itself and
    ends in no whitespace, in particular in no line feed. *)
Theorem commands_of_file_clean content c :
  c ∈ commands_of_file content ->
  nonblank c = true /\ rstrip_ws c = c
  /\ exists line, line ∈ content /\ nonblank line = true /\ c = rstrip_ws line.
Proof.
  unfold commands_of_file. intros Hc.
  apply list_elem_of_fmap in Hc as (line & -> & Hline).
  apply list_elem_of_filter in Hline as [Hnb Hline]. apply Is_true_true in Hnb.
  split; [|split].
  - rewrite nonblank_blank in *. unfold blank, rstrip_ws in *.
    by rewrite all_chars_rstrip_by.
  - apply rstrip_by_idem.
  - by exists line.
Qed.

Lemma commands_of_file_clean_witness :
  let content := ["show clock  " +:+ newline; newline; "show version" +:+ newline] in
  nonblank "show clock" = true /\ rstrip_ws "show clock" = "show clock"
  /\ exists line, line ∈ content /\ nonblank line = true /\ "show clock" = rstrip_ws line.
Proof.
  intros content. apply (commands_of_file_clean content "show clock").
  apply (bool_decide_unpack _). vm_compute. reflexivity.
Defined.

(** The last cell of a table row holds no line feed and no carriage
    return, whatever the response.  For a response of several lines it is
    the lines between the first and the last one, put end to end. *)
Theorem table_cell_one_line response :
  contains newline (table_cell response) = false
  /\ contains carriage_return (table_cell response) = false
  /\ ((1 < List.length (splitlines response))%nat ->
      table_cell (tidy response) = join "" (pop_both (splitlines response))).
Proof.
  unfold table_cell, newline, carriage_return. split; [|split].
  - apply free_of_contains. apply replace_char_keeps, replace_char_removes.
  - apply free_of_contains. apply replace_char_removes.
  - intros Hlen. unfold tidy. apply Nat.ltb_lt in Hlen. rewrite Hlen.
    pose proof (Forall_pop_both _ _ (splitlines_one_line response)) as Hl.
    unfold newline. rewrite replace_char_join.
    + apply replace_char_free. apply join_free; [done|].
      eapply Forall_impl; [exact Hl|]. intros x. by apply one_line_free.
    + eapply Forall_impl; [exact Hl|]. intros x. by apply one_line_free.
Qed.




(** ** [enable] in front of a device that does not ask *)





(** [enable] without an enable password, when the first response
    carries neither the password cue nor [#]: the length test on the
    missing list raises [AttributeError]; the operator is not asked, and
    [enable] has been written once. *)
Theorem enable_without_password_no_cue fuel d response rest :
  enable_password d = None -> enable_mode d = false ->
  inbox d = response :: rest -> plain_response response ->
  enable (S fuel) d
  = (Raise AttributeError,
     set_inbox rest (set_outbox (outbox d ++ [with_newline "enable"]) d)).
Proof.
  intros He Hmode Hin [Hp Hh]. unfold enable.
  unfold bind at 1. unfold gets at 1. cbv beta iota. rewrite Hmode.
  unfold bind at 1. unfold send_command, write, modify. cbv beta iota.
  cbn [enable_loop]. unfold bind at 1. unfold gets at 1. cbv beta iota.
  cbn [enable_mode set_outbox]. rewrite Hmode.
  unfold bind at 1. unfold enable_body, read_output, expect.
  unfold bind at 1. unfold bind at 1. cbn [inbox set_outbox]. rewrite Hin.
  unfold ret at 1. cbv beta iota. rewrite Hp, Hh.
  unfold bind at 1. unfold gets at 1. cbn [enable_password set_inbox set_outbox].
  rewrite He. reflexivity.
Qed.

Lemma enable_without_password_no_cue_witness :
  let d := logged_in None [sample_unknown_command] in
  enable 1 d
  = (Raise AttributeError,
     set_inbox [] (set_outbox (outbox d ++ [with_newline "enable"]) d)).
Proof.
  intros d. apply (enable_without_password_no_cue 0 d sample_unknown_command []).
  - reflexivity.
  - reflexivity.
  - reflexivity.
  - split; reflexivity.
Defined.

Lemma enable_gives_up_after_all_candidates_witness :
  let answers := [sample_enable_prompt; sample_password_again; sample_password_again;
                  sample_bad_secrets] in
  let d := logged_in (Some "e1,e2,e3") answers in
  exists ws, outbox (enable 5 d).2 = outbox d ++ with_newline "enable" :: ws
             /\ resends (split DELIMITER "e1,e2,e3") ws.
Proof.
  intros answers d.
  apply (enable_gives_up_after_all_candidates "e1,e2,e3" 5 d (enable 5 d).2).
  - discriminate.
  - reflexivity.
  - reflexivity.
  - vm_compute. reflexivity.
  - vm_compute. reflexivity.
Defined.

(** ** [get_int_status]: rows under one name, and a device without power *)

(** A power response of five lines or fewer is not parsed: the call
    with the power query returns the dictionary of the call without it,
    and raises nothing. *)
Theorem power_short_reply_ignored fd d tp :
  inbox d !! (call_reads fd true - 1) = Some tp ->
  (List.length (splitlines tp) <= 5)%nat ->
  exists m, (get_int_status fd true d).1 = Ok m
            /\ (get_int_status fd false d).1 = Ok m
            /\ int_status (get_int_status fd true d).2 = m.
Proof.
  intros Htp Hshort.
  pose proof (lookup_lt_Some _ _ _ Htp) as Hlen.
  assert (Hreads : call_reads fd true <= List.length (inbox d)).
  { unfold call_reads in *. destruct fd; simpl in *; lia. }
  assert (Hreads' : call_reads fd false <= List.length (inbox d)).
  { unfold call_reads in *. destruct fd; simpl in *; lia. }
  destruct (get_int_status fd true d) as [o1 d1] eqn:E1.
  destruct (get_int_status fd false d) as [o2 d2] eqn:E2.
  apply get_int_status_run in E1 as (-> & Hm1 & _); [|done].
  apply get_int_status_run in E2 as (-> & _ & _); [|done].
  rewrite (call_updates_power fd _ tp Htp) in *.
  assert (Hrows : power_rows tp = []).
  { unfold power_rows. cbv zeta.
    replace (5 <? _)%nat with false; [done|]. symmetry. apply Nat.ltb_ge. lia. }
  rewrite Hrows in *. cbn [map] in *. rewrite app_nil_r in *.
  pose proof (run_without_power_ok fd (inbox d) (int_status d)) as Hok.
  destruct (run_updates (call_updates fd false (inbox d)) (int_status d)) as [m err].
  cbn [snd] in Hok. subst err. exists m. unfold result_of. cbn [fst snd] in *. done.
Qed.

Lemma power_short_reply_ignored_witness :
  let d := logged_in None [sample_status; sample_no_power] in
  exists m, (get_int_status false true d).1 = Ok m
            /\ (get_int_status false false d).1 = Ok m
            /\ int_status (get_int_status false true d).2 = m.
Proof.
  intros d. apply (power_short_reply_ignored false d sample_no_power).
  - reflexivity.
  - vm_compute. lia.
Defined.

Lemma length_rstrip_by p s : (String.length (rstrip_by p s) <= String.length s)%nat.
Proof.
  induction s as [|c s IH]; [done|]. cbn [rstrip_by]. cbv zeta.
  destruct (_ && _); cbn [String.length]; lia.
Qed.

Lemma length_lstrip_by p s : (String.length (lstrip_by p s) <= String.length s)%nat.
Proof.
  induction s as [|c s IH]; [done|]. cbn [lstrip_by].
  destruct (p c); cbn [String.length]; lia.
Qed.

Lemma length_string_take n s : (String.length (string_take n s) <= n)%nat.
Proof.
  revert s. induction n as [|n IH]; intros [|c s]; cbn [string_take String.length]; try lia.
  specialize (IH s). lia.
Qed.

Lemma length_status_interface line : (String.length (status_interface line) <= 8)%nat.
Proof.
  unfold status_interface, strip, slice.
  pose proof (length_rstrip_by isspace (lstrip_by isspace (string_take (8 - 0) (string_drop 0 line)))).
  pose proof (length_lstrip_by isspace (string_take (8 - 0) (string_drop 0 line))).
  pose proof (length_string_take (8 - 0) (string_drop 0 line)). lia.
Qed.

Lemma foldl_effect_last_row k rows : forall x,
  foldl (update_effect k) x (map PutStatus rows)
  = match last_row k rows with
    | Some row => Some (status_entry row)
    | None => x
    end.
Proof.
  unfold last_row. induction rows as [|r rows IH]; intros x; [reflexivity|].
  cbn [map foldl]. rewrite IH. unfold update_effect. cbn [update_key].
  rewrite filter_cons. destruct (decide (status_interface r = k)) as [Hk|Hk].
  - destruct (filter _ rows) as [|r' rs] eqn:E; [reflexivity|].
    change (last (r :: r' :: rs)) with (last (r' :: rs)).
    destruct (last (r' :: rs)) eqn:E'; [done|by apply last_None in E'].
  - reflexivity.
Qed.

(** The base call files every row under the first eight characters of
    the line, stripped.  Of several rows with the same name the last one
    is kept; a name without a row keeps the entry it had; and a name whose
    entry has changed is at most eight characters long. *)
Theorem status_last_row_wins d text rest :
  inbox d = text :: rest ->
  exists m,
    (get_int_status false false d).1 = Ok m
    /\ forall k,
         m !! k = match last_row k (status_rows text) with
                  | Some row => Some (status_entry row)
                  | None => int_status d !! k
                  end
         /\ (m !! k <> int_status d !! k -> (String.length k <= 8)%nat).
Proof.
  intros Hin. destruct (get_int_status false false d) as [o d'] eqn:E.
  apply get_int_status_run in E as (-> & _ & _);
    [|rewrite Hin; unfold call_reads; simpl; lia].
  rewrite Hin. cbn [call_updates]. rewrite app_nil_r.
  pose proof (run_status_ok (status_rows text) (int_status d)) as Hok.
  destruct (run_updates (map PutStatus (status_rows text)) (int_status d)) as [m err] eqn:Hrun.
  cbn [snd] in Hok. subst err. exists m. split; [reflexivity|]. intros k.
  rewrite (run_updates_lookup _ _ _ k Hrun), foldl_effect_last_row.
  split; [reflexivity|].
  unfold last_row. destruct (last (filter _ (status_rows text))) as [row|] eqn:El; [|done].
  intros _. apply last_Some in El as [l' El].
  assert (Hrow : row ∈ filter (fun row => status_interface row = k) (status_rows text)).
  { rewrite El. apply elem_of_app. right. by left. }
  apply list_elem_of_filter in Hrow as [<- _]. apply length_status_interface.
Qed.

Lemma status_last_row_wins_witness :
  let d := logged_in None [sample_status_long_names] in
  exists m,
    (get_int_status false false d).1 = Ok m
    /\ description <$> m !! "Twe1/0/1" = Some "printer"
    /\ m !! "Twe1/0/10" = None.
Proof.
  intros d.
  destruct (status_last_row_wins d sample_status_long_names [] eq_refl) as (m & Hrun & Hm).
  exists m. split; [exact Hrun|]. split.
  - rewrite (proj1 (Hm "Twe1/0/1")). vm_compute. reflexivity.
  - rewrite (proj1 (Hm "Twe1/0/10")). vm_compute. reflexivity.
Defined.

(** ** [__init__]: greetings without a cue, and what a login leaves behind *)

Lemma endswith_nonempty suf s : suf <> "" -> endswith suf s = true -> s <> "".
Proof.
  intros Hsuf H ->. unfold endswith in H. apply andb_prop in H as [Hlen _].
  apply Nat.leb_le in Hlen. destruct suf; [done|]. simpl in Hlen. lia.
Qed.

Lemma last_splitlines_prompt suf response :
  suf <> "" -> endswith suf response = true ->
  exists line, last (splitlines response) = Some line.
Proof.
  intros Hsuf H. apply (endswith_nonempty _ _ Hsuf) in H.
  apply splitlines_nonempty in H.
  destruct (last (splitlines response)) as [line|] eqn:E; [by exists line|].
  by apply last_None in E.
Qed.

(** Lines 85-92, for a response that ends in a prompt. *)
Lemma login_check_prompt retries response d line :
  last (splitlines response) = Some line ->
  endswith ">" response = true \/ endswith "#" response = true ->
  login_check retries response d
  = (Ok LoginDone,
     if endswith ">" response then set_hostname (rstrip ">" line) d
     else set_hostname (rstrip "#" line) (set_enable_mode true d)).
Proof.
  intros Hline Hprompt. unfold login_check, item_last, last_item. rewrite Hline.
  destruct (endswith ">" response); [reflexivity|].
  destruct Hprompt as [|Hh]; [done|]. rewrite Hh. reflexivity.
Qed.

Lemma login_body_no_cue retries response d :
  contains "User" response = false -> contains "Pass" response = false ->
  login_body retries response d = login_check retries response d.
Proof.
  intros Hu Hp. unfold login_body, login_user, login_pass. rewrite Hu.
  rewrite bind_ret_l. rewrite Hp. by rewrite bind_ret_l.
Qed.

Lemma last_one_line s line : last (splitlines s) = Some line -> one_line line.
Proof.
  intros H. apply last_Some in H as [l' H].
  pose proof (splitlines_one_line s) as Hall. rewrite H in Hall.
  apply Forall_app in Hall as [_ Hall]. by inversion Hall.
Qed.

Lemma login_loop_at_prompt fuel d line :
  one_line line ->
  contains "User" line = false -> contains "Pass" line = false ->
  endswith ">" line = true \/ endswith "#" line = true ->
  login_loop (S fuel) 0 line d
  = (Ok tt,
     if endswith ">" line then set_hostname (rstrip ">" line) d
     else set_hostname (rstrip "#" line) (set_enable_mode true d)).
Proof.
  intros Hone Hu Hp Hprompt.
  assert (Hne : line <> "").
  { destruct Hprompt as [H|H]; by apply endswith_nonempty in H. }
  pose proof (splitlines_single line Hone Hne) as Hsingle.
  cbn [login_loop]. unfold bind at 1. rewrite login_body_no_cue by done.
  rewrite (login_check_prompt _ _ _ line) by (by rewrite ?Hsingle). reflexivity.
Qed.

(** A device that greets with a prompt and no cue is logged in
    without anything being written or asked, whatever the credentials
    are: the host name is the last line of the greeting less its prompt
    characters, and [#] sets the privileged mode. *)
Theorem login_at_prompt_sends_nothing fuel quiet d banner rest line :
  inbox d = banner :: rest ->
  last (splitlines banner) = Some line ->
  contains "User" line = false -> contains "Pass" line = false ->
  endswith ">" line = true \/ endswith "#" line = true ->
  exists d',
    init (S fuel) quiet d = (Ok tt, d')
    /\ outbox d' = outbox d /\ stdin d' = stdin d /\ inbox d' = rest
    /\ username d' = username d /\ password d' = password d
    /\ hostname d' = rstrip (if endswith ">" line then ">" else "#") line
    /\ enable_mode d' = (if endswith ">" line then enable_mode d else true).
Proof.
  intros Hin Hline Hu Hp Hprompt. rewrite init_run, Hin. unfold last_item. rewrite Hline.
  unfold bind at 1.
  rewrite (login_loop_at_prompt fuel _ line (last_one_line _ _ Hline) Hu Hp Hprompt).
  unfold greeted. destruct (endswith ">" line), quiet;
    (eexists; split; [reflexivity|]; cbn; done).
Qed.

Lemma login_at_prompt_sends_nothing_witness :
  let d := new_device "192.0.2.1" None None None [sample_open_banner] [] in
  exists d',
    init 1 true d = (Ok tt, d')
    /\ outbox d' = [] /\ stdin d' = [] /\ inbox d' = []
    /\ username d' = None /\ password d' = None
    /\ hostname d' = "Switch" /\ enable_mode d' = false.
Proof.
  intros d.
  apply (login_at_prompt_sends_nothing 0 true d sample_open_banner [] "Switch>").
  - reflexivity.
  - reflexivity.
  - reflexivity.
  - reflexivity.
  - left. reflexivity.
Defined.

Lemma login_body_password_only retries response d p :
  username d = None -> password d = Some p -> p <> "" ->
  contains "User" response = false -> contains "Pass" response = true ->
  login_body retries response d = (Raise AttributeError, d).
Proof.
  intros Hu Hp Hne Hcu Hcp. unfold login_body, login_user, login_pass. rewrite Hcu.
  rewrite bind_ret_l. rewrite Hcp.
  unfold bind at 1. unfold bind at 1. unfold gets at 1. cbv beta iota.
  rewrite Hp, (truthy_Some p Hne). cbn [negb]. cbv beta iota.
  unfold bind at 1. unfold ret at 1. cbv beta iota.
  unfold bind at 1. unfold gets at 1. cbv beta iota. rewrite Hu. reflexivity.
Qed.

(** A device that asks for a password only, with a password supplied
    and no username: the length check reads the missing username list and
    raises [AttributeError], before anything is written. *)
Theorem login_password_only_needs_username fuel quiet d banner rest line p :
  username d = None -> password d = Some p -> p <> "" ->
  inbox d = banner :: rest ->
  last (splitlines banner) = Some line ->
  contains "User" line = false -> contains "Pass" line = true ->
  (init (S fuel) quiet d).1 = Raise AttributeError
  /\ outbox (init (S fuel) quiet d).2 = outbox d
  /\ stdin (init (S fuel) quiet d).2 = stdin d.
Proof.
  intros Hu Hp Hne Hin Hline Hcu Hcp.
  destruct (init (S fuel) quiet d) as [o d'] eqn:Hrun. revert Hrun.
  rewrite init_run, Hin. unfold last_item.
  rewrite Hline. unfold bind at 1. cbn [login_loop]. unfold bind at 1.
  rewrite (login_body_password_only _ _ _ p);
    [|try done; unfold greeted; destruct quiet; done..].
  intros [= <- <-]. unfold greeted. destruct quiet; cbn; done.
Qed.

Lemma login_password_only_needs_username_witness :
  let d := new_device "192.0.2.1" None (Some "secret") None
             [sample_password_banner; sample_user_prompt] [] in
  (init 1 true d).1 = Raise AttributeError
  /\ outbox (init 1 true d).2 = [] /\ stdin (init 1 true d).2 = [].
Proof.
  intros d.
  apply (login_password_only_needs_username 0 true d sample_password_banner
           [sample_user_prompt] "Password:" "secret").
  - reflexivity.
  - reflexivity.
  - discriminate.
  - reflexivity.
  - reflexivity.
  - reflexivity.
  - reflexivity.
Defined.


Lemma same_credentials_refl d : same_credentials d d.
Proof. done. Qed.



Section Supplied_credentials.
Variables u p : string.
Hypothesis u_supplied : u <> "".
Hypothesis p_supplied : p <> "".






End Supplied_credentials.


#[local] Instance host_field : SessionField host.
Proof. by split. Qed.
#[local] Instance enable_password_field : SessionField enable_password.
Proof. by split. Qed.
#[local] Instance enable_mode_field : SessionField enable_mode.
Proof. by split. Qed.
#[local] Instance hostname_field : SessionField hostname.
Proof. by split. Qed.

Lemma frame_ret {A B} (f : TelnetDevice -> B) (a : A) : frame f (ret a).
Proof. done. Qed.
Lemma frame_raise {A B} (f : TelnetDevice -> B) e : frame f (@raise A e).
Proof. done. Qed.
Lemma frame_gets {A B} (f : TelnetDevice -> B) (g : TelnetDevice -> A) : frame f (gets g).
Proof. done. Qed.
Lemma frame_bind {A B C} (f : TelnetDevice -> C) (m : M A) (k : A -> M B) :
  frame f m -> (forall a, frame f (k a)) -> frame f (bind m k).
Proof.
  intros Hm Hk d. unfold bind. specialize (Hm d).
  destruct (m d) as [[a|e|] d1]; cbn [snd] in *; [|done..].
  by rewrite Hk.
Qed.
Lemma frame_if {A B} (f : TelnetDevice -> B) (b : bool) (m1 m2 : M A) :
  frame f m1 -> frame f m2 -> frame f (if b then m1 else m2).
Proof. by destruct b. Qed.

Section Session_fields.
Context {B} (f : TelnetDevice -> B) `{!SessionField f}.

Lemma frame_print line : frame f (print line).
Proof. intros d. apply field_stdout. Qed.
Lemma frame_input : frame f input.
Proof. intros d. unfold input. destruct (stdin d); [done|]. apply field_stdin. Qed.
Lemma frame_send_command c : frame f (send_command c).
Proof. intros d. apply field_outbox. Qed.
Lemma frame_read_output b : frame f (read_output b).
Proof.
  intros d. unfold read_output, bind, expect.
  destruct (inbox d); [done|]. apply field_inbox.
Qed.
Lemma frame_item {A} (l : list A) i : frame f (item l i).
Proof. intros d. unfold item. by destruct (l !! i). Qed.
Lemma frame_attr_split o : frame f (attr_split o).
Proof. intros d. by destruct o. Qed.
Lemma frame_set_username v : frame f (modify (set_username v)).
Proof. intros d. apply field_username. Qed.
Lemma frame_set_password v : frame f (modify (set_password v)).
Proof. intros d. apply field_password. Qed.

Ltac frame_steps :=
  repeat first [ apply frame_ret | apply frame_raise | apply frame_gets
               | apply frame_print | apply frame_input | apply frame_send_command
               | apply frame_read_output | apply frame_item | apply frame_attr_split
               | apply frame_set_username | apply frame_set_password
               | apply frame_if | apply frame_bind; [|intro] ].

Lemma frame_login_user retries response : frame f (login_user retries response).
Proof.
  unfold login_user.
  frame_steps. 
Qed.

Lemma frame_login_pass retries response : frame f (login_pass retries response).
Proof.
  unfold login_pass.
  frame_steps.
Qed.
End Session_fields.

Lemma endswith_last_char c s :
  endswith (String c "") s = true <-> last_char s = Some c.
Proof.
  unfold endswith. induction s as [|a s IH].
  - by split.
  - cbn [String.length last_char]. destruct s as [|b s'].
    + cbn. rewrite Ascii.eqb_sym. 
      destruct (Ascii.eqb_spec c a) as [->|Hne]; split; try done; congruence.
    + rewrite <- IH. cbn [String.length]. 
      replace (S (S (String.length s')) - 1) with (S (String.length s')) by lia.
      replace (S (String.length s') - 1) with (String.length s') by lia.
      cbn [string_drop]. 
      replace (1 <=? S (S (String.length s')))%nat with true by done.
      replace (1 <=? S (String.length s'))%nat with true by done.
      destruct (String.length s'); reflexivity.
Qed.

Lemma last_char_rstrip_by p s c :
  last_char (rstrip_by p s) = Some c -> p c = false.
Proof.
  induction s as [|a s IH]; [done|].
  cbn [rstrip_by]. cbv zeta.
  destruct (rstrip_by p s) as [|b r] eqn:E.
  - cbn [is_empty andb]. destruct (p a) eqn:Ea; [done|]. cbn. congruence.
  - cbn [is_empty andb last_char]. exact IH.
Qed.

Lemma rstrip_prompt_gone c line :
  endswith (String c "") (rstrip (String c "") line) = false.
Proof.
  destruct (endswith _ _) eqn:E; [|done].
  apply endswith_last_char in E. unfold rstrip in E.
  apply last_char_rstrip_by in E. cbn in E. by rewrite Ascii.eqb_refl in E.
Qed.

Lemma last_char_last_line s c :
  last_char s = Some c -> islinebreak c = false ->
  exists line, last (splitlines s) = Some line /\ last_char line = Some c.
Proof.
  remember (String.length s) as n eqn:Hn.
  assert (Hle : String.length s <= n) by lia. clear Hn.
  revert s Hle. induction n as [|n IH]; intros s Hle.
  - destruct s; [done|simpl in Hle; lia].
  - destruct s as [|a s]; [done|]. simpl in Hle. intros Hlast Hc.
    cbn [splitlines]. destruct s as [|b s'].
    + cbn in Hlast. injection Hlast as ->. rewrite Hc. cbn. by exists (String c "").
    + cbn [last_char] in Hlast. simpl in Hle.
      destruct (islinebreak a) eqn:Ea.
      * destruct (Ascii.eqb a "013" && Ascii.eqb b "010") eqn:Eab.
        -- destruct s' as [|b' s''].
           { cbn in Hlast. injection Hlast as ->.
             apply andb_prop in Eab as [_ Eb]. apply Ascii.eqb_eq in Eb as ->.
             discriminate Hc. }
           destruct (IH (String b' s'') ltac:(simpl in *; lia)) as (line & Hl & Hlc); [done..|].
           exists line. split; [|done]. 
           destruct (splitlines (String b' s'')) eqn:E; [done|]. done.
        -- destruct (IH (String b s') ltac:(simpl in *; lia) Hlast Hc) as (line & Hl & Hlc).
           exists line. split; [|done].
           destruct (splitlines (String b s')) eqn:E; [done|]. done.
      * destruct (IH (String b s') ltac:(simpl in *; lia) Hlast Hc) as (line & Hl & Hlc).
        destruct (splitlines (String b s')) as [|h t] eqn:E; [done|].
        destruct t as [|h' t'].
        -- cbn in Hl. injection Hl as ->. exists (String a line). split; [done|].
           cbn [last_char]. destruct line; [done|]. done.
        -- exists line. split; [|done]. exact Hl.
Qed.

Lemma login_check_done retries response d d' :
  login_check retries response d = (Ok LoginDone, d') ->
  exists line,
    last (splitlines response) = Some line
    /\ ((endswith ">" response = true /\ d' = set_hostname (rstrip ">" line) d)
        \/ (endswith "#" response = true
            /\ d' = set_hostname (rstrip "#" line) (set_enable_mode true d))).
Proof.
  destruct (endswith ">" response || endswith "#" response) eqn:Hprompt.
  - apply orb_prop in Hprompt.
    assert (exists line, last (splitlines response) = Some line) as [line Hline].
    { destruct Hprompt as [H|H]; by apply last_splitlines_prompt in H. }
    rewrite (login_check_prompt _ _ _ line Hline Hprompt). intros [= <-].
    exists line. split; [done|].
    destruct (endswith ">" response) eqn:E; [by left|].
    destruct Hprompt as [|H]; [done|]. by right.
  - apply orb_false_elim in Hprompt as [H1 H2]. unfold login_check. rewrite H1, H2.
    unfold bind at 1. unfold gets at 1. cbv beta iota.
    destruct (username d) as [u|]; [|discriminate].
    unfold attr_split. rewrite bind_ret_l. by destruct (_ >? 1)%Z.
Qed.

Lemma login_check_again retries response d retries' response' d' :
  login_check retries response d = (Ok (LoginAgain retries' response'), d') ->
  d' = set_stdout (stdout d ++ [msg_try_next]) d.
Proof.
  destruct (endswith ">" response || endswith "#" response) eqn:Hprompt.
  - apply orb_prop in Hprompt.
    assert (exists line, last (splitlines response) = Some line) as [line Hline].
    { destruct Hprompt as [H|H]; by apply last_splitlines_prompt in H. }
    by rewrite (login_check_prompt _ _ _ line Hline Hprompt).
  - apply orb_false_elim in Hprompt as [H1 H2]. unfold login_check. rewrite H1, H2.
    unfold bind at 1. unfold gets at 1. cbv beta iota.
    destruct (username d) as [u|]; [|discriminate].
    unfold attr_split. rewrite bind_ret_l. destruct (_ >? 1)%Z; [|discriminate].
    by intros [= _ _ <-].
Qed.

Lemma login_body_fields retries response d ctl d' :
  login_body retries response d = (Ok ctl, d') ->
  host d' = host d /\ enable_password d' = enable_password d
  /\ match ctl with
     | LoginDone => logged_on d d'
     | LoginAgain _ _ => enable_mode d' = enable_mode d
     end.
Proof.
  unfold login_body. intros H.
  apply bind_ok_inv in H as (r1 & d1 & H1 & H).
  apply bind_ok_inv in H as (r2 & d2 & H2 & H).
  pose proof (frame_login_user host retries response d) as F1.
  pose proof (frame_login_user enable_password retries response d) as F2.
  pose proof (frame_login_user enable_mode retries response d) as F3.
  pose proof (frame_login_pass host retries r1 d1) as G1.
  pose proof (frame_login_pass enable_password retries r1 d1) as G2.
  pose proof (frame_login_pass enable_mode retries r1 d1) as G3.
  rewrite H1 in F1, F2, F3. rewrite H2 in G1, G2, G3. cbn [snd] in *.
  destruct ctl as [retries' response'|].
  - apply login_check_again in H as ->. cbn.
    split; [by rewrite G1|]. split; [by rewrite G2|by rewrite G3].
  - apply login_check_done in H as (line & Hline & Hcase).
    assert (Hend : forall c, islinebreak c = false ->
              endswith (String c "") r2 = true -> endswith (String c "") line = true).
    { intros c Hc He. apply endswith_last_char in He.
      destruct (last_char_last_line _ _ He Hc) as (line' & Hl & Hlc).
      rewrite Hline in Hl. injection Hl as <-. by apply endswith_last_char. }
    destruct Hcase as [[He ->]|[He ->]]; cbn;
      (split; [congruence|]; split; [congruence|]; exists line;
       split; [by apply (last_one_line r2)|]).
    + left. split; [by apply Hend|]. split; [done|cbn; congruence].
    + right. split; [by apply Hend|]. done.
Qed.

Lemma login_loop_fields fuel : forall retries response d d',
  login_loop fuel retries response d = (Ok tt, d') ->
  host d' = host d /\ enable_password d' = enable_password d /\ logged_on d d'.
Proof.
  induction fuel as [|fuel IH]; intros retries response d d'; [discriminate|].
  cbn [login_loop]. intros H. apply bind_ok_inv in H as (ctl & d1 & H1 & H).
  apply login_body_fields in H1 as (Hh & He & Hctl).
  destruct ctl as [retries' response'|].
  - apply IH in H as (Hh' & He' & line & Hl & Hcase).
    split; [congruence|]. split; [congruence|]. exists line. split; [done|].
    destruct Hcase as [(?&?&?)|(?&?&?)]; [left|right]; repeat split; congruence.
  - by injection H as <-.
Qed.

(** What a successful [__init__] has stored.  The host name is a line
    that ended in the prompt character, less all its trailing prompt
    characters, so that it does not end in one; the privileged mode is
    set exactly when that character was [#]; the address and the enable
    password are untouched. *)
Theorem login_stores_prompt_line fuel quiet d d' :
  init fuel quiet d = (Ok tt, d') ->
  host d' = host d /\ enable_password d' = enable_password d
  /\ exists line,
       one_line line
       /\ ((endswith ">" line = true /\ hostname d' = rstrip ">" line
            /\ endswith ">" (hostname d') = false
            /\ enable_mode d' = enable_mode d)
           \/ (endswith "#" line = true /\ hostname d' = rstrip "#" line
               /\ endswith "#" (hostname d') = false
               /\ enable_mode d' = true)).
Proof.
  rewrite init_run. destruct (inbox d) as [|banner rest]; [discriminate|].
  unfold last_item. destruct (last (splitlines banner)) as [line0|]; [|discriminate].
  intros H. apply bind_ok_inv in H as ([] & d1 & H1 & H).
  apply login_loop_fields in H1 as (Hh & He & line & Hl & Hcase).
  assert (Hd' : host d' = host d1 /\ enable_password d' = enable_password d1
                /\ hostname d' = hostname d1 /\ enable_mode d' = enable_mode d1).
  { destruct quiet; cbn in H; by injection H as <-. }
  destruct Hd' as (E1 & E2 & E3 & E4).
  assert (Hg : host (set_inbox rest (greeted quiet d)) = host d
               /\ enable_password (set_inbox rest (greeted quiet d)) = enable_password d
               /\ enable_mode (set_inbox rest (greeted quiet d)) = enable_mode d).
  { unfold greeted. by destruct quiet. }
  destruct Hg as (G1 & G2 & G3).
  split; [congruence|]. split; [congruence|]. exists line. split; [done|].
  destruct Hcase as [(?&Hn&?)|(?&Hn&?)]; [left|right].
  - split; [done|]. split; [congruence|]. split; [|congruence].
    rewrite E3, Hn. apply rstrip_prompt_gone.
  - split; [done|]. split; [congruence|]. split; [|congruence].
    rewrite E3, Hn. apply rstrip_prompt_gone.
Qed.

Lemma login_stores_prompt_line_witness :
  let d := new_device "192.0.2.1" (Some "admin") (Some "secret") (Some "e1")
             [sample_banner; sample_password_prompt; sample_user_prompt] [] in
  host (init 1 true d).2 = "192.0.2.1"
  /\ enable_password (init 1 true d).2 = Some "e1"
  /\ exists line,
       one_line line
       /\ ((endswith ">" line = true /\ hostname (init 1 true d).2 = rstrip ">" line
            /\ endswith ">" (hostname (init 1 true d).2) = false
            /\ enable_mode (init 1 true d).2 = false)
           \/ (endswith "#" line = true /\ hostname (init 1 true d).2 = rstrip "#" line
               /\ endswith "#" (hostname (init 1 true d).2) = false
               /\ enable_mode (init 1 true d).2 = true)).
Proof.
  intros d. apply (login_stores_prompt_line 1 true d (init 1 true d).2).
  vm_compute. reflexivity.
Defined.

(** ** Where [expect] cuts the stream *)

Lemma startswith_take_mono pat n s :
  startswith pat (string_take n s) = true -> startswith pat s = true.
Proof.
  revert n s. induction pat as [|a pat IH]; intros n s; [done|].
  destruct n as [|n], s as [|b s]; cbn [string_take startswith]; try done.
  intros [Hab H]%andb_prop. rewrite Hab. cbn [andb]. by apply (IH n).
Qed.

Lemma contains_take_mono pat n s :
  contains pat (string_take n s) = true -> contains pat s = true.
Proof.
  revert n. induction s as [|b s IH]; intros n.
  - by destruct n.
  - destruct n as [|n].
    + cbn [string_take]. intros H. cbn [contains] in H. rewrite orb_false_r in H.
      destruct pat; [done|discriminate].
    + cbn [string_take]. cbn [contains]. intros [H|H]%orb_prop.
      * apply (startswith_take_mono pat (S n) (String b s)) in H. by rewrite H.
      * apply IH in H. rewrite H. apply orb_true_r.
Qed.

Lemma startswith_length pat s :
  startswith pat s = true -> (String.length pat <= String.length s)%nat.
Proof.
  revert s. induction pat as [|a pat IH]; intros s; [simpl; lia|].
  destruct s as [|b s]; [done|]. cbn [startswith String.length].
  intros [_ H]%andb_prop. apply IH in H. lia.
Qed.

Lemma search_bounds pat buf e :
  Telnet.search pat buf = Some e ->
  (String.length pat <= e <= String.length buf)%nat.
Proof.
  revert e. induction buf as [|c buf IH]; intros e; cbn [Telnet.search].
  - destruct (startswith pat "") eqn:Hs; [|done]. intros [= <-].
    apply startswith_length in Hs. lia.
  - destruct (startswith pat (String c buf)) eqn:Hs.
    + intros [= <-]. apply startswith_length in Hs. lia.
    + destruct (Telnet.search pat buf) as [e'|]; [|done]. intros [= <-].
      specialize (IH e' eq_refl). cbn [String.length]. lia.
Qed.

Lemma search_leftmost pat buf e :
  pat <> "" -> Telnet.search pat buf = Some e ->
  contains pat (string_take (e - 1) buf) = false.
Proof.
  intros Hpat. revert e. induction buf as [|c buf IH]; intros e; cbn [Telnet.search].
  - destruct (startswith pat "") eqn:Hs; [|done]. by destruct pat.
  - destruct (startswith pat (String c buf)) eqn:Hs.
    + intros [= <-]. destruct (contains _ _) eqn:Hc; [|done]. exfalso.
      assert (Hlen : forall s, contains pat s = true ->
                (String.length pat <= String.length s)%nat).
      { clear -Hpat. induction s as [|b s IHs]; cbn [contains].
        - rewrite orb_false_r. apply startswith_length.
        - intros [H|H]%orb_prop; [by apply startswith_length|].
          apply IHs in H. cbn [String.length]. lia. }
      apply Hlen in Hc.
      pose proof (length_string_take (String.length pat - 1) (String c buf)).
      destruct pat; [done|]. cbn [String.length] in *. lia.
    + destruct (Telnet.search pat buf) as [e'|] eqn:He; [|done]. intros [= <-].
      pose proof (search_bounds _ _ _ He) as [Hlo _].
      assert (1 <= String.length pat)%nat by (destruct pat; [done|simpl; lia]).
      destruct e' as [|e'']; [lia|].
      replace (S (S e'') - 1) with (S e'') by lia.
      cbn [string_take contains].
      specialize (IH (S e'') eq_refl). replace (S e'' - 1) with e'' in IH by lia.
      rewrite IH, orb_false_r.
      destruct (startswith pat (String c (string_take e'' buf))) eqn:Hs'; [|done].
      apply (startswith_take_mono pat (S e'') (String c buf)) in Hs'. congruence.
Qed.

Lemma string_take_take n m s : (n <= m)%nat ->
  string_take n (string_take m s) = string_take n s.
Proof.
  revert m s. induction n as [|n IH]; intros m s Hle; [by destruct (string_take m s)|].
  destruct m as [|m]; [lia|]. destruct s as [|c s]; [done|].
  cbn [string_take]. by rewrite IH by lia.
Qed.

Lemma length_string_take_le n s : (n <= String.length s)%nat ->
  String.length (string_take n s) = n.
Proof.
  revert s. induction n as [|n IH]; intros s Hle; [by destruct s|].
  destruct s as [|c s]; [simpl in Hle; lia|]. cbn [string_take String.length].
  rewrite IH; [done|]. simpl in Hle. lia.
Qed.

Lemma first_match_earlier patterns buf : forall i0 j e,
  Telnet.first_match i0 patterns buf = Some (j, e) ->
  forall k pat, patterns !! k = Some pat -> (i0 + k < j)%nat ->
                Telnet.search pat buf = None.
Proof.
  induction patterns as [|pat0 patterns IH]; intros i0 j e; [done|].
  cbn [Telnet.first_match]. destruct (Telnet.search pat0 buf) as [e0|] eqn:E0.
  - intros [= <- <-] k pat _ Hlt. lia.
  - intros H k pat Hk Hlt. destruct k as [|k].
    + cbn in Hk. by injection Hk as <-.
    + cbn in Hk. apply (IH _ _ _ H k pat Hk). lia.
Qed.

Lemma expect_from_match patterns stream : forall buffer i text c',
  Telnet.expect_from patterns buffer stream = (Ok (Some i, text), c') ->
  exists buf e,
    Telnet.first_match 0 patterns buf = Some (i, e) /\ text = string_take e buf.
Proof.
  induction stream as [|ev stream IH]; intros buffer i text c'; cbn [Telnet.expect_from].
  - destruct (Telnet.first_match 0 patterns buffer) as [[j e]|] eqn:E.
    + intros [= <- <- <-]. by exists buffer, e.
    + by destruct (is_empty buffer).
  - destruct (Telnet.first_match 0 patterns buffer) as [[j e]|] eqn:E.
    + intros [= <- <- <-]. by exists buffer, e.
    + destruct ev as [chunk|]; [apply IH|done].
Qed.

Lemma last_char_contains c s :
  last_char s = Some c -> contains (String c "") s = true.
Proof.
  induction s as [|a s IH]; [done|]. cbn [last_char contains startswith].
  destruct s as [|b s'].
  - intros [= ->]. by rewrite Ascii.eqb_refl.
  - intros H. rewrite (IH H). apply orb_true_r.
Qed.

(** A match of a one-character pattern: the text ends in it and holds
    it nowhere else. *)
Lemma search_char_text c buf e :
  Telnet.search (String c "") buf = Some e ->
  endswith (String c "") (string_take e buf) = true
  /\ contains (String c "")
       (string_take (String.length (string_take e buf) - 1) (string_take e buf)) = false.
Proof.
  intros H. split; [by apply search_Some|].
  pose proof (search_bounds _ _ _ H) as [_ Hhi].
  rewrite (length_string_take_le _ _ Hhi), string_take_take by lia.
  by apply search_leftmost.
Qed.

Lemma search_None_take pat buf e :
  Telnet.search pat buf = None -> contains pat (string_take e buf) = false.
Proof.
  intros H%search_None. destruct (contains pat (string_take e buf)) eqn:E; [|done].
  apply contains_take_mono in E. congruence.
Qed.

(** The three ways a text comes back from [read_output]: cut at its
    first [>], cut at its first [#] with no [>] in it, or free of both. *)
Lemma read_output_cases password_prompt c text c' :
  Telnet.read_output password_prompt c = (Ok text, c') ->
  (endswith ">" text = true
   /\ contains ">" (string_take (String.length text - 1) text) = false)
  \/ (contains ">" text = false /\ endswith "#" text = true
      /\ contains "#" (string_take (String.length text - 1) text) = false)
  \/ (contains ">" text = false /\ contains "#" text = false).
Proof.
  unfold Telnet.read_output, Telnet.expect.
  destruct (Telnet.expect_from _ _ _) as [[[[i|] t]|e|] c1] eqn:Hrun; [| |done..].
  - intros [= <- <-].
    apply expect_from_match in Hrun as (buf & e & Hm & ->).
    pose proof (first_match_earlier _ _ _ _ _ Hm) as Hearlier.
    apply first_match_Some in Hm as (pat & Hpat & _ & Hs).
    rewrite Nat.sub_0_r in Hpat.
    assert (H0 : expected password_prompt !! 0 = Some ">") by by destruct password_prompt.
    assert (H1 : expected password_prompt !! 1 = Some "#") by by destruct password_prompt.
    destruct i as [|[|i]].
    + rewrite H0 in Hpat. injection Hpat as <-. left. by apply search_char_text.
    + rewrite H1 in Hpat. injection Hpat as <-.
      pose proof (Hearlier 0 ">" H0 ltac:(lia)) as Hgt.
      apply (search_None_take _ _ e) in Hgt. right. left.
      split; [done|]. by apply search_char_text.
    + pose proof (Hearlier 0 ">" H0 ltac:(lia)) as Hgt.
      pose proof (Hearlier 1 "#" H1 ltac:(lia)) as Hh.
      apply (search_None_take _ _ e) in Hgt, Hh. by right; right.
  - intros [= <- <-].
    destruct (expect_from_spec _ _ _ _ _ Hrun) as (consumed & _ & _ & _ & Hnone & _).
    right; right. split; apply Hnone; destruct password_prompt;
      apply (bool_decide_unpack _); by vm_compute.
Qed.

(** Where [read_output] cuts the byte stream.  A text that holds [>]
    ends at its first [>]; a text without [>] that holds [#] ends at its
    first [#].  The two prompt patterns come first in the list, so the
    cues are met only in a text free of both characters. *)
Theorem read_output_stops_at_first_prompt password_prompt c text c' :
  Telnet.read_output password_prompt c = (Ok text, c') ->
  (contains ">" text = true ->
   endswith ">" text = true
   /\ contains ">" (string_take (String.length text - 1) text) = false)
  /\ (contains ">" text = false -> contains "#" text = true ->
      endswith "#" text = true
      /\ contains "#" (string_take (String.length text - 1) text) = false).
Proof.
  intros Hread.
  destruct (read_output_cases _ _ _ _ Hread) as [[He Hc]|[(Hgt & He & Hc)|[Hgt Hh]]].
  - split; [done|]. intros Hno.
    apply endswith_last_char, last_char_contains in He. congruence.
  - split; [congruence|done].
  - split; congruence.
Qed.

Lemma read_output_stops_at_first_prompt_witness :
  let c := Telnet.Conn "" [Telnet.Data sample_decorated_banner] in
  (Telnet.read_output true c).1 = Ok "#"
  /\ contains ">" "#" = false
  /\ endswith "#" "#" = true
  /\ contains "#" (string_take (String.length "#" - 1) "#") = false.
Proof.
  intros c.
  assert (Hrun : Telnet.read_output true c = (Ok "#", (Telnet.read_output true c).2))
    by (vm_compute; reflexivity).
  split; [exact (f_equal fst Hrun)|]. split; [reflexivity|].
  apply (read_output_stops_at_first_prompt true c "#" _ Hrun); reflexivity.
Defined.

Lemma endswith_last_line c response line :
  islinebreak c = false -> last (splitlines response) = Some line ->
  endswith (String c "") response = true -> endswith (String c "") line = true.
Proof.
  intros Hc Hline He. apply endswith_last_char in He.
  destruct (last_char_last_line _ _ He Hc) as (line' & Hl & Hlc).
  rewrite Hline in Hl. injection Hl as <-. by apply endswith_last_char.
Qed.

(** A greeting that holds [#] before any [>] and before the cue.  The
    first [read_output] cuts it at that [#]; when the line so cut holds
    no cue, [__init__] takes it for the privileged prompt: the login
    succeeds with nothing written, in privileged mode, and the host name
    is that line less its [#] characters. *)
Theorem login_cut_short_by_banner fuel quiet c c' d banner rest line :
  Telnet.read_output true c = (Ok banner, c') ->
  contains ">" banner = false -> contains "#" banner = true ->
  inbox d = banner :: rest ->
  last (splitlines banner) = Some line ->
  contains "User" line = false -> contains "Pass" line = false ->
  exists d',
    init (S fuel) quiet d = (Ok tt, d')
    /\ outbox d' = outbox d /\ stdin d' = stdin d
    /\ enable_mode d' = true /\ hostname d' = rstrip "#" line.
Proof.
  intros Hread Hgt Hh Hin Hline Hu Hp.
  assert (Hend : endswith "#" banner = true).
  { destruct (read_output_cases _ _ _ _ Hread) as [[He _]|[(_ & He & _)|[_ Hno]]];
      [|done|congruence].
    apply endswith_last_char, last_char_contains in He. congruence. }
  apply (endswith_last_line "#" _ line) in Hend; [|done|done].
  assert (Hnot : endswith ">" line = false).
  { destruct (endswith ">" line) eqn:E; [|done].
    apply endswith_prompts_exclusive in E. congruence. }
  rewrite init_run, Hin. unfold last_item. rewrite Hline. unfold bind at 1.
  rewrite (login_loop_at_prompt fuel _ line (last_one_line _ _ Hline) Hu Hp
             (or_intror Hend)).
  rewrite Hnot. unfold greeted.
  destruct quiet; (eexists; split; [reflexivity|]; cbn; done).
Qed.

Lemma login_cut_short_by_banner_witness :
  let c := Telnet.Conn "" [Telnet.Data sample_decorated_banner] in
  let d := new_device "192.0.2.1" (Some "admin") (Some "secret") None ["#"] [] in
  exists d',
    init 1 true d = (Ok tt, d')
    /\ outbox d' = [] /\ stdin d' = []
    /\ enable_mode d' = true /\ hostname d' = "".
Proof.
  intros c d.
  apply (login_cut_short_by_banner 0 true c (Telnet.read_output true c).2 d "#" [] "#").
  - vm_compute. reflexivity.
  - reflexivity.
  - reflexivity.
  - reflexivity.
  - reflexivity.
  - reflexivity.
  - reflexivity.
Defined.
